(* ===== verification/_CoqProject ===== *)
-Q . S2P
Prelude.v
Hoare.v
PyStr.v
PyFormat.v
PyRegex.v
Mappings.v
Config.v
Commands.v
Results.v
World.v
Orchestrator.v
