(* ===== verification/Prelude.v ===== *)
(** * A verification library for the MPTCP experiment scripts

    The repository drives a network-emulation experiment from two Python 2
    scripts of the same shape:
    - [src/src/test0.py]  : the dual-homed-tree run ("dht" variant);
    - [src/src/test_ft.py]: the fat-tree run ("ft" variant).
    Each script parses its command line ([parse_args]), starts a POX
    controller ([Popen]), builds and starts a Mininet network, switches
    MPTCP on ([enable_mptcp]), picks sender and receiver hosts by a regular
    expression on their IP address ([create_mappings]), launches the
    receiver and then the sender programs with [sendCmd], joins them with
    [waitOutput], tears the controller and the network down and writes the
    captured timings as a two-line CSV file ([write_results]).  A bare
    [except:] around [main] prints the trace and cleans up.  The parts
    interact only through [main]: the configuration feeds the mapping, the
    command lines and the file name; the mapping feeds the launches; the
    outputs of the joins feed the results file.

    ** Files, in dependency order, and the code each models
    - [Prelude] (this file): Python strings as [list ascii] (a Python 2
      [str] is a byte string), the exceptions the scripts can raise, the
      error monad [result] (an [MBind] instance, so fallible code reads
      [x ← c; k x]), list indexing [py_index] (IndexError out of range),
      [range], a [for] loop collecting results ([for_each]), and the
      state-and-error monad [stm S A := S -> S * result A] that keeps the
      state when an exception is raised; [no_assert r] (what [r] raises
      is not AssertionError) with its hint database [noassert] and the
      tactic [solve_no_assert]; the hint databases [pyorch] and [pyrw]
      and the tactics [bool_arith], [decide_lit], [invc].
    - [Hoare]: a weakest-precondition calculus for [stm]: [wp c Q E s]
      with an exception postcondition [E], its equations for [mbind] and
      the primitives, consequence, and a loop rule for [st_iter] with an
      invariant over the processed prefix.
    - [PyStr]: the string built-ins with CPython 2.7 semantics:
      [str.strip], [sep.join], [str.split], [str(int)] / ['%i'] (decimal
      printing with fuel) and [int(str)] (the grammar of
      [PyInt_FromString]).
    - [PyFormat]: Python values ([pyval]), [repr] of a byte string, [str]
      of a list, and the ['%'] operator for [%s], [%r], [%d], [%i], [%%]
      (ValueError on an unknown directive, TypeError on a wrong arity or
      on [%d] of a string).
    - [PyRegex]: the fragment of [re.search] the two pool patterns use:
      [compile_re] turns the pattern text into atoms (literal, class,
      [\d]), [search_from] tries every start position.
    - [Mappings]: [create_mappings] of both scripts (test0.py lines
      170-187, test_ft.py lines 168-183) over [net.hosts] as records (name,
      IP); [random.shuffle] is a Section variable with the hypothesis that
      it permutes.  The class [HostSelection] states what [main] needs of
      a selection (the selected hosts are hosts of the network); both
      variants are instances.  [separated m] (no host twice, none in both
      roles) is what the launch loops need, proved of both variants.
    - [Config]: [parse_args] (test0.py lines 20-70, test_ft.py 25-70):
      argparse's namespace (default or given string) converted by [int()].
    - [Commands]: the receiver and sender command lines (test0.py lines
      102-133, test_ft.py 98-126), debug redirections included.
    - [Results]: [write_results] (test0.py lines 153-167, test_ft.py
      151-165): the dicts [tts]/[ttr] as stdpp [gmap]s, [dict.values()] in
      map order, the file name, and [os.path.exists] / [os.makedirs] /
      [open] / [write] on a file-system state [fs] of directories and
      files.
    - [World]: the state [main] acts on ([world]: file system, MPTCP
      switch, started processes, network up, Mininet hosts with a command
      running, trace of the external calls) and the external calls as
      [stm world] operations: [Popen], [time.sleep], [Mininet(...)],
      [net.start] / [net.stop], [enable_mptcp] / [reset], [kill] / [wait],
      Mininet's [sendCmd] (which asserts the host is idle), [waitOutput],
      [Node.cmd], [os.system], [try/except].  What the libraries do is the
      class [Env]: which calls raise, what a command prints, [net.hosts],
      [random.shuffle].  [keeps f c] is a frame condition (the call leaves
      the field [f] alone), with a hint database [keeps]; [safe P c] says
      [c] keeps the state predicate [P] and raises no AssertionError, with
      a rule per call and a hint database [safe].
    - [Orchestrator]: [main] of both scripts, call by call in source order
      (test0.py lines 72-151, test_ft.py 72-149), the handlers (test0.py
      189-198, test_ft.py 185-192), run lemmas for each loop, the
      invariant of the launch loops ([waits_within]: every waiting host
      was launched by the loop so far), and an abstraction of the trace
      to the steps of the spec's orchestration sequence ([phase_of],
      [spec_run]).

    ** What the theorems show (the claims C1-C33 of the manifest)
    - Cleanup (C1, C2, C12, C13, C14): test_ft.py leaves MPTCP reset on
      every exit path, test0.py leaves it on after a normal end; the
      handlers of both scripts kill every process and the network, and
      only test0.py's copies the POX log first; when a pool of test_ft.py
      is too short, [main] raises IndexError with POX and the network up
      and the handler tears both down.
    - The runs (C3, C5, C7, C8, C15): on a successful run of either
      script the exact sequence of calls, every host waited for, no
      process left, and the results written from the collected outputs;
      abstracted, the run of test_ft.py is the spec's sequence (a
      refinement theorem); every command started is later waited for
      (liveness on the trace, [answered]); with [-ns 0 -nr 0] no host is
      sent a command and the file has two empty lines.  Both runs are
      composed of the shared blocks [launch_block_run] and
      [wait_block_run].
    - No failed assertion (C4, C10): from a state where no host runs a
      command, on a network of distinct hosts (with dotted-quad addresses
      for test_ft.py), no [sendCmd] of [main] meets a waiting host, so
      [main] never raises Mininet's AssertionError.  The proof composes
      the [safe] rules of every call with the loop invariant
      [waits_within] and the [separated] property of the selection.
    - Ordering (C9, C19): test0.py kills POX before stopping the network,
      test_ft.py stops the network first.
    - Selection (C6, C11, C16-C18, C32, C33): disjoint and duplicate-free
      pools, the exact result or IndexError, the one-sender-one-receiver
      override of test0.py, and what the unanchored patterns select.
    - Configuration and commands (C20-C26): [parse_args] against a
      grammar of integer literals, the TypeError of a string [-cs], the
      sender loop's ids [0 .. n-1] in launch order, the command texts,
      the shell words of [--ips] with several receivers, and the debug
      redirection of stdout and stderr to one file.
    - Results (C27-C31): the file reads back (up to the dict order), name
      collisions and injectivity, the file-system effect and the IOError
      when [../results] is a regular file.
    The built-ins (PyStr, PyFormat, PyRegex) carry the lemmas these rest
    on: [int()] against its grammar, [int(str(z)) = z], split/join round
    trips, and the search loop against its declarative reading.
    Witnesses run the scripts on the [k = 4] fat tree (16 hosts) in
    [Orchestrator.demo_env], including the spec's scenario A.

    ** Bounds and fuel
    The only fuel is that of the decimal printer [dec_aux]: [str_N n] uses
    [S (N.size n)] steps, enough because a number of [k] bits has at most
    [k] decimal digits (Lemma [dec_aux_fuel]: more fuel prints the same digits).  Python
    ints are unbounded, so integers are [Z] without wrap-around.  Every
    other definition is structurally recursive.

    ** Not modelled
    Mininet, POX/riplpox, the topology classes of [dctopo] and [dht], the
    sender/receiver programs, [mptcp_util], [timer.py] and [monitor] are
    not in the repository's sources: the model keeps only what the
    scripts observe of them (the [Env] oracles, the MPTCP flag, the
    process list, the network flag).  [waitOutput] is assumed to return
    (the spec notes it may block forever on a hung transfer).  argparse is
    a library: its namespace is the model's input.  [print],
    [lg.setLogLevel] and [termcolor] only write to the terminal, and
    [time.sleep] is a trace event.  Every statement of both scripts other
    than the imports is modelled; what is left of the program is the code
    of these libraries, which is not in the repository. *)

From stdpp Require Export base list strings gmap sorting.
From Stdlib Require Export ZArith Ascii.
From Stdlib Require String.

(** ** Python strings and literals *)

(** A Python 2 [str] is a sequence of bytes; we keep it as [list ascii] so
    that the list library applies directly.  [lit] turns a Rocq string
    literal into one. *)
Abbreviation pystr := (list ascii).

Definition lit (s : String.string) : pystr := String.list_ascii_of_string s.

Declare Scope py_scope.
Delimit Scope py_scope with py.

(** ** Exceptions and the error monad *)

(** The exceptions the two scripts can raise, by their Python name.
    [ReError] is [sre_constants.error]; [AssertionError] is the [assert]
    of Mininet's [Node.sendCmd]; [ExternalError] stands for any exception raised inside a library the
    scripts call (Mininet, POX, the file system). *)
Inductive exc :=
  | ValueError
  | IndexError
  | TypeError
  | ReError
  | AssertionError
  | ExternalError.

#[export] Instance exc_eq_dec : EqDecision exc.
Proof. solve_decision. Defined.

(** A computation that returns a value or raises an exception. *)
Inductive result (A : Type) :=
  | Ok (a : A)
  | Raise (e : exc).
Arguments Ok {A} a.
Arguments Raise {A} e.

#[export] Instance result_ret : MRet result := fun _ a => Ok a.
#[export] Instance result_bind : MBind result :=
  fun _ _ f c => match c with Ok a => f a | Raise e => Raise e end.

(** Python's [for] loop that appends [f i] for every [i] of an index
    list, stopping at the first exception. *)
Fixpoint for_each {A B} (f : A -> result B) (xs : list A) : result (list B) :=
  match xs with
  | [] => Ok []
  | x :: xs' => y ← f x; ys ← for_each f xs'; Ok (y :: ys)
  end.

(** [l[i]] for a non-negative index: [IndexError] out of range. *)
Definition py_index {A} (l : list A) (i : nat) : result A :=
  match l !! i with Some x => Ok x | None => Raise IndexError end.

(** [range(n)] for a Python int [n]: empty when [n <= 0]. *)
Definition py_range (n : Z) : list nat := seq 0 (Z.to_nat n).

(** ** Shared lemmas *)

Create HintDb pyorch discriminated.
Create Rewrite HintDb pyrw.

Lemma Ok_bind {A B} (a : A) (f : A -> result B) : (x ← Ok a; f x) = f a.
Proof. reflexivity. Qed.

Lemma Raise_bind {A B} e (f : A -> result B) : (x ← Raise e; f x) = Raise e.
Proof. reflexivity. Qed.

Lemma bind_Ok {A B} (c : result A) (f : A -> result B) b :
  (x ← c; f x) = Ok b <-> exists a, c = Ok a /\ f a = Ok b.
Proof.
  destruct c as [a|e]; simpl; split.
  - intros H. by exists a.
  - intros (a' & [= ->] & H). done.
  - done.
  - by intros (a' & ? & _).
Qed.

Lemma for_each_Ok {A B} (f : A -> result B) xs ys :
  for_each f xs = Ok ys <-> Forall2 (fun x y => f x = Ok y) xs ys.
Proof.
  revert ys; induction xs as [|x xs IH]; intros ys; simpl.
  - split; [intros [= <-]; constructor | intros H; inversion H; done].
  - rewrite bind_Ok. setoid_rewrite bind_Ok. split.
    + intros (y & Hy & ys' & Hys & [= <-]). constructor; [done|]. by apply IH.
    + intros H; inversion H as [|? y ? ys' Hy Hys]; subst.
      exists y; split; [done|]. exists ys'; split; [by apply IH|done].
Qed.

Lemma py_index_Ok {A} (l : list A) i x : py_index l i = Ok x <-> l !! i = Some x.
Proof. unfold py_index. destruct (l !! i); split; congruence. Qed.

(** Indexing every position below [n] of a list succeeds exactly when the
    list is long enough, and gives its first [n] elements. *)
Lemma for_each_index_seq {A} (l : list A) n ys :
  for_each (py_index l) (seq 0 n) = Ok ys <-> n <= length l /\ ys = take n l.
Proof.
  rewrite for_each_Ok. revert l ys; induction n as [|n IH]; intros l ys.
  - split; [intros H; inversion H; split; [lia|done] | intros [_ ->]; constructor].
  - rewrite seq_S. split.
    + intros H. apply Forall2_app_inv_l in H as (ys1 & ys2 & H1 & H2 & ->).
      apply IH in H1 as [Hn ->]. inversion H2 as [|? y ? ? Hy Hnil]; subst.
      inversion Hnil; subst. apply py_index_Ok in Hy.
      pose proof (lookup_lt_Some _ _ _ Hy). split; [simpl in *; lia|].
      by rewrite (take_S_r _ _ y).
    + intros [Hn ->]. destruct (lookup_lt_is_Some_2 l n) as [y Hy]; [lia|].
      rewrite (take_S_r _ _ y) by done. apply Forall2_app.
      * apply IH. split; [lia|done].
      * constructor; [|constructor]. by apply py_index_Ok.
Qed.

Lemma for_each_raises_only {A B} (f : A -> result B) e xs e' :
  (forall x e0, f x = Raise e0 -> e0 = e) -> for_each f xs = Raise e' -> e' = e.
Proof.
  intros Hf; induction xs as [|x xs IH]; simpl; [done|].
  destruct (f x) as [y|e0] eqn:Hx; simpl.
  - destruct (for_each f xs); simpl; [done|]. intros [= <-]. by apply IH.
  - intros [= <-]. by eapply Hf.
Qed.

Lemma for_each_index_seq_err {A} (l : list A) n :
  length l < n -> for_each (py_index l) (seq 0 n) = Raise IndexError.
Proof.
  intros Hn. destruct (for_each (py_index l) (seq 0 n)) as [ys|e] eqn:E.
  - apply for_each_index_seq in E. lia.
  - f_equal. eapply for_each_raises_only; [|exact E].
    intros x e0. unfold py_index. destruct (l !! x); congruence.
Qed.

(** Case analysis on the boolean comparisons of [N] and [Z] in the goal
    and the hypotheses, closing arithmetic leaves with [lia]. *)
Ltac bool_arith :=
  repeat match goal with
  | |- context [(?a <=? ?b)%N] => destruct (N.leb_spec a b)
  | |- context [(?a <? ?b)%N] => destruct (N.ltb_spec a b)
  | |- context [(?a =? ?b)%N] => destruct (N.eqb_spec a b)
  | H : context [(?a <=? ?b)%N] |- _ => destruct (N.leb_spec a b)
  | H : context [(?a <? ?b)%N] |- _ => destruct (N.ltb_spec a b)
  | H : context [(?a =? ?b)%N] |- _ => destruct (N.eqb_spec a b)
  | |- context [(?a <=? ?b)%Z] => destruct (Z.leb_spec a b)
  | |- context [(?a <? ?b)%Z] => destruct (Z.ltb_spec a b)
  | H : context [(?a <=? ?b)%Z] |- _ => destruct (Z.leb_spec a b)
  | H : context [(?a <? ?b)%Z] |- _ => destruct (Z.ltb_spec a b)
  end; simpl in *; try lia.

(** Close a decidable goal about concrete values by evaluation. *)
Ltac decide_lit := apply (bool_decide_unpack _); vm_compute; exact I.

Ltac invc H := inversion H; subst; clear H.

Lemma elem_of_take_l {A} (x : A) n l : x ∈ take n l -> x ∈ l.
Proof. intros (i & Hi & _)%elem_of_take. by eapply list_elem_of_lookup_2. Qed.

Lemma NoDup_take_l {A} n (l : list A) : NoDup l -> NoDup (take n l).
Proof. rewrite <- (take_drop n l) at 1. by intros [? _]%NoDup_app. Qed.

#[export] Hint Resolve elem_of_take_l NoDup_take_l : pyorch.

(** ** Stateful code that can raise *)

(** A computation over a state [S]: the state it leaves (also when it
    raises, so that the effects before an exception are kept) and its
    outcome. *)
Definition stm (S A : Type) : Type := S -> S * result A.

#[export] Instance stm_ret {S} : MRet (stm S) := fun _ a s => (s, Ok a).
#[export] Instance stm_bind {S} : MBind (stm S) :=
  fun _ _ f c s =>
    match c s with
    | (s', Ok a) => f a s'
    | (s', Raise e) => (s', Raise e)
    end.

Definition st_get {S} : stm S S := fun s => (s, Ok s).
Definition st_put {S} (s : S) : stm S unit := fun _ => (s, Ok tt).
Definition st_modify {S} (f : S -> S) : stm S unit := fun s => (f s, Ok tt).
Definition st_raise {S A} (e : exc) : stm S A := fun s => (s, Raise e).

(** A pure fallible step inside a stateful computation. *)
Definition st_lift {S A} (r : result A) : stm S A := fun s => (s, r).

(** [for x in xs: body(x)] *)
Fixpoint st_iter {S A} (body : A -> stm S unit) (xs : list A) : stm S unit :=
  match xs with
  | [] => mret tt
  | x :: xs' => _ ← body x; st_iter body xs'
  end.

Lemma st_bind_run {S A B} (c : stm S A) (f : A -> stm S B) s :
  (x ← c; f x) s = match c s with
                   | (s', Ok a) => f a s'
                   | (s', Raise e) => (s', Raise e)
                   end.
Proof. reflexivity. Qed.

Lemma bind_run_Ok {S A B} (c : stm S A) (f : A -> stm S B) s s' a :
  c s = (s', Ok a) -> (x ← c; f x) s = f a s'.
Proof. intros Hc. rewrite st_bind_run, Hc. reflexivity. Qed.

Lemma bind_run_Raise {S A B} (c : stm S A) (f : A -> stm S B) s s' e :
  c s = (s', Raise e) -> (x ← c; f x) s = (s', Raise e).
Proof. intros Hc. rewrite st_bind_run, Hc. reflexivity. Qed.

Lemma st_iter_ext {S A} (b1 b2 : A -> stm S unit) xs :
  (forall x, b1 x = b2 x) -> st_iter b1 xs = st_iter b2 xs.
Proof. intros Hb. induction xs as [|x xs IH]; simpl; [done|by rewrite Hb, IH]. Qed.

Lemma for_each_ext {A B} (f g : A -> result B) xs :
  (forall x, f x = g x) -> for_each f xs = for_each g xs.
Proof. intros Hfg. induction xs as [|x xs IH]; simpl; [done|by rewrite Hfg, IH]. Qed.

(** ** Code that never raises [AssertionError] *)

(** Only Mininet's [sendCmd] raises AssertionError; every pure
    computation of the scripts raises something else. *)
Definition no_assert {A} (r : result A) : Prop := forall e, r = Raise e -> e <> AssertionError.

Lemma no_assert_Ok {A} (a : A) : no_assert (Ok a).
Proof. by intros e. Qed.

Lemma no_assert_bind {A B} (c : result A) (f : A -> result B) :
  no_assert c -> (forall a, c = Ok a -> no_assert (f a)) -> no_assert (x ← c; f x).
Proof.
  intros Hc Hf e. destruct c as [a|e0]; simpl; [by apply Hf|]. intros [= <-]. by apply Hc.
Qed.

Lemma no_assert_of {A} (r : result A) (P : exc -> Prop) :
  (forall e, r = Raise e -> P e) -> ~ P AssertionError -> no_assert r.
Proof. intros HP Hn e He ->. by apply Hn, HP. Qed.

Lemma no_assert_for_each {A B} (f : A -> result B) xs :
  (forall x, no_assert (f x)) -> no_assert (for_each f xs).
Proof.
  intros Hf. induction xs as [|x xs IH]; simpl; [apply no_assert_Ok|].
  apply no_assert_bind; [done|]. intros. apply no_assert_bind; [done|]. intros. apply no_assert_Ok.
Qed.

Lemma no_assert_Raise {A} e : e <> AssertionError -> no_assert (A:=A) (Raise e).
Proof. intros Hn e' [= <-]. done. Qed.

Lemma py_index_no_assert {A} (l : list A) i : no_assert (py_index l i).
Proof. unfold py_index. destruct (l !! i); [apply no_assert_Ok|by apply no_assert_Raise]. Qed.

(** The same of a computation that threads a state. *)
Definition st_no_assert {S A} (c : stm S A) : Prop := forall s, no_assert (snd (c s)).

Create HintDb noassert discriminated.
#[export] Hint Resolve no_assert_Ok no_assert_Raise no_assert_for_each py_index_no_assert : noassert.
#[export] Hint Extern 1 (_ <> AssertionError) => discriminate : noassert.

Ltac solve_no_assert :=
  repeat match goal with
  | |- no_assert (mbind _ _) => apply no_assert_bind; [|intros ? ?]
  end; auto with noassert.
