(* ===== verification/Hoare.v ===== *)
(** * A weakest-precondition calculus for the state-error monad

    [wp c Q E s] holds when running [c] from state [s] either returns a
    value [a] in a state satisfying [Q a], or raises [e] in a state
    satisfying [E e].  Every operator of [stm] (Prelude) has a [wp] rule;
    the rules for [mbind] and the primitives are equations, so a proof
    about a straight-line script is symbolic execution by rewriting
    ([wp_run]), and loops ([st_iter]) are handled by an invariant over the
    processed prefix ([wp_iter]). *)

From S2P Require Import Prelude.

Section Wp.
Context {S : Type}.

Definition wp {A} (c : stm S A) (Q : A -> S -> Prop) (E : exc -> S -> Prop) (s : S) : Prop :=
  match c s with
  | (s', Ok a) => Q a s'
  | (s', Raise e) => E e s'
  end.

Lemma wp_bind {A B} (c : stm S A) (f : A -> stm S B) Q E s :
  wp (x ← c; f x) Q E s = wp c (fun a => wp (f a) Q E) E s.
Proof. unfold wp, mbind, stm_bind. by destruct (c s) as [s' [a|e]]. Qed.

Lemma wp_ret {A} (a : A) Q E s : wp (mret a) Q E s = Q a s.
Proof. reflexivity. Qed.

Lemma wp_get Q E s : wp st_get Q E s = Q s s.
Proof. reflexivity. Qed.

Lemma wp_modify f Q E s : wp (st_modify f) Q E s = Q tt (f s).
Proof. reflexivity. Qed.

Lemma wp_lift_Ok {A} (a : A) Q E s : wp (st_lift (Ok a)) Q E s = Q a s.
Proof. reflexivity. Qed.

Lemma wp_lift_Raise {A} e (Q : A -> S -> Prop) E s : wp (st_lift (Raise e)) Q E s = E e s.
Proof. reflexivity. Qed.

Lemma wp_lift {A} (r : result A) Q E s :
  wp (st_lift r) Q E s = match r with Ok a => Q a s | Raise e => E e s end.
Proof. by destruct r. Qed.

Lemma wp_mono {A} (c : stm S A) (Q Q' : A -> S -> Prop) (E E' : exc -> S -> Prop) s :
  (forall a s', Q a s' -> Q' a s') -> (forall e s', E e s' -> E' e s') ->
  wp c Q E s -> wp c Q' E' s.
Proof. unfold wp. destruct (c s) as [s' [a|e]]; auto. Qed.

Lemma wp_iter_from {A} (body : A -> stm S unit) (I : list A -> S -> Prop) E xs :
  forall pre s,
  (forall pre' x post s1, pre ++ xs = pre' ++ x :: post -> I pre' s1 ->
     wp (body x) (fun _ => I (pre' ++ [x])) E s1) ->
  I pre s -> wp (st_iter body xs) (fun _ => I (pre ++ xs)) E s.
Proof.
  induction xs as [|x xs IH]; intros pre s Hb Hs; simpl.
  - by rewrite app_nil_r.
  - rewrite wp_bind. eapply wp_mono; [|done|by apply (Hb pre x xs)].
    intros u s2 Hs2. rewrite cons_middle, app_assoc. apply IH; [|done].
    intros pre' y post s3 Hxs. apply (Hb pre' y post). by rewrite <- Hxs, <- app_assoc.
Qed.

Lemma wp_trivial {A} (c : stm S A) (Q : A -> S -> Prop) (E : exc -> S -> Prop) s :
  (forall a s', Q a s') -> (forall e s', E e s') -> wp c Q E s.
Proof. unfold wp. destruct (c s) as [s' [a|e]]; auto. Qed.

(** A step whose outcome does not matter, because every exception is
    fine and every continuation is proved from any state. *)
Lemma wp_bind_skip {A B} (c : stm S A) (f : A -> stm S B) Q E s :
  (forall a s', wp (f a) Q E s') -> (forall e s', E e s') -> wp (x ← c; f x) Q E s.
Proof. intros Hf HE. rewrite wp_bind. by apply wp_trivial. Qed.

(** Reading a [wp] back as a statement about the run. *)
Lemma wp_result {A} (c : stm S A) Q E s s' r :
  wp c Q E s -> c s = (s', r) ->
  match r with Ok a => Q a s' | Raise e => E e s' end.
Proof. unfold wp. intros Hwp Hc. by rewrite Hc in Hwp. Qed.

(** A loop: an invariant [I] indexed by the items already processed. *)
Lemma wp_iter {A} (body : A -> stm S unit) (xs : list A) (I : list A -> S -> Prop) E s :
  (forall pre x post s1, xs = pre ++ x :: post -> I pre s1 ->
     wp (body x) (fun _ => I (pre ++ [x])) E s1) ->
  I [] s -> wp (st_iter body xs) (fun _ => I xs) E s.
Proof. intros Hb. apply (wp_iter_from body I E xs [] s). done. Qed.

End Wp.
