(* ===== verification/PyStr.v ===== *)
(** * Python 2 string built-ins used by the scripts

    [str.strip(chars)], [sep.join(list)], [str.split(sep)], decimal
    printing of a Python int ([str(n)], ['%i' % n], ['%d' % n],
    ['%s' % n]) and [int(s)] on a byte string, each with the semantics of
    CPython 2.7 ([do_xstrip], [string_join], [split_char],
    [int_to_decimal_string], [PyInt_FromString]/[PyOS_strtol]).  The
    scripts call them in [parse_args] ([int(args.bw)], ...),
    [write_results] ([x.strip('\n')], [','.join(...)], the ['%i'] fields of
    the file name) and in the command lines of [main]. *)

From S2P Require Import Prelude.

(** ** Character classes (C locale) *)

(** [isspace]: space, \t, \n, \v, \f, \r. *)
Definition is_space (c : ascii) : bool :=
  let n := N_of_ascii c in ((9 <=? n) && (n <=? 13))%N || (n =? 32)%N.

(** ['0'..'9']: the digits [PyOS_strtoul] accepts in base 10. *)
Definition is_digit (c : ascii) : bool :=
  let n := N_of_ascii c in ((48 <=? n) && (n <=? 57))%N.

Definition digit_val (c : ascii) : Z := Z.of_N (N_of_ascii c) - 48.

Definition digit_char (d : N) : ascii := ascii_of_N (48 + d).

(** ** [str.strip(chars)] *)

(** The left scan of [do_xstrip]: drop leading characters satisfying [p]. *)
Fixpoint lstrip_by (p : ascii -> bool) (s : pystr) : pystr :=
  match s with
  | [] => []
  | c :: t => if p c then lstrip_by p t else s
  end.

(** The right scan: drop trailing characters satisfying [p]. *)
Definition rstrip_by (p : ascii -> bool) (s : pystr) : pystr :=
  rev (lstrip_by p (rev s)).

Definition in_chars (chars : pystr) (c : ascii) : bool := bool_decide (c ∈ chars).

(** [s.strip(chars)]: both scans with the separator set [chars]. *)
Definition py_strip (chars : pystr) (s : pystr) : pystr :=
  rstrip_by (in_chars chars) (lstrip_by (in_chars chars) s).

(** ** [sep.join(items)] and [s.split(sep)] *)

Fixpoint py_join (sep : pystr) (items : list pystr) : pystr :=
  match items with
  | [] => []
  | [x] => x
  | x :: t => x ++ sep ++ py_join sep t
  end.

(** [s.split(c)] for a one-character separator ([split_char]): always at
    least one piece, [''.split(',') = ['']]. *)
Fixpoint py_split (c : ascii) (s : pystr) : list pystr :=
  match s with
  | [] => [[]]
  | x :: t =>
      let r := py_split c t in
      if decide (x = c) then [] :: r
      else match r with
           | [] => [[x]]
           | y :: ys => (x :: y) :: ys
           end
  end.

(** ** Lemmas on strip, join and split *)

Lemma lstrip_by_app_all p w t :
  Forall (fun c => p c = true) w -> lstrip_by p (w ++ t) = lstrip_by p t.
Proof. induction 1 as [|c w Hc _ IH]; simpl; [done|]. by rewrite Hc. Qed.

Lemma lstrip_by_stop p c t : p c = false -> lstrip_by p (c :: t) = c :: t.
Proof. simpl. by intros ->. Qed.

Lemma lstrip_by_decomp p s :
  exists w, Forall (fun c => p c = true) w /\ s = w ++ lstrip_by p s.
Proof.
  induction s as [|c t (w & Hw & Ht)]; simpl; [by exists []|].
  destruct (p c) eqn:Hc.
  - exists (c :: w). split; [by constructor|]. simpl. by f_equal.
  - by exists [].
Qed.

Lemma lstrip_by_head p s c t : lstrip_by p s = c :: t -> p c = false.
Proof.
  induction s as [|x s IH]; simpl; [done|].
  destruct (p x) eqn:Hx; [done|]. by intros [= <- <-].
Qed.

Lemma lstrip_by_idem p s : lstrip_by p (lstrip_by p s) = lstrip_by p s.
Proof.
  destruct (lstrip_by p s) as [|c t] eqn:E; [done|].
  apply lstrip_by_stop. by eapply lstrip_by_head.
Qed.

#[export] Hint Rewrite lstrip_by_idem : pyrw.

Lemma py_split_nonempty c s : py_split c s <> [].
Proof.
  induction s as [|x t IH]; simpl; [done|].
  case_decide; [done|]. by destruct (py_split c t).
Qed.

(** A piece without the separator, followed by the separator. *)
Lemma py_split_app c x r :
  c ∉ x -> py_split c (x ++ c :: r) = x :: py_split c r.
Proof.
  induction x as [|a x IH]; intros Hx; simpl.
  - by rewrite decide_True.
  - rewrite decide_False by set_solver. rewrite IH by set_solver. done.
Qed.

Lemma py_split_nosep c x : c ∉ x -> py_split c x = [x].
Proof.
  induction x as [|a x IH]; intros Hx; simpl; [done|].
  rewrite decide_False by set_solver. rewrite IH by set_solver. done.
Qed.

Lemma py_join_cons_head sep a y ys :
  py_join sep ((a :: y) :: ys) = a :: py_join sep (y :: ys).
Proof. by destruct ys. Qed.

Lemma py_join_cons sep x l :
  l <> [] -> py_join sep (x :: l) = x ++ sep ++ py_join sep l.
Proof. by destruct l. Qed.

(** ** Decimal printing of a Python int *)

(** The digits of [n], most significant first, prepended to [acc]; the
    fuel bounds the number of digits. *)
Fixpoint dec_aux (fuel : nat) (n : N) (acc : pystr) : pystr :=
  match fuel with
  | O => acc
  | S f =>
      let acc' := digit_char (n mod 10) :: acc in
      if (n <? 10)%N then acc' else dec_aux f (n / 10) acc'
  end.

(** A binary number of [k] bits has at most [k] decimal digits, so
    [S (N.size n)] steps are enough (see [dec_aux_value]). *)
Definition str_N (n : N) : pystr := dec_aux (S (N.to_nat (N.size n))) n [].

(** [str(z)]: an optional minus sign and the decimal digits of [|z|]. *)
Definition str_Z (z : Z) : pystr :=
  match z with
  | Zneg p => "-"%char :: str_N (Npos p)
  | _ => str_N (Z.to_N z)
  end.

(** ** [int(s)] on a byte string, base 10 *)

(** The value of a digit string, accumulated left to right. *)
Fixpoint digits_value (acc : Z) (s : pystr) : Z :=
  match s with
  | [] => acc
  | c :: t => digits_value (10 * acc + digit_val c) t
  end.

(** The longest prefix of digits, and the rest. *)
Fixpoint span_digits (s : pystr) : pystr * pystr :=
  match s with
  | [] => ([], [])
  | c :: t =>
      if is_digit c then let '(d, r) := span_digits t in (c :: d, r)
      else ([], s)
  end.

(** The optional sign read by [PyOS_strtol]: [true] for a minus sign. *)
Definition py_sign (s : pystr) : bool * pystr :=
  match s with
  | c :: t =>
      if decide (c = "-"%char) then (true, t)
      else if decide (c = "+"%char) then (false, t)
      else (false, s)
  | [] => (false, [])
  end.

(** [PyInt_FromString(s, NULL, 10)]: skip white space; [PyOS_strtol] takes
    an optional sign; [PyOS_strtoul] skips white space again and reads the
    digits; the conversion fails when no digit was read (the
    [end == s || !isalnum(end[-1])] test) or when anything but white
    space follows the digits.  An overflow of a C long falls back to
    [PyLong_FromString] on the same grammar, so the value is unbounded.
    (White space between the sign and the digits is accepted by Python 2,
    as [PyOS_strtoul] skips it.) *)
Definition py_int (s : pystr) : result Z :=
  let '(neg, s2) := py_sign (lstrip_by is_space s) in
  let '(ds, rest) := span_digits (lstrip_by is_space s2) in
  match ds with
  | [] => Raise ValueError
  | _ :: _ =>
      match lstrip_by is_space rest with
      | [] => Ok (if neg then (- digits_value 0 ds)%Z else digits_value 0 ds)
      | _ :: _ => Raise ValueError
      end
  end.

(** ** Lemmas on digits *)

Abbreviation all_digits := (Forall (fun c => is_digit c = true)).
Abbreviation all_spaces := (Forall (fun c => is_space c = true)).

Lemma digit_not_space c : is_digit c = true -> is_space c = false.
Proof. unfold is_digit, is_space. bool_arith. Qed.

Lemma digit_char_ok d :
  (d < 10)%N -> is_digit (digit_char d) = true /\ digit_val (digit_char d) = Z.of_N d.
Proof.
  intros Hd. unfold is_digit, digit_val, digit_char.
  rewrite N_ascii_embedding by lia. split; [bool_arith|lia].
Qed.

Lemma dec_aux_digits f n acc : all_digits acc -> all_digits (dec_aux f n acc).
Proof.
  revert n acc; induction f as [|f IH]; intros n acc Hacc; simpl; [done|].
  assert (all_digits (digit_char (n mod 10) :: acc)).
  { constructor; [|done]. apply digit_char_ok, N.mod_lt; lia. }
  destruct (n <? 10)%N; auto.
Qed.

Lemma dec_aux_nonempty f n acc : acc <> [] -> dec_aux f n acc <> [].
Proof.
  revert n acc; induction f as [|f IH]; intros n acc Hacc; simpl; [done|].
  destruct (n <? 10)%N; [done|]. by apply IH.
Qed.

(** The digits produced by [dec_aux] read back as [n], provided the fuel
    covers the number of digits of [n]. *)
Lemma dec_aux_value f : forall n acc a,
  (n < 10 ^ N.of_nat f)%N ->
  exists k : nat, digits_value a (dec_aux f n acc)
                  = digits_value (a * 10 ^ Z.of_nat k + Z.of_N n) acc.
Proof.
  induction f as [|f IH]; intros n acc a Hn; simpl.
  - exists 0%nat. f_equal. simpl in Hn. lia.
  - destruct (digit_char_ok (n mod 10)) as [_ Hv]; [apply N.mod_lt; lia|].
    destruct (N.ltb_spec n 10) as [Hlt|Hge].
    + exists 1%nat. simpl. rewrite Hv, N.mod_small by done. f_equal. lia.
    + destruct (IH (n / 10)%N (digit_char (n mod 10) :: acc) a) as [k Hk].
      { apply N.Div0.div_lt_upper_bound.
        rewrite Nat2N.inj_succ, N.pow_succ_r' in Hn. lia. }
      exists (S k). rewrite Hk. simpl. rewrite Hv. f_equal.
      rewrite Nat2Z.inj_succ, Z.pow_succ_r by lia.
      pose proof (N.div_mod n 10 ltac:(lia)) as E.
      apply (f_equal Z.of_N) in E. rewrite N2Z.inj_add, N2Z.inj_mul in E. nia.
Qed.

Lemma str_N_fuel n : (n < 10 ^ N.of_nat (S (N.to_nat (N.size n))))%N.
Proof.
  rewrite Nat2N.inj_succ, N2Nat.id.
  pose proof (N.size_gt n).
  assert (2 ^ N.size n <= 10 ^ N.size n)%N by (apply N.pow_le_mono_l; lia).
  assert (10 ^ N.size n < 10 ^ N.succ (N.size n))%N by (apply N.pow_lt_mono_r; lia).
  lia.
Qed.

Lemma str_N_value n : digits_value 0 (str_N n) = Z.of_N n.
Proof.
  unfold str_N. destruct (dec_aux_value _ n [] 0 (str_N_fuel n)) as [k ->].
  simpl. lia.
Qed.

Lemma str_N_shape n : exists c t, str_N n = c :: t /\ all_digits (c :: t).
Proof.
  unfold str_N.
  pose proof (dec_aux_digits (S (N.to_nat (N.size n))) n [] (List.Forall_nil _)).
  destruct (dec_aux _ n []) as [|c t] eqn:E; [|by exists c, t].
  exfalso. simpl in E. destruct (n <? 10)%N; [done|].
  eapply dec_aux_nonempty; [|exact E]. done.
Qed.

Lemma span_digits_app d r :
  all_digits d -> (forall c t, r = c :: t -> is_digit c = false) ->
  span_digits (d ++ r) = (d, r).
Proof.
  intros Hd Hr. induction Hd as [|c d Hc _ IH]; simpl.
  - destruct r as [|c t]; simpl; [done|]. by rewrite (Hr c t).
  - by rewrite Hc, IH.
Qed.

Lemma py_sign_digit c t : is_digit c = true -> py_sign (c :: t) = (false, c :: t).
Proof.
  intros Hc. unfold py_sign.
  rewrite !decide_False; [done| |]; intros ->; discriminate.
Qed.

Lemma lstrip_digits ws2 ds ws3 :
  all_spaces ws2 -> all_digits ds -> ds <> [] ->
  exists c t, lstrip_by is_space (ws2 ++ ds ++ ws3) = c :: t /\ is_digit c = true.
Proof.
  intros H2 Hd Hne. rewrite lstrip_by_app_all by done.
  destruct ds as [|c t]; [done|]. invc Hd.
  exists c, (t ++ ws3). rewrite <- app_comm_cons, lstrip_by_stop by
    (by apply digit_not_space). done.
Qed.

(** Reading a non-empty digit string followed by white space only. *)
Lemma read_digits ws2 ds ws3 :
  all_spaces ws2 -> all_digits ds -> all_spaces ws3 -> ds <> [] ->
  span_digits (lstrip_by is_space (ws2 ++ ds ++ ws3)) = (ds, ws3)
  /\ lstrip_by is_space ws3 = [].
Proof.
  intros H2 Hd H3 Hne. rewrite lstrip_by_app_all by done.
  destruct ds as [|c t]; [done|].
  rewrite <- app_comm_cons, lstrip_by_stop by (apply digit_not_space; by invc Hd).
  split.
  - rewrite app_comm_cons. apply span_digits_app; [done|].
    intros c' t' ->. invc H3. destruct (is_digit c') eqn:E; [|done].
    by rewrite digit_not_space in *.
  - rewrite <- (app_nil_r ws3), lstrip_by_app_all; done.
Qed.

(** ** Theorems *)

(** [int()] reads back the decimal text of an int. *)
Lemma int_of_str_Z (z : Z) : py_int (str_Z z) = Ok z.
Proof.
  assert (Hpos : forall n, py_int (str_N n) = Ok (Z.of_N n)).
  { intros n. destruct (str_N_shape n) as (c & t & Hs & Hd).
    pose proof (str_N_value n) as Hv. rewrite Hs in Hv |- *.
    unfold py_int. rewrite lstrip_by_stop by (apply digit_not_space; by invc Hd).
    rewrite py_sign_digit by (by invc Hd).
    destruct (read_digits [] (c :: t) [] (List.Forall_nil _) Hd (List.Forall_nil _))
      as [Hsp Hr]; [done|].
    rewrite app_nil_l, app_nil_r in Hsp. rewrite Hsp, Hr. by rewrite Hv. }
  destruct z as [|p|p]; simpl; [apply Hpos|apply Hpos|].
  destruct (str_N_shape (Npos p)) as (c & t & Hs & Hd).
  pose proof (str_N_value (Npos p)) as Hv. rewrite Hs in Hv |- *.
  unfold py_int. rewrite lstrip_by_stop by done.
  unfold py_sign at 1. rewrite decide_True by done.
  destruct (read_digits [] (c :: t) [] (List.Forall_nil _) Hd (List.Forall_nil _))
    as [Hsp Hr]; [done|].
  rewrite app_nil_l, app_nil_r in Hsp. rewrite Hsp, Hr. by rewrite Hv.
Qed.

(** Decimal printing is injective: distinct ints print differently. *)
Lemma str_Z_inj z1 z2 : str_Z z1 = str_Z z2 -> z1 = z2.
Proof.
  intros H. apply (f_equal py_int) in H. rewrite !int_of_str_Z in H. by invc H.
Qed.

(** ** A declarative grammar of the literals [int()] accepts *)

(** The optional sign and whether it negates. *)
Inductive sign_text : pystr -> bool -> Prop :=
  | sign_none : sign_text [] false
  | sign_plus : sign_text ["+"%char] false
  | sign_minus : sign_text ["-"%char] true.

(** White space, a sign, white space, at least one digit, white space. *)
Inductive int_literal : pystr -> Z -> Prop :=
  | int_literal_intro ws1 sg neg ws2 ds ws3 :
      all_spaces ws1 -> sign_text sg neg -> all_spaces ws2 ->
      all_digits ds -> ds <> [] -> all_spaces ws3 ->
      int_literal (ws1 ++ sg ++ ws2 ++ ds ++ ws3)
                  (if neg then (- digits_value 0 ds)%Z else digits_value 0 ds).

Lemma py_sign_spec s neg s2 :
  py_sign s = (neg, s2) -> exists sg, sign_text sg neg /\ s = sg ++ s2.
Proof.
  unfold py_sign. destruct s as [|c t].
  - intros [= <- <-]. exists []. split; [constructor|done].
  - repeat case_decide; intros [= <- <-]; subst.
    + exists ["-"%char]. split; [constructor|done].
    + exists ["+"%char]. split; [constructor|done].
    + exists []. split; [constructor|done].
Qed.

Lemma py_sign_text sg neg t :
  sign_text sg neg -> (forall c t', t = c :: t' -> is_digit c = true \/ is_space c = true) ->
  py_sign (sg ++ t) = (neg, t).
Proof.
  intros Hs Ht. invc Hs; simpl; [|done|done].
  destruct t as [|c t']; [done|].
  unfold py_sign. rewrite !decide_False; [done| |];
    intros ->; destruct (Ht _ t' eq_refl); discriminate.
Qed.

Lemma span_digits_spec s ds rest :
  span_digits s = (ds, rest) ->
  s = ds ++ rest /\ all_digits ds /\ (forall c t, rest = c :: t -> is_digit c = false).
Proof.
  revert ds rest; induction s as [|c t IH]; intros ds rest; simpl.
  - intros [= <- <-]. split_and!; [done|constructor|done].
  - destruct (is_digit c) eqn:Hc.
    + destruct (span_digits t) as [d r]. intros [= <- <-].
      destruct (IH d r eq_refl) as (-> & Hd & Hr). split_and!; [done|by constructor|done].
    + intros [= <- <-]. split_and!; [done|constructor|]. by intros ?? [= <- <-].
Qed.

(** [int()] against the grammar of integer literals. *)
Lemma int_literal_iff (s : pystr) (z : Z) : py_int s = Ok z <-> int_literal s z.
Proof.
  split.
  - unfold py_int.
    destruct (lstrip_by_decomp is_space s) as (ws1 & H1 & Es).
    destruct (py_sign (lstrip_by is_space s)) as [neg s2] eqn:Esg.
    destruct (py_sign_spec _ _ _ Esg) as (sg & Hsg & Es1).
    destruct (lstrip_by_decomp is_space s2) as (ws2 & H2 & Es2).
    destruct (span_digits (lstrip_by is_space s2)) as [ds rest] eqn:Esp.
    destruct (span_digits_spec _ _ _ Esp) as (Es3 & Hd & _).
    destruct (lstrip_by_decomp is_space rest) as (ws3 & H3 & Es4).
    destruct ds as [|d ds']; [done|].
    destruct (lstrip_by is_space rest) eqn:Er; [|done].
    intros [= <-]. rewrite Es, Es1, Es2, Es3, Es4, app_nil_r.
    by constructor.
  - intros Hl. inversion Hl as [ws1 sg neg ws2 ds ws3 H1 Hsg H2 Hd Hne H3]; subst; clear Hl.
    unfold py_int. rewrite lstrip_by_app_all by done.
    destruct (read_digits ws2 ds ws3 H2 Hd H3 Hne) as [Hsp Hr].
    assert (exists r2, py_sign (lstrip_by is_space (sg ++ ws2 ++ ds ++ ws3)) = (neg, r2)
              /\ lstrip_by is_space r2 = lstrip_by is_space (ws2 ++ ds ++ ws3))
      as (r2 & -> & Er2).
    { invc Hsg; simpl.
      - destruct (lstrip_digits ws2 ds ws3 H2 Hd Hne) as (c & t & Ec & Hc).
        exists (c :: t). rewrite Ec, py_sign_digit by done.
        split; [done|]. by rewrite <- Ec, lstrip_by_idem.
      - eexists; split; reflexivity.
      - eexists; split; reflexivity. }
    rewrite Er2, Hsp. destruct ds; [done|]. by rewrite Hr.
Qed.

(** [split] undoes [join] on separator-free items. *)
Lemma split_of_join (c : ascii) (items : list pystr) :
  items <> [] -> Forall (fun x => c ∉ x) items ->
  py_split c (py_join [c] items) = items.
Proof.
  induction items as [|x items IH]; intros Hne Hf; [done|].
  apply Forall_cons in Hf as [Hx Hf]; simpl in Hx.
  destruct items as [|y items]; [by apply py_split_nosep|].
  rewrite py_join_cons by done. simpl app.
  rewrite py_split_app by done. f_equal. by apply IH.
Qed.

(** Once the fuel covers the digits of [n], more fuel changes nothing. *)
Lemma dec_aux_fuel f g n acc :
  (n < 10 ^ N.of_nat (S f))%N -> f <= g -> dec_aux (S g) n acc = dec_aux (S f) n acc.
Proof.
  revert g n acc. induction f as [|f IH]; intros g n acc Hn Hfg; simpl.
  - simpl in Hn. by rewrite (proj2 (N.ltb_lt n 10)) by lia.
  - destruct (N.ltb_spec n 10) as [Hlt|Hge]; [done|].
    destruct g as [|g]; [lia|]. apply IH; [|lia].
    apply N.Div0.div_lt_upper_bound. rewrite Nat2N.inj_succ, N.pow_succ_r' in Hn. lia.
Qed.

(** ** The properties of the string built-ins *)

(** [join] undoes [split]. *)
Lemma join_of_split (c : ascii) (s : pystr) : py_join [c] (py_split c s) = s.
Proof.
  induction s as [|x t IH]; [done|]. simpl.
  case_decide as Hx.
  - subst. rewrite py_join_cons by apply py_split_nonempty. simpl. by rewrite IH.
  - destruct (py_split c t) as [|y ys]; [simpl in *; by subst|].
    rewrite py_join_cons_head. by rewrite IH.
Qed.

Lemma forallb_all_digits o : forallb is_digit o = true <-> all_digits o.
Proof. by rewrite forallb_forall, List.Forall_forall. Qed.

Lemma str_N_digits n : all_digits (str_N n).
Proof. destruct (str_N_shape n) as (c & t & -> & H). done. Qed.

(** The text of an int is digits after an optional minus sign. *)
Lemma str_Z_chars z c : c ∈ str_Z z -> is_digit c = true \/ c = "-"%char.
Proof.
  intros Hc. destruct z as [|p|p]; simpl in Hc.
  - left. by eapply Forall_forall in Hc; [|apply str_N_digits].
  - left. by eapply Forall_forall in Hc; [|apply str_N_digits].
  - apply elem_of_cons in Hc as [->|Hc]; [by right|left].
    by eapply Forall_forall in Hc; [|apply str_N_digits].
Qed.

(** Splitting a join followed by the separator and more text. *)
Lemma py_split_join_app c items r :
  items <> [] -> Forall (fun x => c ∉ x) items ->
  py_split c (py_join [c] items ++ c :: r) = items ++ py_split c r.
Proof.
  induction items as [|x items IH]; intros Hne Hf; [done|].
  apply Forall_cons in Hf as [Hx Hf]; simpl in Hx.
  destruct items as [|y items]; [by apply py_split_app|].
  rewrite py_join_cons by done. simpl app. rewrite <- app_assoc. simpl app.
  rewrite py_split_app by done. f_equal. by apply IH.
Qed.
