(* ===== verification/PyFormat.v ===== *)
(** * Python values and ['%'] string formatting

    The scripts build every shell command and the results file name with
    [fmt % (v1, ..., vn)] (CPython 2.7 [PyString_Format]).  The values
    they format are ints, strings, booleans, Mininet nodes (whose [str()]
    is the node's name, [Node.__str__]) and the list of receiver IPs,
    printed with [str(list)], i.e. the [repr] of each element. *)

From S2P Require Import Prelude PyStr.

(** ** Python values *)

#[warnings="-register-all"]
Inductive pyval :=
  | VInt (z : Z)
  | VStr (s : pystr)
  | VBool (b : bool)
  | VObj (name : pystr)        (** an object whose [str()] is [name] *)
  | VList (l : list pyval).

(** ** [repr] of a byte string ([PyString_Repr]) *)

Definition hex_digit (n : N) : ascii :=
  if (n <? 10)%N then ascii_of_N (48 + n) else ascii_of_N (87 + n).

(** The escape of one character inside quotes [q]. *)
Definition repr_char (q c : ascii) : pystr :=
  let n := N_of_ascii c in
  if bool_decide (c = q) || bool_decide (c = "\"%char) then ["\"%char; c]
  else if (n =? 9)%N then lit "\t"
  else if (n =? 10)%N then lit "\n"
  else if (n =? 13)%N then lit "\r"
  else if (n <? 32)%N || (127 <=? n)%N then
    ["\"%char; "x"%char; hex_digit (n / 16); hex_digit (n mod 16)]
  else [c].

Definition dquote : ascii := ascii_of_N 34.

(** Single quotes, unless the text has a single quote and no double quote. *)
Definition repr_str (s : pystr) : pystr :=
  let q := if bool_decide ("'"%char ∈ s) && negb (bool_decide (dquote ∈ s))
           then dquote else "'"%char in
  q :: List.flat_map (repr_char q) s ++ [q].

(** [str(v)] when [repr] is false, [repr(v)] when it is true. *)
Fixpoint to_text (repr : bool) (v : pyval) : pystr :=
  match v with
  | VInt z => str_Z z
  | VStr s => if repr then repr_str s else s
  | VBool b => if b then lit "True" else lit "False"
  | VObj name => name
  | VList l => lit "[" ++ py_join (lit ", ") (map (to_text true) l) ++ lit "]"
  end.

Definition py_str (v : pyval) : pystr := to_text false v.

(** ** Format strings *)

(** The conversion types the scripts use: [%s], [%r], and [%d] / [%i]
    (which behave alike). *)
Inductive conv_kind := CStr | CRepr | CInt.

Inductive fmt_piece :=
  | FLit (c : ascii)
  | FConv (conv : conv_kind).

Definition conv_of (d : ascii) : option conv_kind :=
  if decide (d = "s"%char) then Some CStr
  else if decide (d = "r"%char) then Some CRepr
  else if bool_decide (d = "d"%char) || bool_decide (d = "i"%char) then Some CInt
  else None.

(** The directives the scripts use; any other raises ValueError
    ("unsupported format character"), a lone trailing ['%'] too
    ("incomplete format"). *)
Fixpoint parse_fmt (s : pystr) : result (list fmt_piece) :=
  match s with
  | [] => Ok []
  | c :: t =>
      if decide (c = "%"%char) then
        match t with
        | [] => Raise ValueError
        | d :: t' =>
            r ← parse_fmt t';
            if decide (d = "%"%char) then Ok (FLit "%" :: r)
            else match conv_of d with
                 | Some k => Ok (FConv k :: r)
                 | None => Raise ValueError
                 end
        end
      else r ← parse_fmt t; Ok (FLit c :: r)
  end.

(** One conversion: [%s]/[%r] print any value; [%d]/[%i] need a number
    ([bool] is an int subclass) and raise TypeError on a string
    ("%d format: a number is required"). *)
Definition convert (k : conv_kind) (v : pyval) : result pystr :=
  match k with
  | CStr => Ok (to_text false v)
  | CRepr => Ok (to_text true v)
  | CInt =>
      match v with
      | VInt z => Ok (str_Z z)
      | VBool b => Ok (if b then lit "1" else lit "0")
      | _ => Raise TypeError
      end
  end.

(** Walk the pieces, consuming the arguments left to right; too few or
    too many arguments raise TypeError. *)
Fixpoint format_pieces (ps : list fmt_piece) (args : list pyval) : result pystr :=
  match ps, args with
  | [], [] => Ok []
  | [], _ :: _ => Raise TypeError
  | FLit c :: ps', _ => r ← format_pieces ps' args; Ok (c :: r)
  | FConv _ :: _, [] => Raise TypeError
  | FConv k :: ps', v :: args' =>
      t ← convert k v; r ← format_pieces ps' args'; Ok (t ++ r)
  end.

(** [fmt % tuple(args)]. *)
Definition py_format (fmt : pystr) (args : list pyval) : result pystr :=
  ps ← parse_fmt fmt; format_pieces ps args.

(** Mininet's [sendCmd] with several arguments sends
    [' '.join(str(c) for c in args)]. *)
Definition send_cmd_text (args : list pyval) : pystr :=
  py_join (lit " ") (map py_str args).

(** ** Lemmas *)

Lemma result_bind_ret {A} (c : result A) : (x ← c; Ok x) = c.
Proof. by destruct c. Qed.

Lemma format_pieces_lits s ps args :
  format_pieces (map FLit s ++ ps) args = (r ← format_pieces ps args; Ok (s ++ r)).
Proof.
  induction s as [|c s IH]; simpl.
  - by rewrite result_bind_ret.
  - rewrite IH. by destruct (format_pieces ps args).
Qed.

Lemma format_pieces_conv k ps v args :
  format_pieces (FConv k :: ps) (v :: args) =
  (t ← convert k v; r ← format_pieces ps args; Ok (t ++ r)).
Proof. reflexivity. Qed.

Lemma convert_s v : convert CStr v = Ok (py_str v).
Proof. reflexivity. Qed.

Lemma convert_d_int z : convert CInt (VInt z) = Ok (str_Z z).
Proof. reflexivity. Qed.

Lemma convert_d_str s : convert CInt (VStr s) = Raise TypeError.
Proof. reflexivity. Qed.

Lemma format_pieces_nil : format_pieces [] [] = Ok [].
Proof. reflexivity. Qed.

(** Parse every concrete format string of the goal by evaluation. *)
Ltac compute_fmt :=
  repeat match goal with
  | |- context [parse_fmt ?F] =>
      let r := eval vm_compute in (parse_fmt F) in change (parse_fmt F) with r
  end;
  cbn [format_pieces convert mbind result_bind to_text].

#[export] Hint Rewrite format_pieces_lits format_pieces_conv convert_s convert_d_int
  convert_d_str format_pieces_nil @Ok_bind @Raise_bind app_nil_r : pyrw.

(** ** The exceptions of ['%'] *)

Lemma parse_fmt_no_assert s : no_assert (parse_fmt s).
Proof.
  assert (H : forall n s, length s <= n -> no_assert (parse_fmt s)); [|by apply (H (length s))].
  induction n as [|n IH]; intros [|c t] Hl; simpl in Hl; try apply no_assert_Ok; [lia|].
  simpl. case_decide; [|apply no_assert_bind; [apply IH; lia|intros; apply no_assert_Ok]].
  destruct t as [|d t]; [by intros e [= <-]|]. simpl in Hl.
  apply no_assert_bind; [apply IH; lia|intros r _].
  case_decide; [apply no_assert_Ok|]. destruct (conv_of d); [apply no_assert_Ok|by intros e [= <-]].
Qed.

Lemma convert_no_assert k v : no_assert (convert k v).
Proof. destruct k, v; try apply no_assert_Ok; by intros e [= <-]. Qed.

Lemma format_pieces_no_assert ps args : no_assert (format_pieces ps args).
Proof.
  revert args. induction ps as [|[c|k] ps IH]; intros [|v args]; simpl;
    try apply no_assert_Ok; try (by intros e [= <-]);
    repeat (apply no_assert_bind; [first [apply IH | apply convert_no_assert]|intros]);
    apply no_assert_Ok.
Qed.

Lemma py_format_no_assert f args : no_assert (py_format f args).
Proof.
  apply no_assert_bind; [apply parse_fmt_no_assert|]. intros. apply format_pieces_no_assert.
Qed.

#[export] Hint Resolve py_format_no_assert : noassert.
