(* ===== verification/PyRegex.v ===== *)
(** * The [re.search] calls of [create_mappings]

    Both scripts select host pools with
    [filter(lambda x: search('10\.[02468]\.\d\.\d', x.IP()), net.hosts)]
    and the same with ['[13579]'].  The pattern is a Python 2 (non-raw)
    string literal; ['\.'] and ['\d'] are unknown escapes, so the backslash
    stays in the pattern text that [sre] compiles.  This file models the
    part of [sre_parse] these patterns use (literals, escaped
    punctuation, [\d], the wildcard ['.'], character sets without ranges)
    and the unanchored search of [re.search]; anything else is reported as
    [ReError]. *)

From S2P Require Import Prelude PyStr.

(** ** Compiled patterns *)

Inductive atom :=
  | ALit (c : ascii)         (** a literal character, escaped or not *)
  | AClass (cs : list ascii) (** [[...]] without ranges or negation *)
  | ADigit                   (** [\d]: ['0'..'9'] for a byte-string pattern *)
  | AAny.                    (** ['.']: any character but a newline *)

(** A compiled pattern: the sequence of its atoms. *)
Definition regex : Type := list atom.

Definition atom_match (a : atom) (c : ascii) : bool :=
  match a with
  | ALit x => bool_decide (c = x)
  | AClass cs => bool_decide (c ∈ cs)
  | ADigit => is_digit c
  | AAny => negb (bool_decide (c = "010"%char))
  end.

Definition is_alnum (c : ascii) : bool :=
  let n := N_of_ascii c in
  is_digit c || ((65 <=? n) && (n <=? 90))%N || ((97 <=? n) && (n <=? 122))%N.

(** The parser: [cls] is [Some cs] inside a character set whose members
    read so far are [cs] (in reverse). *)
Fixpoint compile_aux (cls : option (list ascii)) (s : pystr) : option regex :=
  match cls, s with
  | None, [] => Some []
  | Some _, [] => None
  | Some cs, c :: t =>
      if decide (c = "]"%char) then
        if decide (cs = []) then None
        else r ← compile_aux None t; Some (AClass (rev cs) :: r)
      else if decide (c ∈ lit "\-^[") then None
      else compile_aux (Some (c :: cs)) t
  | None, c :: t =>
      if decide (c = "\"%char) then
        match t with
        | [] => None
        | e :: t' =>
            r ← compile_aux None t';
            if decide (e = "d"%char) then Some (ADigit :: r)
            else if is_alnum e then None
            else Some (ALit e :: r)
        end
      else if decide (c = "["%char) then compile_aux (Some []) t
      else if decide (c = "."%char) then r ← compile_aux None t; Some (AAny :: r)
      else if decide (c ∈ lit "*+?(){}|^$]") then None
      else r ← compile_aux None t; Some (ALit c :: r)
  end.

Definition compile_re (pat : pystr) : option regex := compile_aux None pat.

(** [sre]'s match at the current position: one character per atom. *)
Fixpoint match_here (p : regex) (s : pystr) : bool :=
  match p, s with
  | [], _ => true
  | a :: p', c :: s' => atom_match a c && match_here p' s'
  | _ :: _, [] => false
  end.

(** [re.search]: try every start position, left to right. *)
Fixpoint search_from (p : regex) (s : pystr) : bool :=
  match_here p s || match s with [] => false | _ :: t => search_from p t end.

(** [re.search(pattern, string)] used as a truth value; an unsupported
    or malformed pattern raises. *)
Definition re_search (pat s : pystr) : result bool :=
  match compile_re pat with
  | Some p => Ok (search_from p s)
  | None => Raise ReError
  end.

(** The two pattern texts of [create_mappings] (test0.py lines 171-172,
    test_ft.py lines 169-170). *)
Definition sender_pat : pystr := lit "10\.[02468]\.\d\.\d".
Definition receiver_pat : pystr := lit "10\.[13579]\.\d\.\d".

(** The shape both patterns compile to. *)
Definition ip_regex (cls : list ascii) : regex :=
  [ALit "1"; ALit "0"; ALit "."; AClass cls; ALit "."; ADigit; ALit "."; ADigit].

Lemma compile_sender_pat : compile_re sender_pat = Some (ip_regex (lit "02468")).
Proof. reflexivity. Qed.

Lemma compile_receiver_pat : compile_re receiver_pat = Some (ip_regex (lit "13579")).
Proof. reflexivity. Qed.

(** ** Generic lemmas on matching *)

Lemma match_here_spec p s :
  match_here p s = true <->
  exists w r, s = w ++ r /\ Forall2 (fun a c => atom_match a c = true) p w.
Proof.
  revert s; induction p as [|a p IH]; intros s; simpl.
  - split; [intros _; by exists [], s | done].
  - destruct s as [|c s]; split.
    + done.
    + intros (w & r & Hs & Hf). invc Hf. done.
    + intros [Ha Hp]%andb_prop. apply IH in Hp as (w & r & -> & Hf).
      exists (c :: w), r. split; [done|by constructor].
    + intros (w & r & Hs & Hf). invc Hf. simpl in Hs. invc Hs.
      apply andb_true_intro. split; [done|]. apply IH. eauto.
Qed.

Lemma search_from_spec p s :
  search_from p s = true <->
  exists pre w r, s = pre ++ w ++ r /\ Forall2 (fun a c => atom_match a c = true) p w.
Proof.
  induction s as [|c s IH]; simpl; rewrite orb_true_iff, match_here_spec.
  - split.
    + intros [(w & r & Hs & Hf)|?]; [by exists [], w, r|done].
    + intros (pre & w & r & Hs & Hf). left. exists w, r. split; [|done].
      destruct pre; [done|discriminate].
  - rewrite IH. split.
    + intros [(w & r & Hs & Hf)|(pre & w & r & -> & Hf)].
      * by exists [], w, r.
      * by exists (c :: pre), w, r.
    + intros ([|c' pre] & w & r & Hs & Hf).
      * left. by exists w, r.
      * right. simpl in Hs. invc Hs. by exists pre, w, r.
Qed.

(** ** Dotted strings *)

Fixpoint count_dots (s : pystr) : nat :=
  match s with
  | [] => 0
  | c :: t => (if decide (c = "."%char) then 1 else 0) + count_dots t
  end.

(** What follows the first dot of [s] (empty when there is none). *)
Fixpoint after_dot (s : pystr) : pystr :=
  match s with
  | [] => []
  | c :: t => if decide (c = "."%char) then t else after_dot t
  end.

Lemma count_dots_app s1 s2 : count_dots (s1 ++ s2) = count_dots s1 + count_dots s2.
Proof. induction s1 as [|c s1 IH]; simpl; [done|]. rewrite IH. lia. Qed.

Lemma count_dots_zero s : count_dots s = 0 -> "."%char ∉ s.
Proof.
  induction s as [|c s IH]; simpl; [set_solver|].
  case_decide as Hc; [lia|]. intros H Hin.
  apply elem_of_cons in Hin as [Heq|Hin]; [congruence|]. by apply IH in Hin.
Qed.

Lemma after_dot_app s1 s2 : "."%char ∉ s1 -> after_dot (s1 ++ s2) = after_dot s2.
Proof.
  induction s1 as [|c s1 IH]; intros H; simpl; [done|].
  rewrite decide_False by set_solver. apply IH. set_solver.
Qed.

Lemma digit_not_dot c : is_digit c = true -> c <> "."%char.
Proof. by intros H ->. Qed.

#[export] Hint Resolve digit_not_dot count_dots_zero : pyorch.

(** The eight characters an IP pattern matches. *)
Lemma ip_regex_word cls w :
  Forall2 (fun a c => atom_match a c = true) (ip_regex cls) w ->
  exists x y z, w = (lit "10.") ++ [x; "."%char; y; "."%char; z] /\
                x ∈ cls /\ is_digit y = true /\ is_digit z = true.
Proof.
  unfold ip_regex. intros Hf.
  repeat (apply Forall2_cons_inv_l in Hf as (? & ? & ? & Hf & ->)).
  apply Forall2_nil_inv_l in Hf as ->.
  simpl in *. repeat match goal with H : bool_decide _ = true |- _ =>
    apply bool_decide_eq_true_1 in H end.
  subst. eauto 10.
Qed.

(** A match of an IP pattern in a string with at most three dots: the
    match contains three of them, so nothing before it has a dot. *)
Lemma ip_match_structure cls s :
  "."%char ∉ cls -> count_dots s <= 3 -> search_from (ip_regex cls) s = true ->
  exists pre x y z r,
    s = pre ++ (lit "10.") ++ x :: "."%char :: y :: "."%char :: z :: r /\
    x ∈ cls /\ is_digit y = true /\ is_digit z = true /\
    ("."%char ∉ pre) /\ count_dots r = 0.
Proof.
  intros Hcls Hc (pre & w & r & -> & Hf)%search_from_spec.
  destruct (ip_regex_word _ _ Hf) as (x & y & z & -> & Hx & Hy & Hz).
  rewrite !count_dots_app in Hc. simpl in Hc.
  rewrite !decide_False in Hc by first [by apply digit_not_dot | set_solver].
  exists pre, x, y, z, r. split_and!; try done.
  - apply count_dots_zero. lia.
  - lia.
Qed.

Lemma after_dot_ip_match pre x r :
  "."%char ∉ pre -> after_dot (pre ++ (lit "10.") ++ x :: r) = x :: r.
Proof. intros H. by rewrite after_dot_app. Qed.

Lemma count_dots_digits o : all_digits o -> count_dots o = 0.
Proof.
  induction 1 as [|c o Hc _ IH]; simpl; [done|].
  rewrite decide_False by (by apply digit_not_dot). lia.
Qed.

(** The dotted text of four octets. *)
Definition dotted (a b c d : pystr) : pystr := py_join ["."%char] [a; b; c; d].

(** A well-formed IPv4 address as Mininet prints it: four decimal
    octets below 256. *)
Definition octet_ok (o : pystr) : bool :=
  bool_decide (o <> []) && forallb is_digit o && (digits_value 0 o <=? 255)%Z.

Definition is_ipv4 (s : pystr) : bool :=
  match py_split "." s with
  | [a; b; c; d] => forallb octet_ok [a; b; c; d]
  | _ => false
  end.

Lemma count_dots_dotted a b c d :
  Forall all_digits [a; b; c; d] -> count_dots (dotted a b c d) = 3.
Proof.
  intros Hf. repeat (apply Forall_cons in Hf as [? Hf]).
  unfold dotted. simpl py_join. do 3 (rewrite count_dots_app; simpl).
  rewrite !count_dots_digits by done. lia.
Qed.
Lemma is_ipv4_dotted s :
  is_ipv4 s = true ->
  exists a b c d, s = dotted a b c d /\ Forall all_digits [a; b; c; d] /\ d <> [].
Proof.
  unfold is_ipv4. pose proof (join_of_split "." s) as Hs.
  destruct (py_split "." s) as [|a [|b [|c [|d [|]]]]]; try done.
  simpl. intros Hok. repeat (apply andb_prop in Hok as [? Hok]).
  unfold octet_ok in *. repeat match goal with H : _ && _ = true |- _ =>
    apply andb_prop in H as [? ?] end.
  exists a, b, c, d. split; [done|]. split.
  - repeat (constructor; [by apply forallb_all_digits|]). constructor.
  - match goal with H : bool_decide (d ≠ []) = true |- _ =>
      by apply bool_decide_eq_true_1 in H end.
Qed.

(** ** Theorems *)

(** The two patterns select disjoint sets of addresses. *)
Lemma ip_patterns_disjoint (s : pystr) :
  count_dots s <= 3 ->
  ~ (re_search sender_pat s = Ok true /\ re_search receiver_pat s = Ok true).
Proof.
  unfold re_search. rewrite compile_sender_pat, compile_receiver_pat.
  intros Hc [[= H1] [= H2]].
  destruct (ip_match_structure (lit "02468") _ ltac:(by decide_lit) Hc H1)
    as (pre1 & x1 & y1 & z1 & r1 & E1 & Hx1 & _ & _ & Hp1 & _).
  destruct (ip_match_structure (lit "13579") _ ltac:(by decide_lit) Hc H2)
    as (pre2 & x2 & y2 & z2 & r2 & E2 & Hx2 & _ & _ & Hp2 & _).
  apply (f_equal after_dot) in E1, E2.
  rewrite after_dot_ip_match in E1, E2 by done.
  rewrite E1 in E2. injection E2 as <-.
  apply list_elem_of_In in Hx1, Hx2. simpl in Hx1, Hx2. intuition congruence.
Qed.

(** C32 (safety): no string with at most three dots (so no dotted-quad
    IPv4 address) is selected both by the sender pattern
    ['10\.[02468]\.\d\.\d'] and by the receiver pattern
    ['10\.[13579]\.\d\.\d']: the character after the first dot would have
    to be even and odd. *)
Theorem sender_receiver_patterns_disjoint (s : pystr) :
  count_dots s <= 3 ->
  ~ (re_search sender_pat s = Ok true /\ re_search receiver_pat s = Ok true).
Proof. apply ip_patterns_disjoint. Qed.

Lemma digits_no_dot o : all_digits o -> "."%char ∉ o.
Proof. intros H. apply count_dots_zero, count_dots_digits, H. Qed.

Lemma py_split_ip_match pre x y z r :
  "."%char ∉ pre -> x <> "."%char -> is_digit y = true -> is_digit z = true ->
  count_dots r = 0 ->
  py_split "." (pre ++ (lit "10.") ++ x :: "."%char :: y :: "."%char :: z :: r)
  = [pre ++ lit "10"; [x]; [y]; z :: r].
Proof.
  intros Hpre Hx Hy Hz Hr.
  replace (pre ++ (lit "10.") ++ x :: "."%char :: y :: "."%char :: z :: r)
    with ((pre ++ lit "10") ++ "."%char :: ([x] ++ "."%char :: ([y] ++ "."%char :: (z :: r))))
    by (by rewrite <- app_assoc).
  assert ("."%char ∉ lit "10") by decide_lit.
  pose proof (digit_not_dot y Hy). pose proof (digit_not_dot z Hz).
  pose proof (count_dots_zero r Hr).
  rewrite !py_split_app, py_split_nosep; [done|set_solver..].
Qed.

(** Which dotted-quad texts an IP pattern [ip_regex cls] finds: those whose first octet ends in ["10"], whose second octet is a
    single character of [cls] and whose third octet is a single digit.
    The match is unanchored, so ['110.2.3.4'] matches and
    ['10.10.0.2'] does not. *)
Lemma ip_regex_octets (cls : list ascii) (a b c d : pystr) :
  "."%char ∉ cls -> Forall all_digits [a; b; c; d] -> d <> [] ->
  search_from (ip_regex cls) (dotted a b c d) = true <->
  (exists a0, a = a0 ++ lit "10") /\ (exists x, b = [x] /\ x ∈ cls) /\ length c = 1.
Proof.
  intros Hcls Hf Hd. split.
  - intros Hs. pose proof (count_dots_dotted _ _ _ _ Hf) as Hc.
    destruct (ip_match_structure cls (dotted a b c d) Hcls ltac:(lia) Hs)
      as (pre & x & y & z & r & E & Hx & Hy & Hz & Hpre & Hr).
    assert (Hsplit : py_split "." (dotted a b c d) = [a; b; c; d]).
    { apply split_of_join; [done|]. eapply Forall_impl; [exact Hf|].
      intros o Ho. by apply digits_no_dot. }
    rewrite E, py_split_ip_match in Hsplit by (done || set_solver).
    injection Hsplit as <- <- <- <-. split_and!; eauto.
  - intros ((a0 & ->) & (x & -> & Hx) & Hlen).
    destruct c as [|y [|]]; try done. destruct d as [|z r]; [done|].
    repeat (apply Forall_cons in Hf as [? Hf]).
    apply search_from_spec. exists a0, (lit "10." ++ [x; "."%char; y; "."%char; z]), r.
    split; [unfold dotted; simpl; by rewrite <- app_assoc|].
    repeat constructor; simpl.
    + by apply bool_decide_eq_true_2.
    + by match goal with H : all_digits [y] |- _ => invc H end.
    + by match goal with H : all_digits (z :: r) |- _ => invc H end.
Qed.

Lemma re_search_sender s :
  re_search sender_pat s = Ok (search_from (ip_regex (lit "02468")) s).
Proof. unfold re_search. by rewrite compile_sender_pat. Qed.

Lemma re_search_receiver s :
  re_search receiver_pat s = Ok (search_from (ip_regex (lit "13579")) s).
Proof. unfold re_search. by rewrite compile_receiver_pat. Qed.

#[export] Hint Rewrite re_search_sender re_search_receiver : pyrw.

(** C33 (functional): the sender pool of [create_mappings] is the set of
    dotted-quad addresses whose first octet ends in ["10"], whose second
    octet is one even digit and whose third octet is one digit. *)
Theorem sender_pat_selects (a b c d : pystr) :
  Forall all_digits [a; b; c; d] -> d <> [] ->
  re_search sender_pat (dotted a b c d) = Ok true <->
  (exists a0, a = a0 ++ lit "10") /\ (exists x, b = [x] /\ x ∈ lit "02468") /\
  length c = 1.
Proof.
  intros Hf Hd. rewrite re_search_sender.
  etransitivity; [|apply ip_regex_octets; [decide_lit|done|done]].
  split; [intros H; by injection H | intros H; f_equal; exact H].
Qed.

(** The addresses the spec's rule would pick but the pattern misses, and
    one it picks that the spec's rule would not. *)
Example pod_ten_in_neither_pool :
  re_search sender_pat (lit "10.10.0.2") = Ok false /\
  re_search receiver_pat (lit "10.10.0.2") = Ok false.
Proof. split; reflexivity. Qed.

Example first_octet_110_is_sender : re_search sender_pat (lit "110.2.3.4") = Ok true.
Proof. reflexivity. Qed.

(** ** Witnesses *)

Lemma sender_receiver_patterns_disjoint_witness :
  ~ (re_search sender_pat (lit "10.0.1.2") = Ok true /\
     re_search receiver_pat (lit "10.0.1.2") = Ok true).
Proof. apply sender_receiver_patterns_disjoint. vm_compute. lia. Defined.

Lemma sender_pat_selects_witness :
  re_search sender_pat (dotted (lit "110") (lit "2") (lit "0") (lit "17")) = Ok true.
Proof.
  apply (proj2 (sender_pat_selects (lit "110") (lit "2") (lit "0") (lit "17")
                  ltac:(decide_lit) ltac:(discriminate))).
  split_and!; [by exists (lit "1")|exists "2"%char; split; [reflexivity|decide_lit]|reflexivity].
Defined.
