(* ===== verification/Mappings.v ===== *)
(** * [create_mappings]: choosing the sender and receiver hosts

    test_ft.py lines 168-183 and test0.py lines 170-187.  Both filter
    [net.hosts] into a sender pool and a receiver pool with [re.search],
    then append [pool[i]] for every [i] in [range(args.ns)] (resp.
    [range(args.nr)]), which raises IndexError when the pool is too short.
    test_ft.py shuffles both pools first; test0.py instead overwrites the
    result with [[net.hosts[0]]] and [[net.hosts[4]]].

    A Mininet host is modelled by its name and the text [x.IP()] returns;
    [random.shuffle] is an oracle [shuffle k l] (the [k]-th call) of
    which we only assume that it permutes its argument.  The class
    [HostSelection] is what [main] relies on: the selection returns hosts
    of the network. *)

From S2P Require Import Prelude PyStr PyRegex.

Record host := mkHost { hname : pystr; hip : pystr }.

#[export] Instance host_eq_dec : EqDecision host.
Proof. solve_decision. Defined.

(** The dict [{'s': [...], 'r': [...]}] returned by [create_mappings]. *)
Record mapping := mkMapping { msnd : list host; mrcv : list host }.

(** Python 2 [filter(f, l)] on a list: [f] is applied left to right and an
    exception of [f] propagates. *)
Fixpoint py_filter {A} (f : A -> result bool) (l : list A) : result (list A) :=
  match l with
  | [] => Ok []
  | x :: t => b ← f x; r ← py_filter f t; Ok (if (b : bool) then x :: r else r)
  end.

(** [lambda x: search('10\.[02468]\.\d\.\d', x.IP())] *)
Definition sender_test (h : host) : result bool := re_search sender_pat (hip h).
(** [lambda x: search('10\.[13579]\.\d\.\d', x.IP())] *)
Definition receiver_test (h : host) : result bool := re_search receiver_pat (hip h).

(** The pools as pure filters (the patterns always compile). *)
Definition is_sender (h : host) : bool := search_from (ip_regex (lit "02468")) (hip h).
Definition is_receiver (h : host) : bool := search_from (ip_regex (lit "13579")) (hip h).

Definition sender_pool (hosts : list host) : list host := List.filter is_sender hosts.
Definition receiver_pool (hosts : list host) : list host := List.filter is_receiver hosts.

(** [for s in range(n): lst.append(pool[s])] starting from an empty list. *)
Definition take_range (pool : list host) (n : Z) : result (list host) :=
  for_each (py_index pool) (py_range n).

(** test_ft.py [create_mappings]. *)
Definition create_mappings_ft (shuffle : nat -> list host -> list host)
    (ns nr : Z) (hosts : list host) : result mapping :=
  s_hosts ← py_filter sender_test hosts;
  r_hosts ← py_filter receiver_test hosts;
  let s_hosts := shuffle 0 s_hosts in
  let r_hosts := shuffle 1 r_hosts in
  ss ← take_range s_hosts ns;
  rs ← take_range r_hosts nr;
  Ok (mkMapping ss rs).

(** test0.py [create_mappings]: the loops run (and may raise) but their
    result is replaced by the first and the fifth host of the network. *)
Definition create_mappings_dht (ns nr : Z) (hosts : list host) : result mapping :=
  s_hosts ← py_filter sender_test hosts;
  r_hosts ← py_filter receiver_test hosts;
  ss ← take_range s_hosts ns;
  rs ← take_range r_hosts nr;
  h0 ← py_index hosts 0;
  h4 ← py_index hosts 4;
  Ok (mkMapping [h0] [h4]).

(** ** What [main] relies on *)

Class HostSelection := {
  select : Z -> Z -> list host -> result mapping;
  select_in_net : forall ns nr hosts m, select ns nr hosts = Ok m ->
    forall h, h ∈ msnd m ++ mrcv m -> h ∈ hosts
}.

(** What makes the launch loops of [main] safe: no host appears twice
    among the senders, twice among the receivers, or in both lists, so no
    [sendCmd] reaches a host that is still waiting. *)
Definition separated (m : mapping) : Prop :=
  NoDup (msnd m) /\ NoDup (mrcv m) /\ forall h, h ∈ msnd m -> h ∉ mrcv m.

(** ** Lemmas *)

Lemma py_filter_pure {A} (f : A -> result bool) (g : A -> bool) l :
  (forall x, f x = Ok (g x)) -> py_filter f l = Ok (List.filter g l).
Proof.
  intros Hf. induction l as [|x l IH]; simpl; [done|].
  rewrite Hf, IH. simpl. by destruct (g x).
Qed.

Lemma sender_filter hosts : py_filter sender_test hosts = Ok (sender_pool hosts).
Proof. apply py_filter_pure. intros h. apply re_search_sender. Qed.

Lemma receiver_filter hosts : py_filter receiver_test hosts = Ok (receiver_pool hosts).
Proof. apply py_filter_pure. intros h. apply re_search_receiver. Qed.

#[export] Hint Rewrite sender_filter receiver_filter : pyrw.

Lemma take_range_Ok pool n l :
  take_range pool n = Ok l <-> Z.to_nat n <= length pool /\ l = take (Z.to_nat n) pool.
Proof. apply for_each_index_seq. Qed.

Lemma take_range_err pool n :
  length pool < Z.to_nat n -> take_range pool n = Raise IndexError.
Proof. apply for_each_index_seq_err. Qed.

Lemma elem_of_sender_pool h hosts : h ∈ sender_pool hosts <-> h ∈ hosts /\ is_sender h = true.
Proof. unfold sender_pool. by rewrite !list_elem_of_In, List.filter_In. Qed.

Lemma elem_of_receiver_pool h hosts :
  h ∈ receiver_pool hosts <-> h ∈ hosts /\ is_receiver h = true.
Proof. unfold receiver_pool. by rewrite !list_elem_of_In, List.filter_In. Qed.

Lemma take_range_no_assert pool n : no_assert (take_range pool n).
Proof. unfold take_range. auto with noassert. Qed.

#[export] Hint Resolve take_range_no_assert : noassert.

(** ** Theorems on the fat-tree variant *)

Section FatTree.
(** The two calls of [random.shuffle], in order. *)
Variable shuffle : nat -> list host -> list host.
Hypothesis shuffle_perm : forall k l, shuffle k l ≡ₚ l.

Lemma length_shuffle k l : length (shuffle k l) = length l.
Proof. apply Permutation_length, shuffle_perm. Qed.

Lemma elem_of_shuffle k l h : h ∈ shuffle k l <-> h ∈ l.
Proof. apply elem_of_Permutation_proper, shuffle_perm. Qed.

(** The result of [create_mappings] (test_ft.py). *)
Lemma ft_mappings_iff (ns nr : Z) (hosts : list host) (m : mapping) :
  create_mappings_ft shuffle ns nr hosts = Ok m <->
  Z.to_nat ns <= length (sender_pool hosts) /\
  Z.to_nat nr <= length (receiver_pool hosts) /\
  m = mkMapping (take (Z.to_nat ns) (shuffle 0 (sender_pool hosts)))
                (take (Z.to_nat nr) (shuffle 1 (receiver_pool hosts))).
Proof.
  unfold create_mappings_ft. rewrite sender_filter, receiver_filter. simpl.
  rewrite bind_Ok. setoid_rewrite bind_Ok. setoid_rewrite take_range_Ok.
  rewrite !length_shuffle. split.
  - intros (ss & [Hs ->] & rs & [Hr ->] & [= <-]). done.
  - intros (Hs & Hr & ->). eexists; split; [done|]. eexists; split; done.
Qed.

(** C16 (functional): [create_mappings] (test_ft.py) returns exactly when
    both pools are long enough, and then the senders are the first
    [args.ns] hosts of the shuffled sender pool and the receivers the
    first [args.nr] of the shuffled receiver pool; a count [<= 0] selects
    nobody. *)
Theorem create_mappings_ft_spec (ns nr : Z) (hosts : list host) (m : mapping) :
  create_mappings_ft shuffle ns nr hosts = Ok m <->
  Z.to_nat ns <= length (sender_pool hosts) /\
  Z.to_nat nr <= length (receiver_pool hosts) /\
  m = mkMapping (take (Z.to_nat ns) (shuffle 0 (sender_pool hosts)))
                (take (Z.to_nat nr) (shuffle 1 (receiver_pool hosts))).
Proof. apply ft_mappings_iff. Qed.

Lemma ft_mappings_short (ns nr : Z) (hosts : list host) :
  length (sender_pool hosts) < Z.to_nat ns \/
  length (receiver_pool hosts) < Z.to_nat nr ->
  create_mappings_ft shuffle ns nr hosts = Raise IndexError.
Proof.
  unfold create_mappings_ft. rewrite sender_filter, receiver_filter. simpl.
  intros Hshort.
  destruct (decide (length (sender_pool hosts) < Z.to_nat ns)) as [Hs|Hs].
  - rewrite (take_range_err (shuffle 0 (sender_pool hosts)) ns)
      by (rewrite length_shuffle; lia). reflexivity.
  - rewrite (proj2 (take_range_Ok (shuffle 0 (sender_pool hosts)) ns _))
      by (rewrite length_shuffle; split; [lia|done]). simpl.
    rewrite (take_range_err (shuffle 1 (receiver_pool hosts)) nr)
      by (rewrite length_shuffle; lia). reflexivity.
Qed.

(** C17 (error): when a pool has fewer hosts than requested, the
    [pool[i]] of the loop raises IndexError; the spec's "fewer hosts
    than requested" edge case is not reported any other way. *)
Theorem create_mappings_ft_short (ns nr : Z) (hosts : list host) :
  length (sender_pool hosts) < Z.to_nat ns \/
  length (receiver_pool hosts) < Z.to_nat nr ->
  create_mappings_ft shuffle ns nr hosts = Raise IndexError.
Proof. apply ft_mappings_short. Qed.

Lemma ft_senders_in_pool ns nr hosts m h :
  create_mappings_ft shuffle ns nr hosts = Ok m -> h ∈ msnd m -> h ∈ sender_pool hosts.
Proof.
  intros (_ & _ & ->)%ft_mappings_iff Hh. simpl in Hh.
  by eapply elem_of_shuffle, elem_of_take_l.
Qed.

Lemma ft_receivers_in_pool ns nr hosts m h :
  create_mappings_ft shuffle ns nr hosts = Ok m -> h ∈ mrcv m -> h ∈ receiver_pool hosts.
Proof.
  intros (_ & _ & ->)%ft_mappings_iff Hh. simpl in Hh.
  by eapply elem_of_shuffle, elem_of_take_l.
Qed.

Lemma ft_mappings_disjoint (ns nr : Z) (hosts : list host) (m : mapping) :
  Forall (fun h => count_dots (hip h) <= 3) hosts ->
  create_mappings_ft shuffle ns nr hosts = Ok m ->
  forall h, h ∈ msnd m -> h ∉ mrcv m.
Proof.
  intros Hips Hm h Hs Hr.
  apply (ft_senders_in_pool _ _ _ _ _ Hm), elem_of_sender_pool in Hs as [Hin Hs].
  apply (ft_receivers_in_pool _ _ _ _ _ Hm), elem_of_receiver_pool in Hr as [_ Hr].
  apply (ip_patterns_disjoint (hip h)).
  - by eapply Forall_forall in Hips.
  - rewrite re_search_sender, re_search_receiver. by split; f_equal.
Qed.

Lemma ft_mappings_nodup (ns nr : Z) (hosts : list host) (m : mapping) :
  NoDup hosts -> create_mappings_ft shuffle ns nr hosts = Ok m ->
  NoDup (msnd m) /\ NoDup (mrcv m).
Proof.
  intros Hnd (_ & _ & ->)%ft_mappings_iff. simpl.
  split; apply NoDup_take_l, NoDup_ListNoDup; eapply Permutation_NoDup;
    try (symmetry; apply shuffle_perm); by apply List.NoDup_filter, NoDup_ListNoDup.
Qed.

Lemma ft_mappings_separated (ns nr : Z) (hosts : list host) (m : mapping) :
  NoDup hosts -> Forall (fun h => count_dots (hip h) <= 3) hosts ->
  create_mappings_ft shuffle ns nr hosts = Ok m -> separated m.
Proof.
  intros Hnd Hips Hm. destruct (ft_mappings_nodup _ _ _ _ Hnd Hm).
  split_and!; [done|done|]. by apply (ft_mappings_disjoint ns nr hosts).
Qed.

(** The only exception of [create_mappings] is the IndexError of
    [pool[i]]. *)
Lemma create_mappings_ft_no_assert ns nr hosts : no_assert (create_mappings_ft shuffle ns nr hosts).
Proof. unfold create_mappings_ft. rewrite sender_filter, receiver_filter. solve_no_assert. Qed.

(** C6 (safety): when every host address has at most three dots (as a
    dotted-quad IPv4 address has), no host is both a sender and a
    receiver. *)
Theorem create_mappings_ft_disjoint (ns nr : Z) (hosts : list host) (m : mapping) :
  Forall (fun h => count_dots (hip h) <= 3) hosts ->
  create_mappings_ft shuffle ns nr hosts = Ok m ->
  forall h, h ∈ msnd m -> h ∉ mrcv m.
Proof. apply ft_mappings_disjoint. Qed.

(** C11 (invariant): no host is selected twice as a sender or twice as
    a receiver, when [net.hosts] has no duplicates. *)
Theorem create_mappings_ft_nodup (ns nr : Z) (hosts : list host) (m : mapping) :
  NoDup hosts -> create_mappings_ft shuffle ns nr hosts = Ok m ->
  NoDup (msnd m) /\ NoDup (mrcv m).
Proof. apply ft_mappings_nodup. Qed.

#[export] Instance ft_selection : HostSelection := {|
  select := create_mappings_ft shuffle;
  select_in_net ns nr hosts m Hm h Hh := ltac:(
    apply elem_of_app in Hh as [Hh|Hh];
    [apply (elem_of_sender_pool h hosts), (ft_senders_in_pool ns nr hosts m h Hm Hh)
    |apply (elem_of_receiver_pool h hosts), (ft_receivers_in_pool ns nr hosts m h Hm Hh)])
|}.
End FatTree.

#[export] Hint Resolve create_mappings_ft_no_assert : noassert.

(** ** Theorems on the dual-homed-tree variant *)

(** The result of [create_mappings] (test0.py). *)
Lemma dht_mappings_iff (ns nr : Z) (hosts : list host) (m : mapping) :
  create_mappings_dht ns nr hosts = Ok m <->
  Z.to_nat ns <= length (sender_pool hosts) /\
  Z.to_nat nr <= length (receiver_pool hosts) /\
  exists h0 h4, hosts !! 0 = Some h0 /\ hosts !! 4 = Some h4 /\ m = mkMapping [h0] [h4].
Proof.
  unfold create_mappings_dht. rewrite sender_filter, receiver_filter, !Ok_bind.
  rewrite bind_Ok. repeat setoid_rewrite bind_Ok. setoid_rewrite take_range_Ok.
  setoid_rewrite py_index_Ok. split.
  - intros (ss & [Hs _] & rs & [Hr _] & h0 & H0 & h4 & H4 & [= <-]).
    split_and!; [done|done|]. by exists h0, h4.
  - intros (Hs & Hr & h0 & h4 & H0 & H4 & ->).
    eexists; split; [done|]. eexists; split; [done|].
    exists h0; split; [done|]. exists h4; split; done.
Qed.

Lemma dht_mappings_separated (ns nr : Z) (hosts : list host) (m : mapping) :
  NoDup hosts -> create_mappings_dht ns nr hosts = Ok m -> separated m.
Proof.
  intros Hnd (_ & _ & h0 & h4 & H0 & H4 & ->)%dht_mappings_iff. simpl.
  split_and!; try apply NoDup_singleton.
  intros h ->%list_elem_of_singleton ->%list_elem_of_singleton.
  enough (0 = 4) by lia. by eapply NoDup_lookup.
Qed.

Lemma create_mappings_dht_no_assert ns nr hosts : no_assert (create_mappings_dht ns nr hosts).
Proof. unfold create_mappings_dht. rewrite sender_filter, receiver_filter. solve_no_assert. Qed.

#[export] Hint Resolve create_mappings_dht_no_assert : noassert.

(** C18 (functional): [create_mappings] of test0.py returns when both
    pools are long enough for [args.ns] / [args.nr] and the network has at
    least five hosts, and then its result is [[net.hosts[0]]] and
    [[net.hosts[4]]], whatever the pools and the counts are. *)
Theorem create_mappings_dht_spec (ns nr : Z) (hosts : list host) (m : mapping) :
  create_mappings_dht ns nr hosts = Ok m <->
  Z.to_nat ns <= length (sender_pool hosts) /\
  Z.to_nat nr <= length (receiver_pool hosts) /\
  exists h0 h4, hosts !! 0 = Some h0 /\ hosts !! 4 = Some h4 /\ m = mkMapping [h0] [h4].
Proof. apply dht_mappings_iff. Qed.

#[export] Instance dht_selection : HostSelection := {|
  select := create_mappings_dht;
  select_in_net ns nr hosts m Hm h Hh := ltac:(
    apply dht_mappings_iff in Hm as (_ & _ & h0 & h4 & H0 & H4 & ->);
    simpl in Hh; apply elem_of_cons in Hh as [->|Hh];
    [|apply list_elem_of_singleton in Hh as ->]; by eapply list_elem_of_lookup_2)
|}.

(** ** A fat tree with [k = 4] *)

(** The sixteen hosts of [FatTreeTopo(k=4)]: host [h] of edge switch [s]
    of pod [p] has the address [10.p.s.h], [h] in [2..3]. *)
Definition ft4_hosts : list host :=
  p ← [0; 1; 2; 3]%Z; s ← [0; 1]%Z; h ← [2; 3]%Z;
  [mkHost (str_Z p ++ lit "_" ++ str_Z s ++ lit "_" ++ str_Z h)
          (dotted (lit "10") (str_Z p) (str_Z s) (str_Z h))].

(** [random.shuffle] returning the reversed list. *)
Definition rev_shuffle (k : nat) (l : list host) : list host := rev l.

Lemma rev_shuffle_perm k l : rev_shuffle k l ≡ₚ l.
Proof. unfold rev_shuffle. symmetry. apply Permutation_rev. Qed.

(** ** Witnesses *)

Lemma create_mappings_ft_spec_witness :
  create_mappings_ft rev_shuffle 2 2 ft4_hosts =
  Ok (mkMapping (take 2 (rev_shuffle 0 (sender_pool ft4_hosts)))
                (take 2 (rev_shuffle 1 (receiver_pool ft4_hosts)))).
Proof.
  apply (proj2 (create_mappings_ft_spec rev_shuffle rev_shuffle_perm 2 2 ft4_hosts _)).
  split_and!; [vm_compute; lia|vm_compute; lia|reflexivity].
Defined.

Lemma create_mappings_ft_short_witness :
  create_mappings_ft rev_shuffle 9 1 ft4_hosts = Raise IndexError.
Proof.
  apply (create_mappings_ft_short rev_shuffle rev_shuffle_perm). left. vm_compute. lia.
Defined.

Lemma create_mappings_ft_disjoint_witness :
  Forall (fun h => h ∉ take 2 (rev_shuffle 1 (receiver_pool ft4_hosts)))
         (take 2 (rev_shuffle 0 (sender_pool ft4_hosts))).
Proof.
  apply Forall_forall. intros h.
  apply (create_mappings_ft_disjoint rev_shuffle rev_shuffle_perm 2 2 ft4_hosts
           (mkMapping (take 2 (rev_shuffle 0 (sender_pool ft4_hosts)))
                      (take 2 (rev_shuffle 1 (receiver_pool ft4_hosts))))).
  - decide_lit.
  - apply (proj2 (ft_mappings_iff rev_shuffle rev_shuffle_perm 2 2 ft4_hosts _)).
    split_and!; [vm_compute; lia|vm_compute; lia|reflexivity].
Defined.

Lemma create_mappings_ft_nodup_witness :
  NoDup (take 3 (rev_shuffle 0 (sender_pool ft4_hosts))) /\
  NoDup (take 3 (rev_shuffle 1 (receiver_pool ft4_hosts))).
Proof.
  apply (create_mappings_ft_nodup rev_shuffle rev_shuffle_perm 3 3 ft4_hosts
           (mkMapping (take 3 (rev_shuffle 0 (sender_pool ft4_hosts)))
                      (take 3 (rev_shuffle 1 (receiver_pool ft4_hosts))))).
  - decide_lit.
  - apply (proj2 (ft_mappings_iff rev_shuffle rev_shuffle_perm 3 3 ft4_hosts _)).
    split_and!; [vm_compute; lia|vm_compute; lia|reflexivity].
Defined.

