(* ===== verification/Config.v ===== *)
(** * [parse_args]: the run configuration

    test0.py lines 20-70 and test_ft.py lines 25-70.  argparse (a library)
    produces a namespace in which an option that was not given holds its
    default (an int, [False] or ['covtype']) and an option that was given
    holds the command-line string ([store]) or [True] ([store_true]).  The
    scripts then apply [int()] to [bw], [k], [sw] (test0.py only), [ns],
    [nr] and [nflows]; [ds] and [cs] are left as argparse gave them. *)

From S2P Require Import Prelude PyStr PyFormat.

(** The namespace argparse returns. *)
Record namespace := mkNamespace {
  n_bw : pyval; n_k : pyval; n_sw : pyval; n_ns : pyval; n_nr : pyval;
  n_nflows : pyval; n_ds : pyval; n_cs : pyval; n_mptcp : bool; n_debug : bool
}.

(** The defaults of the [add_argument] calls (test0.py lines 22-61; the
    [-sw] option exists in test0.py only). *)
Definition defaults : namespace := {|
  n_bw := VInt 10; n_k := VInt 4; n_sw := VInt 1; n_ns := VInt 1; n_nr := VInt 1;
  n_nflows := VInt 1; n_ds := VStr (lit "covtype"); n_cs := VInt 500;
  n_mptcp := false; n_debug := false |}.

(** [args] after [parse_args]: [sw] is [None] for test_ft.py, whose
    namespace has no such attribute. *)
Record args := mkArgs {
  a_bw : Z; a_k : Z; a_sw : option Z; a_ns : Z; a_nr : Z; a_nflows : Z;
  a_ds : pyval; a_cs : pyval; a_mptcp : bool; a_debug : bool
}.

(** Python's [int(v)] on the values a namespace can hold. *)
Definition py_int_of (v : pyval) : result Z :=
  match v with
  | VInt z => Ok z
  | VBool b => Ok (if b then 1%Z else 0%Z)
  | VStr s => py_int s
  | _ => Raise TypeError
  end.

(** test0.py [parse_args], lines 63-70. *)
Definition parse_args_dht (n : namespace) : result args :=
  bw ← py_int_of (n_bw n);
  k ← py_int_of (n_k n);
  sw ← py_int_of (n_sw n);
  ns ← py_int_of (n_ns n);
  nr ← py_int_of (n_nr n);
  nflows ← py_int_of (n_nflows n);
  Ok (mkArgs bw k (Some sw) ns nr nflows (n_ds n) (n_cs n) (n_mptcp n) (n_debug n)).

(** test_ft.py [parse_args], lines 64-70. *)
Definition parse_args_ft (n : namespace) : result args :=
  bw ← py_int_of (n_bw n);
  k ← py_int_of (n_k n);
  ns ← py_int_of (n_ns n);
  nr ← py_int_of (n_nr n);
  nflows ← py_int_of (n_nflows n);
  Ok (mkArgs bw k None ns nr nflows (n_ds n) (n_cs n) (n_mptcp n) (n_debug n)).

(** ** Lemmas *)

(** A namespace field converts to [z] when it is the int [z] or a string
    that is an integer literal of value [z]. *)
Definition field_value (v : pyval) (z : Z) : Prop :=
  match v with
  | VInt z' => z' = z
  | VStr s => int_literal s z
  | VBool b => (if b then 1%Z else 0%Z) = z
  | _ => False
  end.

Lemma py_int_of_spec v z : py_int_of v = Ok z <-> field_value v z.
Proof.
  destruct v; simpl.
  - split; congruence.
  - apply int_literal_iff.
  - split; congruence.
  - split; [discriminate|done].
  - split; [discriminate|done].
Qed.

Lemma py_int_of_raises v e : py_int_of v = Raise e -> e = ValueError \/ e = TypeError.
Proof.
  destruct v as [z|s|b|o|l]; simpl; intros H; try discriminate;
    [|injection H as <-; by right..].
  unfold py_int in H. destruct (py_sign _) as [neg s2].
  destruct (span_digits _) as [[|d ds] rest].
  - injection H as <-. by left.
  - destruct (lstrip_by is_space rest); [discriminate|]. injection H as <-. by left.
Qed.

Lemma py_int_of_no_assert v : no_assert (py_int_of v).
Proof.
  apply (no_assert_of _ (fun e => e = ValueError \/ e = TypeError)); [apply py_int_of_raises|].
  by intros [|].
Qed.

#[export] Hint Resolve py_int_of_no_assert : noassert.

Lemma parse_args_dht_no_assert n : no_assert (parse_args_dht n).
Proof. unfold parse_args_dht. solve_no_assert. Qed.

Lemma parse_args_ft_no_assert n : no_assert (parse_args_ft n).
Proof. unfold parse_args_ft. solve_no_assert. Qed.

#[export] Hint Resolve parse_args_dht_no_assert parse_args_ft_no_assert : noassert.

(** ** Theorems *)

(** C20 (functional): test0.py's [parse_args] returns exactly when each of
    [-bw], [-k], [-sw], [-ns], [-nr] and [-nflows] is an int default or a
    string that is a Python integer literal, and then each field holds
    that integer; [ds], [cs] and the two flags are passed through
    unconverted. *)
Theorem parse_args_dht_spec (n : namespace) (a : args) :
  parse_args_dht n = Ok a <->
  field_value (n_bw n) (a_bw a) /\ field_value (n_k n) (a_k a) /\
  (exists sw, a_sw a = Some sw /\ field_value (n_sw n) sw) /\
  field_value (n_ns n) (a_ns a) /\ field_value (n_nr n) (a_nr a) /\
  field_value (n_nflows n) (a_nflows a) /\
  a_ds a = n_ds n /\ a_cs a = n_cs n /\ a_mptcp a = n_mptcp n /\ a_debug a = n_debug n.
Proof.
  unfold parse_args_dht. rewrite bind_Ok. repeat setoid_rewrite bind_Ok.
  setoid_rewrite py_int_of_spec. split.
  - intros (bw & Hbw & k & Hk & sw & Hsw & ns & Hns & nr & Hnr & nf & Hnf & [= <-]).
    simpl. split_and!; eauto.
  - destruct a as [bw k sw ns nr nf ds cs mp dbg]; simpl.
    intros (Hbw & Hk & (sw' & -> & Hsw) & Hns & Hnr & Hnf & -> & -> & -> & ->).
    repeat (eexists; split; [eassumption|]). done.
Qed.

(** C21 (functional): the same for test_ft.py, which has no [-sw]. *)
Theorem parse_args_ft_spec (n : namespace) (a : args) :
  parse_args_ft n = Ok a <->
  field_value (n_bw n) (a_bw a) /\ field_value (n_k n) (a_k a) /\ a_sw a = None /\
  field_value (n_ns n) (a_ns a) /\ field_value (n_nr n) (a_nr a) /\
  field_value (n_nflows n) (a_nflows a) /\
  a_ds a = n_ds n /\ a_cs a = n_cs n /\ a_mptcp a = n_mptcp n /\ a_debug a = n_debug n.
Proof.
  unfold parse_args_ft. rewrite bind_Ok. repeat setoid_rewrite bind_Ok.
  setoid_rewrite py_int_of_spec. split.
  - intros (bw & Hbw & k & Hk & ns & Hns & nr & Hnr & nf & Hnf & [= <-]).
    simpl. split_and!; eauto.
  - destruct a as [bw k sw ns nr nf ds cs mp dbg]; simpl.
    intros (Hbw & Hk & -> & Hns & Hnr & Hnf & -> & -> & -> & ->).
    repeat (eexists; split; [eassumption|]). done.
Qed.

