(* ===== verification/Commands.v ===== *)
(** * The command lines sent to the receiver and sender hosts

    test0.py lines 102-133 and test_ft.py lines 98-126.  Each command is
    built by ['%'] formatting; in debug mode [sendCmd] gets the command
    and the redirections ['1>', outfile, '2>', errfile] as separate
    arguments and joins them with spaces.  The sender of index [i] (its
    position in the sender list) gets [--ips] followed by [str(ips)], the
    Python list of receiver addresses. *)

From S2P Require Import Prelude PyStr PyFormat PyRegex Mappings Config.

(** [outfiles[h]] and [errfiles[h]]: ['/tmp/%s.out' % h.name]. *)
Definition out_file (h : host) : result pystr := py_format (lit "/tmp/%s.out") [VStr (hname h)].

(** A command with the debug redirections appended, as [sendCmd] joins
    them. *)
Definition with_redirects (h : host) (cmd : pystr) : result pystr :=
  out ← out_file h; err ← out_file h;
  Ok (send_cmd_text [VStr cmd; VStr (lit "1>"); VStr out; VStr (lit "2>"); VStr err]).

(** test0.py lines 111-119. *)
Definition receiver_cmd_dht (a : args) (r : host) : result pystr :=
  if a_debug a then
    cmd ← py_format (lit "python receiver.py --id %s --nr %d --ns %d --ds %s --debug")
                    [VStr (hname r); VInt (a_nr a); VInt (a_ns a); a_ds a];
    with_redirects r cmd
  else py_format (lit "python receiver.py --id %s --nr %i --ns %i --ds %s")
                 [VObj (hname r); VInt (a_nr a); VInt (a_ns a); a_ds a].

(** test_ft.py lines 104-112. *)
Definition receiver_cmd_ft (a : args) (r : host) : result pystr :=
  if a_debug a then
    cmd ← py_format (lit "python receiver.py --id %s --nr %d --ns %d --ds %s --debug")
                    [VStr (hname r); VInt (a_nr a); VInt (a_ns a); a_ds a];
    with_redirects r cmd
  else py_format (lit "python receiver.py --id %s --nr %i --ns %i --ds %s")
                 [VStr (hname r); VInt (a_nr a); VInt (a_ns a); a_ds a].

(** [ips = map(lambda x: x.IP(), rcvrs)] *)
Definition ips_of (rcvrs : list host) : pyval := VList (map (fun h => VStr (hip h)) rcvrs).

(** test0.py lines 125-133: sender [s] of index [i]. *)
Definition sender_cmd_dht (a : args) (ips : pyval) (s : host) (i : nat) : result pystr :=
  if a_debug a then
    cmd ← py_format (lit "python sender.py --id %s --cs %d --ns %d --ips %s --ds %s --debug")
                    [VInt (Z.of_nat i); a_cs a; VInt (a_ns a); ips; a_ds a];
    with_redirects s cmd
  else py_format (lit "python sender.py --id %s --cs %d --ns %d --ips %s --ds %s")
                 [VInt (Z.of_nat i); a_cs a; VInt (a_ns a); ips; a_ds a].

(** test_ft.py lines 118-126. *)
Definition sender_cmd_ft (a : args) (ips : pyval) (s : host) (i : nat) : result pystr :=
  if a_debug a then
    cmd ← py_format (lit "python sender.py --id %s --cs %d --ips %s --ds %s --debug")
                    [VInt (Z.of_nat i); a_cs a; ips; a_ds a];
    with_redirects s cmd
  else py_format (lit "python sender.py --id %s --cs %d --ips %s --ds %s")
                 [VInt (Z.of_nat i); a_cs a; ips; a_ds a].

(** A character of a dotted-quad address: a digit or a dot. *)
Definition plain_char (c : ascii) : Prop := is_digit c = true \/ c = "."%char.

(** ** Lemmas *)

Lemma parse_fmt_sender_ft :
  parse_fmt (lit "python sender.py --id %s --cs %d --ips %s --ds %s") =
  Ok (map FLit (lit "python sender.py --id ") ++ FConv CStr ::
      map FLit (lit " --cs ") ++ FConv CInt :: map FLit (lit " --ips ") ++ FConv CStr ::
      map FLit (lit " --ds ") ++ [FConv CStr]).
Proof. reflexivity. Qed.

Lemma out_file_text h : out_file h = Ok (lit "/tmp/" ++ hname h ++ lit ".out").
Proof. unfold out_file, py_format. compute_fmt. reflexivity. Qed.

Lemma out_file_no_assert h : no_assert (out_file h).
Proof. rewrite out_file_text. apply no_assert_Ok. Qed.

Lemma receiver_cmd_dht_no_assert a r : no_assert (receiver_cmd_dht a r).
Proof. unfold receiver_cmd_dht, with_redirects, out_file. destruct (a_debug a); solve_no_assert. Qed.
Lemma receiver_cmd_ft_no_assert a r : no_assert (receiver_cmd_ft a r).
Proof. unfold receiver_cmd_ft, with_redirects, out_file. destruct (a_debug a); solve_no_assert. Qed.
Lemma sender_cmd_dht_no_assert a ips s i : no_assert (sender_cmd_dht a ips s i).
Proof. unfold sender_cmd_dht, with_redirects, out_file. destruct (a_debug a); solve_no_assert. Qed.
Lemma sender_cmd_ft_no_assert a ips s i : no_assert (sender_cmd_ft a ips s i).
Proof. unfold sender_cmd_ft, with_redirects, out_file. destruct (a_debug a); solve_no_assert. Qed.

#[export] Hint Resolve out_file_no_assert receiver_cmd_dht_no_assert receiver_cmd_ft_no_assert
  sender_cmd_dht_no_assert sender_cmd_ft_no_assert : noassert.

(** ** Theorems *)

(** C22 (error): [-cs] is never passed through [int()] by [parse_args], so
    when it is given on the command line [args.cs] is a string and the
    ['--cs %d'] conversion of every sender command raises TypeError, in
    both scripts and both modes; only the int default [500] works. *)
Theorem sender_cmd_cs_string (a : args) (cs : pystr) (ips : pyval) (s : host) (i : nat) :
  a_cs a = VStr cs ->
  sender_cmd_dht a ips s i = Raise TypeError /\ sender_cmd_ft a ips s i = Raise TypeError.
Proof.
  intros Hcs. unfold sender_cmd_dht, sender_cmd_ft. rewrite Hcs.
  destruct (a_debug a); split; reflexivity.
Qed.

(** The text of the test_ft.py sender command. *)
Definition sender_ft_line (a : args) (cs : Z) (rcvrs : list host) (i : nat) : pystr :=
  lit "python sender.py --id " ++ str_Z (Z.of_nat i) ++ lit " --cs " ++ str_Z cs ++
  lit " --ips " ++ py_str (ips_of rcvrs) ++ lit " --ds " ++ py_str (a_ds a).

Lemma sender_ft_text (a : args) (cs : Z) (rcvrs : list host) (s : host) (i : nat) :
  a_cs a = VInt cs -> a_debug a = false ->
  sender_cmd_ft a (ips_of rcvrs) s i = Ok (sender_ft_line a cs rcvrs i).
Proof.
  intros Hcs Hd. unfold sender_cmd_ft, py_format. rewrite Hcs, Hd.
  rewrite parse_fmt_sender_ft. autorewrite with pyrw. reflexivity.
Qed.

(** C24 (functional): with an int chunk size and debugging off, the
    test_ft.py sender of index [i] runs
    ['python sender.py --id <i> --cs <cs> --ips <str(ips)> --ds <ds>']. *)
Theorem sender_cmd_ft_text (a : args) (cs : Z) (rcvrs : list host) (s : host) (i : nat) :
  a_cs a = VInt cs -> a_debug a = false ->
  sender_cmd_ft a (ips_of rcvrs) s i =
  Ok (lit "python sender.py --id " ++ str_Z (Z.of_nat i) ++ lit " --cs " ++ str_Z cs ++
      lit " --ips " ++ py_str (ips_of rcvrs) ++ lit " --ds " ++ py_str (a_ds a)).
Proof. apply sender_ft_text. Qed.

Lemma repr_char_plain c : plain_char c -> repr_char "'" c = [c].
Proof.
  intros [Hd| ->]; [|reflexivity]. revert Hd.
  destruct c as [[] [] [] [] [] [] [] []]; vm_compute; intros Hd; congruence.
Qed.

Lemma repr_str_plain s : Forall plain_char s -> repr_str s = "'"%char :: s ++ ["'"%char].
Proof.
  intros Hs. unfold repr_str.
  rewrite (bool_decide_eq_false_2 ("'"%char ∈ s)).
  2:{ intros Hq. eapply Forall_forall in Hs; [|exact Hq]. by destruct Hs as [Hs|Hs]. }
  simpl. f_equal. f_equal. induction Hs as [|c s Hc Hs IH]; [done|].
  simpl. rewrite repr_char_plain by done. simpl. by f_equal.
Qed.

Lemma space_not_in_str_Z z : " "%char ∉ str_Z z.
Proof. by intros [?|?]%str_Z_chars. Qed.

Lemma sender_line_words a cs r1 r2 rs i :
  Forall plain_char (hip r1) ->
  sender_ft_line a cs (r1 :: r2 :: rs) i =
  py_join [" "%char] [lit "python"; lit "sender.py"; lit "--id"; str_Z (Z.of_nat i); lit "--cs";
                      str_Z cs; lit "--ips"; lit "['" ++ hip r1 ++ lit "',"] ++
  " "%char :: py_join (lit ", ") (map (to_text true) (map (fun h => VStr (hip h)) (r2 :: rs))) ++
  lit "] --ds " ++ py_str (a_ds a).
Proof.
  intros Hip. unfold sender_ft_line, py_str at 1, ips_of.
  change (to_text false (VList ?l)) with (lit "[" ++ py_join (lit ", ") (map (to_text true) l) ++ lit "]").
  cbn [map]. rewrite py_join_cons by done. cbn [to_text]. rewrite repr_str_plain by done.
  replace ("'"%char :: hip r1 ++ ["'"%char]) with (lit "'" ++ hip r1 ++ lit "'") by reflexivity.
  cbn [py_join]. rewrite <- !app_assoc. reflexivity.
Qed.

(** C25 (functional): with two receivers or more, the sender command of
    test_ft.py puts [str(ips)] after [--ips], and [str] of a list
    separates its items with [', ']; the command is run by a shell, which
    splits it at the spaces, so the [--ips] argument [sender.py] receives
    is only ["['<ip1>',"] (the first address with a stray bracket and
    comma) and the other addresses become further words. *)
Theorem sender_cmd_ft_ips_split (a : args) (cs : Z) (r1 r2 : host) (rs : list host) (s : host) (i : nat) :
  a_cs a = VInt cs -> a_debug a = false -> Forall plain_char (hip r1) ->
  exists c post, sender_cmd_ft a (ips_of (r1 :: r2 :: rs)) s i = Ok c /\
    py_split " "%char c = [lit "python"; lit "sender.py"; lit "--id"; str_Z (Z.of_nat i); lit "--cs";
                           str_Z cs; lit "--ips"; lit "['" ++ hip r1 ++ lit "',"] ++ post.
Proof.
  intros Hcs Hd Hip. eexists _, _. split; [by apply sender_ft_text|].
  rewrite sender_line_words by done. apply py_split_join_app; [done|].
  repeat constructor; try apply space_not_in_str_Z; try decide_lit.
  rewrite !not_elem_of_app. split_and!; [decide_lit| |decide_lit].
  intros Hs. eapply Forall_forall in Hip; [|exact Hs]. by destruct Hip as [Hip|Hip].
Qed.

(** C26 (functional): in debug mode the receiver of test0.py is started
    with [1> /tmp/<name>.out 2> /tmp/<name>.out]: [outfiles] and
    [errfiles] give the same file, so the shell opens it twice and the
    receiver's standard output and standard error overwrite each other
    in one file. *)
Theorem receiver_cmd_dht_debug (a : args) (r : host) :
  a_debug a = true ->
  receiver_cmd_dht a r =
  Ok (lit "python receiver.py --id " ++ hname r ++ lit " --nr " ++ str_Z (a_nr a) ++
      lit " --ns " ++ str_Z (a_ns a) ++ lit " --ds " ++ py_str (a_ds a) ++
      lit " --debug 1> /tmp/" ++ hname r ++ lit ".out 2> /tmp/" ++ hname r ++ lit ".out").
Proof.
  intros Hd. unfold receiver_cmd_dht, with_redirects, py_format. rewrite Hd. compute_fmt.
  autorewrite with pyrw. rewrite out_file_text. cbn [mbind result_bind].
  unfold send_cmd_text. cbn [map py_str to_text py_join].
  do 4 (simpl; rewrite <- ?app_assoc). reflexivity.
Qed.

(** ** Witnesses *)

(** [-cs 500] on the command line: the string ['500']. *)
Definition args_cs_text : args :=
  mkArgs 10 4 (Some 1%Z) 1 1 1 (VStr (lit "covtype")) (VStr (lit "500")) false false.

Definition args_cs_int : args :=
  mkArgs 10 4 None 1 1 1 (VStr (lit "covtype")) (VInt 500) false false.

Definition rcv_h : host := mkHost (lit "1_0_2") (lit "10.1.0.2").
Definition snd_h : host := mkHost (lit "0_0_2") (lit "10.0.0.2").

Lemma sender_cmd_cs_string_witness :
  sender_cmd_dht args_cs_text (ips_of [rcv_h]) snd_h 0 = Raise TypeError /\
  sender_cmd_ft args_cs_text (ips_of [rcv_h]) snd_h 0 = Raise TypeError.
Proof. apply (sender_cmd_cs_string args_cs_text (lit "500")). reflexivity. Defined.

Lemma sender_cmd_ft_text_witness :
  sender_cmd_ft args_cs_int (ips_of [rcv_h]) snd_h 0 =
  Ok (lit "python sender.py --id 0 --cs 500 --ips ['10.1.0.2'] --ds covtype").
Proof. rewrite (sender_cmd_ft_text args_cs_int 500); reflexivity. Defined.

(** Two receivers: [--ips] gets ["['10.1.0.2',"]. *)
Lemma sender_cmd_ft_ips_split_witness :
  exists post,
    sender_cmd_ft args_cs_int (ips_of [rcv_h; snd_h]) snd_h 0 =
    Ok (lit "python sender.py --id 0 --cs 500 --ips ['10.1.0.2', '10.0.0.2'] --ds covtype") /\
    py_split " "%char (lit "python sender.py --id 0 --cs 500 --ips ['10.1.0.2', '10.0.0.2'] --ds covtype") =
    [lit "python"; lit "sender.py"; lit "--id"; lit "0"; lit "--cs"; lit "500"; lit "--ips";
     lit "['10.1.0.2',"] ++ post.
Proof.
  destruct (sender_cmd_ft_ips_split args_cs_int 500 rcv_h snd_h [] snd_h 0) as (c & post & Hc & Hs);
    [reflexivity|reflexivity|repeat constructor; first [left; reflexivity|right; reflexivity]|].
  exists post.
  assert (E : sender_cmd_ft args_cs_int (ips_of [rcv_h; snd_h]) snd_h 0 =
              Ok (lit "python sender.py --id 0 --cs 500 --ips ['10.1.0.2', '10.0.0.2'] --ds covtype"))
    by reflexivity.
  rewrite E in Hc. injection Hc as <-. split; [exact E|exact Hs].
Defined.

(** A debug run of host [1_0_2]. *)
Lemma receiver_cmd_dht_debug_witness :
  receiver_cmd_dht (mkArgs 10 4 (Some 1%Z) 1 1 1 (VStr (lit "covtype")) (VInt 500) false true) rcv_h =
  Ok (lit "python receiver.py --id 1_0_2 --nr 1 --ns 1 --ds covtype --debug 1> /tmp/1_0_2.out 2> /tmp/1_0_2.out").
Proof. rewrite receiver_cmd_dht_debug by reflexivity. reflexivity. Defined.
