(* ===== verification/Results.v ===== *)
(** * [write_results]: the results file

    test0.py lines 135-140 and 153-167, test_ft.py lines 128-134 and
    151-165.  The outputs are collected in the dicts [tts] and [ttr]
    ([tts[s] = s.waitOutput()]), keyed by the host objects; [write_results]
    creates [../results] when [os.path.exists] says it is missing, opens
    the file whose name encodes the parameters and writes
    ['%s\n%s\n' % (','.join(stripped tts.values()), ','.join(stripped
    ttr.values()))].

    A dict is a stdpp [gmap] keyed by host; [dict.values()] lists the
    values in the map's own order, which stands for CPython 2's
    unspecified (hash) order: the theorems hold up to permutation.  The
    file system is a set of directories and a map from paths to contents;
    [open(path, 'w')] needs the parent directory and raises IOError
    ([ExternalError]) otherwise. *)

From S2P Require Import Prelude PyStr PyFormat PyRegex Mappings Config.

#[export] Instance host_countable : Countable host.
Proof.
  apply (inj_countable' (fun h => (hname h, hip h)) (fun p => mkHost p.1 p.2)).
  by intros [].
Defined.

Definition nl : ascii := ascii_of_N 10.

(** ** The result dicts *)

(** [d = {}; for h, out in ...: d[h] = out] *)
Definition dict_of (outs : list (host * pystr)) : gmap host pystr :=
  foldl (fun m '(h, o) => <[h := o]> m) ∅ outs.

(** [d.values()] *)
Definition dict_values (m : gmap host pystr) : list pystr := map snd (map_to_list m).

(** [','.join(map(lambda x: x.strip('\n'), d.values()))] *)
Definition csv_line (m : gmap host pystr) : pystr :=
  py_join [","%char] (map (py_strip [nl]) (dict_values m)).

(** [f.write('%s\n%s\n' % (line1, line2))] *)
Definition results_content (tts ttr : gmap host pystr) : result pystr :=
  py_format (lit "%s" ++ [nl] ++ lit "%s" ++ [nl]) [VStr (csv_line tts); VStr (csv_line ttr)].

(** ** The file name *)

Definition results_dir : pystr := lit "../results".

(** test0.py lines 157-162. *)
Definition results_path_dht (a : args) : result pystr :=
  let sw := match a_sw a with Some z => VInt z | None => VObj (lit "None") end in
  let vals := [VInt (a_bw a); sw; VInt (a_ns a); VInt (a_nr a); VInt (a_nflows a); a_ds a] in
  if a_mptcp a
  then py_format (lit "../results/bw%s_sw%i_ns%i_nr_%i_nf%i_%s_mptcp.csv") vals
  else py_format (lit "../results/bw%s_sw%i_ns%i_nr_%i_nf%i_%s.csv") vals.

(** test_ft.py lines 155-160. *)
Definition results_path_ft (a : args) : result pystr :=
  let vals := [VInt (a_bw a); VInt (a_ns a); VInt (a_nr a); VInt (a_nflows a); a_ds a] in
  if a_mptcp a
  then py_format (lit "../results/bw%s_ns%i_nr_%i_nf%i_%s.csv") vals
  else py_format (lit "../results/bw%s_ns%i_nr_%i_nf%i_%s_tcp.csv") vals.

(** ** The file system *)

Record fs := mkFs { fs_dirs : gset pystr; fs_files : gmap pystr pystr }.

(** [os.path.exists(p)]: a directory or a file. *)
Definition path_exists (p : pystr) (st : fs) : bool :=
  bool_decide (p ∈ fs_dirs st) || bool_decide (is_Some (fs_files st !! p)).

(** [os.makedirs(p)] for a path that does not exist. *)
Definition makedirs (p : pystr) (st : fs) : fs := mkFs ({[p]} ∪ fs_dirs st) (fs_files st).

(** The directory part of a path: everything before the last ['/']. *)
Definition dirname (p : pystr) : pystr :=
  match py_split "/" p with
  | [] => []
  | pieces => py_join ["/"%char] (removelast pieces)
  end.

(** [open(p, 'w')]: creates or truncates the file; IOError
    ([ExternalError]) when the directory does not exist. *)
Definition open_w (p : pystr) : stm fs unit :=
  fun st =>
    if bool_decide (dirname p ∈ fs_dirs st)
    then (mkFs (fs_dirs st) (<[p := []]> (fs_files st)), Ok tt)
    else (st, Raise ExternalError).

(** [f.write(text)] on the file just opened, then [f.close()]. *)
Definition write_close (p text : pystr) : stm fs unit :=
  st_modify (fun st => mkFs (fs_dirs st) (<[p := text]> (fs_files st))).

(** [write_results] of one script, given its file-name function: the
    directory test, the name, [open], the content, [write]. *)
Definition write_results (path_of : args -> result pystr)
    (tts ttr : gmap host pystr) (a : args) : stm fs unit :=
  st ← st_get;
  _ ← (if path_exists results_dir st then mret tt else st_modify (makedirs results_dir));
  p ← st_lift (path_of a);
  _ ← open_w p;
  text ← st_lift (results_content tts ttr);
  write_close p text.

Definition write_results_dht := write_results results_path_dht.
Definition write_results_ft := write_results results_path_ft.

(** ** Lemmas on the dicts *)

Lemma dict_of_list_to_map outs : dict_of outs = list_to_map (reverse outs).
Proof.
  induction outs as [|[h o] outs IH] using rev_ind; [done|].
  unfold dict_of in *. rewrite foldl_snoc, IH, reverse_snoc. done.
Qed.

(** The values of a dict filled from distinct hosts are the outputs, in
    some order. *)
Lemma dict_values_perm outs :
  NoDup outs.*1 -> dict_values (dict_of outs) ≡ₚ outs.*2.
Proof.
  intros Hnd. unfold dict_values. rewrite dict_of_list_to_map, map_to_list_to_map.
  - by rewrite reverse_Permutation.
  - by rewrite fmap_reverse, reverse_Permutation.
Qed.

Lemma not_elem_of_py_join c sep items :
  c ∉ sep -> Forall (fun x => c ∉ x) items -> c ∉ py_join sep items.
Proof.
  intros Hs Hf. induction Hf as [|x items Hx Hf IH]; simpl; [set_solver|].
  destruct items; [done|]. set_solver.
Qed.

Lemma results_content_text tts ttr :
  results_content tts ttr = Ok (csv_line tts ++ nl :: csv_line ttr ++ [nl]).
Proof.
  unfold results_content, py_format.
  change (parse_fmt (lit "%s" ++ [nl] ++ lit "%s" ++ [nl]))
    with (Ok [FConv CStr; FLit nl; FConv CStr; FLit nl]).
  simpl. reflexivity.
Qed.

(** Splitting a CSV line of separator-free stripped values. *)
Lemma csv_line_split m :
  m <> ∅ -> Forall (fun o => ","%char ∉ py_strip [nl] o) (dict_values m) ->
  py_split "," (csv_line m) = map (py_strip [nl]) (dict_values m).
Proof.
  intros Hm Hf. unfold csv_line. apply split_of_join.
  - unfold dict_values. rewrite map_map.
    destruct (map_to_list m) eqn:E; [|done]. by apply map_to_list_empty_iff in E.
  - by apply Forall_map.
Qed.

(** What [write_results] needs of one dict: its values, stripped, are
    free of commas and newlines. *)
Definition csv_safe (outs : list (host * pystr)) : Prop :=
  Forall (fun o => ","%char ∉ py_strip [nl] o /\ nl ∉ py_strip [nl] o) outs.*2.

Lemma csv_line_dict outs :
  NoDup outs.*1 -> outs <> [] -> csv_safe outs ->
  nl ∉ csv_line (dict_of outs) /\
  py_split "," (csv_line (dict_of outs)) ≡ₚ map (py_strip [nl]) outs.*2.
Proof.
  intros Hnd Hne Hsafe. pose proof (dict_values_perm outs Hnd) as Hp.
  assert (Hf : Forall (fun o => ","%char ∉ py_strip [nl] o /\ nl ∉ py_strip [nl] o)
                 (dict_values (dict_of outs))) by (by rewrite Hp).
  split.
  - apply not_elem_of_py_join; [decide_lit|]. apply Forall_map.
    eapply Forall_impl; [exact Hf|]. by intros o [_ ?].
  - rewrite csv_line_split.
    + by apply Permutation_map.
    + intros Hm. rewrite Hm in Hp. unfold dict_values in Hp.
      rewrite map_to_list_empty in Hp. apply Permutation_nil in Hp.
      destruct outs; [done|discriminate].
    + eapply Forall_impl; [exact Hf|]. by intros o [? _].
Qed.

(** ** Theorems *)

(** C27 (roundtrip): reading back the text [write_results] writes, split
    into lines and the lines into comma-separated fields, gives the
    stripped sender outputs and the stripped receiver outputs, provided
    each dict holds distinct hosts, at least one, and no stripped output
    contains a comma or a newline.  The fields come back in dict order,
    so only up to a permutation of the launch order. *)
Theorem results_file_roundtrip (ls lr : list (host * pystr)) :
  NoDup ls.*1 -> NoDup lr.*1 -> ls <> [] -> lr <> [] -> csv_safe ls -> csv_safe lr ->
  exists text l1 l2,
    results_content (dict_of ls) (dict_of lr) = Ok text /\
    py_split nl text = [l1; l2; []] /\
    py_split "," l1 ≡ₚ map (py_strip [nl]) ls.*2 /\
    py_split "," l2 ≡ₚ map (py_strip [nl]) lr.*2.
Proof.
  intros Hns Hnr Hs Hr Hcs Hcr.
  destruct (csv_line_dict ls Hns Hs Hcs) as [Hnl1 Hp1].
  destruct (csv_line_dict lr Hnr Hr Hcr) as [Hnl2 Hp2].
  eexists _, _, _. split; [apply results_content_text|]. split; [|done].
  rewrite py_split_app by done.
  rewrite py_split_app by done. done.
Qed.

(** With no sender ([-ns 0]) the first line is empty and reads back as
    one empty field, not as no field. *)
Example results_no_sender :
  results_content ∅ (dict_of [(mkHost (lit "h2") (lit "10.1.0.2"), lit "3.1")])
  = Ok (nl :: lit "3.1" ++ [nl]) /\ py_split "," [] = [[]].
Proof. split; reflexivity. Qed.


(** [args] with another data set and MPTCP flag. *)
Definition with_ds (a : args) (ds : pyval) (mptcp : bool) : args :=
  mkArgs (a_bw a) (a_k a) (a_sw a) (a_ns a) (a_nr a) (a_nflows a) ds (a_cs a) mptcp (a_debug a).

(** C28 (functional): test0.py names the file of an MPTCP run on data set
    [ds] exactly like the file of a TCP run on data set [ds + '_mptcp'], so
    one run overwrites the other's results. *)
Theorem results_path_dht_collision (a : args) (ds : pystr) :
  a_ds a = VStr ds -> a_mptcp a = true ->
  results_path_dht a = results_path_dht (with_ds a (VStr (ds ++ lit "_mptcp")) false).
Proof.
  intros Hds Hmp. unfold results_path_dht, py_format.
  cbn [with_ds a_ds a_mptcp a_sw a_bw a_ns a_nr a_nflows]. rewrite Hds, Hmp.
  destruct (a_sw a); compute_fmt; [|reflexivity].
  by rewrite <- app_assoc.
Qed.

(** The fields of a test0.py results file name before the data set. *)
Definition path_fields_dht (bw sw ns nr nf : Z) : list pystr :=
  [lit "../results/bw" ++ str_Z bw; lit "sw" ++ str_Z sw; lit "ns" ++ str_Z ns;
   lit "nr"; str_Z nr; lit "nf" ++ str_Z nf].

Lemma results_path_dht_shape a p :
  results_path_dht a = Ok p ->
  exists sw, a_sw a = Some sw /\
    p = py_join ["_"%char] (path_fields_dht (a_bw a) sw (a_ns a) (a_nr a) (a_nflows a))
        ++ "_"%char :: py_str (a_ds a) ++
        (if a_mptcp a then lit "_mptcp.csv" else lit ".csv").
Proof.
  unfold results_path_dht, py_format.
  destruct (a_sw a) as [sw|]; destruct (a_mptcp a); compute_fmt; try discriminate;
    intros [= <-]; exists sw; split; try done;
    unfold path_fields_dht; cbn [py_join]; by rewrite <- ?app_assoc.
Qed.

Lemma underscore_not_in_str_Z z : "_"%char ∉ str_Z z.
Proof. by intros [?|?]%str_Z_chars. Qed.

Lemma path_fields_no_underscore bw sw ns nr nf :
  Forall (fun x => "_"%char ∉ x) (path_fields_dht bw sw ns nr nf).
Proof.
  assert (Hl : forall s z, "_"%char ∉ lit s -> "_"%char ∉ lit s ++ str_Z z).
  { intros s z Hs. pose proof (underscore_not_in_str_Z z). set_solver. }
  repeat apply List.Forall_cons; try apply List.Forall_nil.
  all: first [apply Hl; decide_lit | decide_lit | apply underscore_not_in_str_Z].
Qed.

(** C29 (functional): the name of a test0.py results file determines the
    bandwidth, switch, sender, receiver and subflow counts of the run,
    whatever the data set is: two runs that differ in one of them never
    overwrite each other's file. *)
Theorem results_path_dht_inj (a1 a2 : args) (p : pystr) :
  results_path_dht a1 = Ok p -> results_path_dht a2 = Ok p ->
  a_bw a1 = a_bw a2 /\ a_sw a1 = a_sw a2 /\ a_ns a1 = a_ns a2 /\
  a_nr a1 = a_nr a2 /\ a_nflows a1 = a_nflows a2.
Proof.
  intros (sw1 & -> & E1)%results_path_dht_shape (sw2 & -> & E2)%results_path_dht_shape.
  rewrite E1 in E2. apply (f_equal (py_split "_")) in E2.
  rewrite !py_split_join_app in E2 by (done || apply path_fields_no_underscore).
  apply app_inj_1 in E2 as [E _]; [|done].
  unfold path_fields_dht in E. injection E as Ebw Esw Ens Enr Enf.
  apply str_Z_inj in Ebw, Esw, Ens, Enr, Enf.
  subst. done.
Qed.

(** ** The file-system effect *)

Lemma dirname_results rest : "/"%char ∉ rest -> dirname (lit "../results/" ++ rest) = results_dir.
Proof.
  intros Hr. unfold dirname.
  change (lit "../results/" ++ rest) with (lit ".." ++ "/"%char :: (lit "results" ++ "/"%char :: rest)).
  rewrite py_split_app, py_split_app, py_split_nosep by (done || decide_lit).
  reflexivity.
Qed.

Lemma slash_not_in_str_Z z : "/"%char ∉ str_Z z.
Proof. by intros [?|?]%str_Z_chars. Qed.

Lemma results_path_dht_dir a p :
  results_path_dht a = Ok p -> "/"%char ∉ py_str (a_ds a) -> dirname p = results_dir.
Proof.
  intros (sw & _ & ->)%results_path_dht_shape Hds. unfold path_fields_dht. cbn [py_join].
  rewrite <- !app_assoc.
  change (lit "../results/bw") with (lit "../results/" ++ lit "bw"). rewrite <- app_assoc.
  apply dirname_results.
  assert ("/"%char ∉ (if a_mptcp a then lit "_mptcp.csv" else lit ".csv"))
    by (destruct (a_mptcp a); decide_lit).
  rewrite ?not_elem_of_app, ?not_elem_of_cons.
  split_and!; try first [apply slash_not_in_str_Z | decide_lit | done].
  apply not_elem_of_app. done.
Qed.

Lemma write_results_run path_of tts ttr a st :
  write_results path_of tts ttr a st =
  let st1 := if path_exists results_dir st then st else makedirs results_dir st in
  match path_of a with
  | Raise e => (st1, Raise e)
  | Ok p =>
      if bool_decide (dirname p ∈ fs_dirs st1)
      then (mkFs (fs_dirs st1)
                 (<[p := csv_line tts ++ nl :: csv_line ttr ++ [nl]]> (<[p := []]> (fs_files st1))),
            Ok tt)
      else (st1, Raise ExternalError)
  end.
Proof.
  unfold write_results, mbind, stm_bind, mret, stm_ret, st_get, st_lift, st_modify,
    open_w, write_close.
  rewrite results_content_text. cbv zeta.
  destruct (path_exists results_dir st), (path_of a) as [p|e]; try done;
    by case_bool_decide.
Qed.

Lemma results_path_dht_no_assert a : no_assert (results_path_dht a).
Proof. unfold results_path_dht. destruct (a_mptcp a); auto with noassert. Qed.

Lemma results_path_ft_no_assert a : no_assert (results_path_ft a).
Proof. unfold results_path_ft. destruct (a_mptcp a); auto with noassert. Qed.

(** [write_results] raises only what the file name or [open] raise. *)
Lemma write_results_no_assert path_of tts ttr a :
  no_assert (path_of a) -> st_no_assert (write_results path_of tts ttr a).
Proof.
  intros Hp st. rewrite write_results_run. cbv zeta.
  destruct (path_of a) as [p|e] eqn:E; simpl.
  - case_match; simpl; auto with noassert.
  - intros e' [= <-]. by apply (Hp e).
Qed.

Lemma write_results_dht_no_assert tts ttr a : st_no_assert (write_results_dht tts ttr a).
Proof. apply write_results_no_assert, results_path_dht_no_assert. Qed.

Lemma write_results_ft_no_assert tts ttr a : st_no_assert (write_results_ft tts ttr a).
Proof. apply write_results_no_assert, results_path_ft_no_assert. Qed.

#[export] Hint Resolve results_path_dht_no_assert results_path_ft_no_assert
  write_results_dht_no_assert write_results_ft_no_assert : noassert.

(** C30 (functional): when the name formats and the data set has no
    ['/'], [write_results] of test0.py succeeds unless [../results] exists
    as a regular file: afterwards [../results] is a directory, no
    directory was removed, and the file system holds exactly one new or
    replaced file, the results file, with the two CSV lines. *)
Theorem write_results_dht_ok (tts ttr : gmap host pystr) (a : args) (st : fs) (p : pystr) :
  results_path_dht a = Ok p -> "/"%char ∉ py_str (a_ds a) ->
  fs_files st !! results_dir = None ->
  exists st', write_results_dht tts ttr a st = (st', Ok tt) /\
    results_dir ∈ fs_dirs st' /\ fs_dirs st ⊆ fs_dirs st' /\
    fs_files st' = <[p := csv_line tts ++ nl :: csv_line ttr ++ [nl]]> (fs_files st).
Proof.
  intros Hp Hds Hno. unfold write_results_dht. rewrite write_results_run, Hp.
  rewrite (results_path_dht_dir a p Hp Hds).
  unfold path_exists. rewrite Hno. cbv zeta. rewrite orb_false_r.
  destruct (decide (results_dir ∈ fs_dirs st)) as [Hin|Hin].
  - rewrite (bool_decide_true _ Hin), (bool_decide_true _ Hin).
    eexists; split_and!; [done|done|done|]. simpl. by rewrite insert_insert_eq.
  - rewrite (bool_decide_false _ Hin), bool_decide_true by (simpl; set_solver).
    eexists; split_and!; [done|simpl; set_solver|simpl; set_solver|].
    simpl. by rewrite insert_insert_eq.
Qed.

(** C31 (error): when [../results] exists as a regular file,
    [os.path.exists] is true, no directory is made, and [open] raises
    IOError: nothing is written. *)
Theorem write_results_dht_blocked (tts ttr : gmap host pystr) (a : args) (st : fs)
    (p o : pystr) :
  results_path_dht a = Ok p -> "/"%char ∉ py_str (a_ds a) ->
  fs_files st !! results_dir = Some o -> results_dir ∉ fs_dirs st ->
  write_results_dht tts ttr a st = (st, Raise ExternalError).
Proof.
  intros Hp Hds Hf Hd. unfold write_results_dht. rewrite write_results_run, Hp.
  rewrite (results_path_dht_dir a p Hp Hds).
  unfold path_exists. rewrite Hf. cbv zeta. rewrite orb_true_r.
  by rewrite bool_decide_false.
Qed.

(** ** Witnesses *)

Definition h_snd : host := mkHost (lit "0_0_2") (lit "10.0.0.2").
Definition h_rcv : host := mkHost (lit "1_0_2") (lit "10.1.0.2").

(** test0.py's defaults with [--mptcp]. *)
Definition args_mptcp : args :=
  mkArgs 10 4 (Some 1%Z) 1 1 1 (VStr (lit "covtype")) (VInt 500) true false.

Lemma results_file_roundtrip_witness :
  exists text l1 l2,
    results_content (dict_of [(h_snd, lit "1.5" ++ [nl])]) (dict_of [(h_rcv, lit "2.0" ++ [nl])])
      = Ok text /\
    py_split nl text = [l1; l2; []] /\
    py_split "," l1 ≡ₚ map (py_strip [nl]) [lit "1.5" ++ [nl]] /\
    py_split "," l2 ≡ₚ map (py_strip [nl]) [lit "2.0" ++ [nl]].
Proof. apply results_file_roundtrip; first [decide_lit | done]. Defined.

Lemma results_path_dht_collision_witness :
  results_path_dht args_mptcp =
  results_path_dht (with_ds args_mptcp (VStr (lit "covtype_mptcp")) false).
Proof. apply (results_path_dht_collision args_mptcp (lit "covtype")); reflexivity. Defined.

Lemma results_path_dht_inj_witness :
  a_bw args_mptcp = a_bw (with_ds args_mptcp (VStr (lit "covtype_mptcp")) false) /\
  a_sw args_mptcp = a_sw (with_ds args_mptcp (VStr (lit "covtype_mptcp")) false) /\
  a_ns args_mptcp = a_ns (with_ds args_mptcp (VStr (lit "covtype_mptcp")) false) /\
  a_nr args_mptcp = a_nr (with_ds args_mptcp (VStr (lit "covtype_mptcp")) false) /\
  a_nflows args_mptcp = a_nflows (with_ds args_mptcp (VStr (lit "covtype_mptcp")) false).
Proof.
  apply (results_path_dht_inj _ _ (lit "../results/bw10_sw1_ns1_nr_1_nf1_covtype_mptcp.csv"));
    reflexivity.
Defined.

Lemma write_results_dht_ok_witness :
  exists st', write_results_dht (dict_of [(h_snd, lit "1.5" ++ [nl])])
                                (dict_of [(h_rcv, lit "2.0" ++ [nl])]) args_mptcp (mkFs ∅ ∅)
              = (st', Ok tt) /\
    results_dir ∈ fs_dirs st' /\ fs_dirs (mkFs ∅ ∅) ⊆ fs_dirs st' /\
    fs_files st' = <[lit "../results/bw10_sw1_ns1_nr_1_nf1_covtype_mptcp.csv" :=
                     csv_line (dict_of [(h_snd, lit "1.5" ++ [nl])]) ++
                     nl :: csv_line (dict_of [(h_rcv, lit "2.0" ++ [nl])]) ++ [nl]]> ∅.
Proof. apply write_results_dht_ok; [reflexivity|decide_lit|reflexivity]. Defined.

Lemma write_results_dht_blocked_witness :
  write_results_dht ∅ ∅ args_mptcp (mkFs ∅ {[results_dir := lit "x"]}) =
  (mkFs ∅ {[results_dir := lit "x"]}, Raise ExternalError).
Proof.
  apply (write_results_dht_blocked _ _ _ _ (lit "../results/bw10_sw1_ns1_nr_1_nf1_covtype_mptcp.csv")
           (lit "x")); [reflexivity|decide_lit|reflexivity|set_solver].
Defined.
