(* ===== verification/World.v ===== *)
(** * The world the orchestrator acts on

    What [main] of test0.py and test_ft.py changes outside its own
    variables: the file system, the kernel's multipath switch
    ([mptcp_util.enable_mptcp] / [reset]), the processes it started with
    [subprocess.Popen], whether the emulated network runs, which Mininet
    hosts have a command running ([Node.waiting]), and the trace of the
    external calls in the order they were made.

    The callee libraries are opaque, given by the class [Env]: [fails e]
    says whether the external call [e] raises, and [out_of h cmd] is what
    [cmd] prints on host [h] (what [waitOutput] collects).  [Node.sendCmd]
    asserts that the host is not already running a command; [waitOutput]
    returns the empty string for a host that runs none.  [os.system] and [reset] never
    raise.  Each call has a [wp] rule, a [keeps] frame rule and a [safe]
    rule (it raises no AssertionError). *)

From S2P Require Import Prelude PyStr PyFormat Mappings Results Hoare.

(** ** Processes and events *)

Inductive proc := PPox | PTimer.

#[export] Instance proc_eq_dec : EqDecision proc.
Proof. solve_decision. Defined.

Inductive event :=
  | EPopen (p : proc) (cmd : pystr)   (** [subprocess.Popen] *)
  | ESleep (secs : Z)                 (** [time.sleep] *)
  | ENetBuild                         (** [Mininet(topo=...)] builds the network *)
  | ENetStart                         (** [net.start()] *)
  | EEnableMptcp (nflows : Z)         (** [enable_mptcp(args.nflows)] *)
  | ESendCmd (h : host) (cmd : pystr) (** [h.sendCmd(...)] *)
  | EWaitOutput (h : host)            (** [h.waitOutput()] *)
  | EKill (p : proc)                  (** [p.kill()] *)
  | EProcWait (p : proc)              (** [p.wait()] *)
  | ENetStop                          (** [net.stop()] *)
  | EReset                            (** [mptcp_util.reset()] *)
  | ETraceback                        (** [traceback.print_exc()] *)
  | ESystem (cmd : pystr).            (** [os.system(cmd)] *)

#[export] Instance event_eq_dec : EqDecision event.
Proof. solve_decision. Defined.

(** ** The world *)

Record world := mkWorld {
  w_fs : fs;
  w_mptcp : bool;
  w_procs : list proc;
  w_net : bool;
  w_waiting : gmap host pystr;
  w_trace : list event
}.

Definition add_ev (e : event) (w : world) : world :=
  mkWorld (w_fs w) (w_mptcp w) (w_procs w) (w_net w) (w_waiting w) (w_trace w ++ [e]).
Definition set_fs (f : fs) (w : world) : world :=
  mkWorld f (w_mptcp w) (w_procs w) (w_net w) (w_waiting w) (w_trace w).
Definition set_mptcp (b : bool) (w : world) : world :=
  mkWorld (w_fs w) b (w_procs w) (w_net w) (w_waiting w) (w_trace w).
Definition set_procs (ps : list proc) (w : world) : world :=
  mkWorld (w_fs w) (w_mptcp w) ps (w_net w) (w_waiting w) (w_trace w).
Definition set_net (b : bool) (w : world) : world :=
  mkWorld (w_fs w) (w_mptcp w) (w_procs w) b (w_waiting w) (w_trace w).
Definition set_waiting (m : gmap host pystr) (w : world) : world :=
  mkWorld (w_fs w) (w_mptcp w) (w_procs w) (w_net w) m (w_trace w).

Lemma world_ext w1 w2 :
  w_fs w1 = w_fs w2 -> w_mptcp w1 = w_mptcp w2 -> w_procs w1 = w_procs w2 ->
  w_net w1 = w_net w2 -> w_waiting w1 = w_waiting w2 -> w_trace w1 = w_trace w2 -> w1 = w2.
Proof. destruct w1, w2; simpl; intros; by subst. Qed.

(** ** What the scripts assume of the libraries they call *)

(** The environment: which external calls raise, what a host command
    prints, the hosts of the topology built with parameter [k]
    ([net.hosts]), and [random.shuffle], which permutes its list. *)
Class Env := {
  fails : event -> bool;
  out_of : host -> pystr -> pystr;
  net_hosts : Z -> list host;
  shuffle : nat -> list host -> list host;
  shuffle_perm : forall k l, shuffle k l ≡ₚ l
}.

(** ** The external calls *)

Section External.
Context `{Env}.

(** A library call that may raise: it is recorded, then either raises or
    has its effect. *)
Definition ext (e : event) (eff : world -> world) : stm world unit :=
  fun w => let w1 := add_ev e w in
    if fails e then (w1, Raise ExternalError) else (eff w1, Ok tt).

Definition popen (p : proc) (cmd : pystr) : stm world unit :=
  ext (EPopen p cmd) (fun w => set_procs (p :: w_procs w) w).
Definition sleep (secs : Z) : stm world unit := st_modify (add_ev (ESleep secs)).
Definition net_build : stm world unit := ext ENetBuild id.
Definition net_start : stm world unit := ext ENetStart (set_net true).
Definition net_stop : stm world unit := ext ENetStop (set_net false).
Definition enable_mptcp (nflows : Z) : stm world unit :=
  ext (EEnableMptcp nflows) (set_mptcp true).
Definition reset : stm world unit := st_modify (fun w => set_mptcp false (add_ev EReset w)).

(** [Popen.kill()] (SIGKILL) and [Popen.wait()]. *)
Definition kill (p : proc) : stm world unit :=
  st_modify (fun w => set_procs (List.remove (decide_rel eq) p (w_procs w)) (add_ev (EKill p) w)).
Definition proc_wait (p : proc) : stm world unit := st_modify (add_ev (EProcWait p)).

(** The effect of [h.sendCmd(cmd)] on a host that runs nothing. *)
Definition send_world (h : host) (cmd : pystr) (w : world) : world :=
  set_waiting (<[h := cmd]> (w_waiting w)) (add_ev (ESendCmd h cmd) w).

(** Mininet [Node.sendCmd]: [assert not self.waiting], write the command,
    [self.waiting = True]. *)
Definition send_cmd (h : host) (cmd : pystr) : stm world unit :=
  fun w => match w_waiting w !! h with
           | Some _ => (w, Raise AssertionError)
           | None => (send_world h cmd w, Ok tt)
           end.

(** Mininet [Node.waitOutput]: read until the command ends; nothing when
    no command runs. *)
Definition wait_output (h : host) : stm world pystr :=
  fun w => let w1 := add_ev (EWaitOutput h) w in
    match w_waiting w !! h with
    | Some cmd => (set_waiting (delete h (w_waiting w)) w1, Ok (out_of h cmd))
    | None => (w1, Ok [])
    end.

(** Mininet [Node.cmd]: [sendCmd] then [waitOutput]. *)
Definition node_cmd (h : host) (cmd : pystr) : stm world pystr :=
  _ ← send_cmd h cmd; wait_output h.

Definition traceback : stm world unit := st_modify (add_ev ETraceback).

Definition os_system (cmd : pystr) (eff : world -> world) : stm world unit :=
  st_modify (fun w => eff (add_ev (ESystem cmd) w)).

(** The file-system code of [write_results] run inside the world. *)
Definition on_fs {A} (c : stm fs A) : stm world A :=
  fun w => let '(f, r) := c (w_fs w) in (set_fs f w, r).

(** [try: body except: handler], the bare [except] of both scripts. *)
Definition try_except {A} (body : stm world A) (handler : stm world unit) : stm world unit :=
  fun w => match body w with
           | (w', Ok _) => (w', Ok tt)
           | (w', Raise _) => handler w'
           end.

End External.

(** ** The [wp] rules of the external calls *)

Section Rules.
Context `{Env}.

Lemma wp_ext e eff Q E w :
  wp (ext e eff) Q E w =
  if fails e then E ExternalError (add_ev e w) else Q tt (eff (add_ev e w)).
Proof. unfold wp, ext. by destruct (fails e). Qed.

Lemma wp_send_cmd h c Q E w :
  wp (send_cmd h c) Q E w =
  match w_waiting w !! h with
  | Some _ => E AssertionError w
  | None => Q tt (send_world h c w)
  end.
Proof. unfold wp, send_cmd. by destruct (w_waiting w !! h). Qed.

Lemma wp_wait_output h Q E w :
  wp (wait_output h) Q E w =
  match w_waiting w !! h with
  | Some c => Q (out_of h c) (set_waiting (delete h (w_waiting w)) (add_ev (EWaitOutput h) w))
  | None => Q [] (add_ev (EWaitOutput h) w)
  end.
Proof. unfold wp, wait_output. by destruct (w_waiting w !! h). Qed.

Lemma wp_on_fs {A} (c : stm fs A) Q E w :
  wp (on_fs c) Q E w = wp c (fun a f => Q a (set_fs f w)) (fun e f => E e (set_fs f w)) (w_fs w).
Proof. unfold wp, on_fs. by destruct (c (w_fs w)) as [f [a|e]]. Qed.

Lemma wp_try_except {A} (body : stm world A) h Q E w :
  wp (try_except body h) Q E w = wp body (fun _ => Q tt) (fun _ w' => wp h Q E w') w.
Proof. unfold wp, try_except. by destruct (body w) as [w' [a|e]]. Qed.

(** ** Calls that leave the multipath switch alone *)

Definition keeps {B A} (f : world -> B) (c : stm world A) : Prop :=
  forall w, f (fst (c w)) = f w.

Lemma wp_keeps {B A} (f : world -> B) (c : stm world A) Q E w :
  keeps f c -> (forall a w', f w' = f w -> Q a w') -> (forall e w', f w' = f w -> E e w') ->
  wp c Q E w.
Proof.
  intros Hk HQ HE. specialize (Hk w). unfold wp.
  destruct (c w) as [w' [a|e]]; simpl in Hk; auto.
Qed.

Lemma keeps_bind {B A C} (f : world -> B) (c : stm world A) (g : A -> stm world C) :
  keeps f c -> (forall a, keeps f (g a)) -> keeps f (x ← c; g x).
Proof.
  intros Hc Hg w. specialize (Hc w). unfold mbind, stm_bind.
  destruct (c w) as [w' [a|e]]; simpl in *; [by rewrite Hg|done].
Qed.

Lemma keeps_ret {B A} (f : world -> B) (a : A) : keeps f (mret a).
Proof. done. Qed.

Lemma keeps_lift {B A} (f : world -> B) (r : result A) : keeps f (st_lift r).
Proof. done. Qed.

Lemma keeps_iter {B A} (f : world -> B) (body : A -> stm world unit) xs :
  (forall x, keeps f (body x)) -> keeps f (st_iter body xs).
Proof. intros Hb. induction xs; simpl; [apply keeps_ret|by apply keeps_bind]. Qed.

Ltac keeps_prim := intros ?w; repeat (case_match; simplify_eq/=); reflexivity.

Lemma keeps_send_cmd h c : keeps w_mptcp (send_cmd h c).
Proof. unfold send_cmd. keeps_prim. Qed.
Lemma keeps_wait_output h : keeps w_mptcp (wait_output h).
Proof. unfold wait_output. keeps_prim. Qed.
Lemma keeps_node_cmd h c : keeps w_mptcp (node_cmd h c).
Proof. apply keeps_bind; [apply keeps_send_cmd|intros; apply keeps_wait_output]. Qed.
Lemma keeps_sleep s : keeps w_mptcp (sleep s).
Proof. done. Qed.
Lemma keeps_popen p c : keeps w_mptcp (popen p c).
Proof. unfold popen, ext. keeps_prim. Qed.
Lemma keeps_net_stop : keeps w_mptcp net_stop.
Proof. unfold net_stop, ext. keeps_prim. Qed.
Lemma keeps_kill p : keeps w_mptcp (kill p).
Proof. done. Qed.
Lemma keeps_proc_wait p : keeps w_mptcp (proc_wait p).
Proof. done. Qed.
Lemma keeps_on_fs {A} (c : stm fs A) : keeps w_mptcp (on_fs c).
Proof. unfold on_fs. keeps_prim. Qed.

End Rules.

Create HintDb keeps discriminated.
Create Rewrite HintDb wp.
#[export] Hint Resolve keeps_bind keeps_ret keeps_lift keeps_iter keeps_send_cmd
  keeps_wait_output keeps_node_cmd keeps_sleep keeps_popen keeps_net_stop keeps_kill
  keeps_proc_wait keeps_on_fs : keeps.
#[export] Hint Rewrite @wp_bind @wp_ret @wp_get @wp_modify @wp_lift @wp_ext @wp_send_cmd
  @wp_wait_output @wp_on_fs @wp_try_except : wp.

(** ** Runs that never raise AssertionError *)

(** [safe P c]: from a state satisfying [P], [c] returns or raises in a
    state satisfying [P], and what it raises is not the AssertionError of
    [sendCmd]. *)
Definition safe `{Env} {A} (P : world -> Prop) (c : stm world A) : Prop :=
  forall w, P w -> wp c (fun _ => P) (fun e w' => e <> AssertionError /\ P w') w.

(** The postcondition of a raise that is not that AssertionError. *)
Definition not_assert (e : exc) (w : world) : Prop := e <> AssertionError.

(** The state predicates of the safety proofs read only the waiting map. *)
Definition waiting_only (P : world -> Prop) : Prop :=
  forall w w', w_waiting w' = w_waiting w -> P w -> P w'.

(** No host runs a command. *)
Definition idle (w : world) : Prop := w_waiting w = ∅.

Section Safe.
Context `{Env}.

Lemma waiting_only_True : waiting_only (fun _ => True).
Proof. done. Qed.

Lemma waiting_only_idle : waiting_only idle.
Proof. intros w w' Hw. unfold idle. by rewrite Hw. Qed.

Lemma safe_bind {A B} P (c : stm world A) (f : A -> stm world B) :
  safe P c -> (forall a, safe P (f a)) -> safe P (x ← c; f x).
Proof.
  intros Hc Hf w Hw. rewrite wp_bind. eapply wp_mono; [| |by apply Hc]; [|done].
  intros a w' Hw'. by apply Hf.
Qed.

Lemma safe_ret {A} P (a : A) : safe P (mret a).
Proof. by intros w Hw. Qed.

Lemma safe_lift {A} P (r : result A) : no_assert r -> safe P (st_lift r).
Proof. intros Hr w Hw. rewrite wp_lift. destruct r as [a|e]; [done|]. split; [by apply Hr|done]. Qed.

Lemma safe_iter {A} P (body : A -> stm world unit) xs :
  (forall x, safe P (body x)) -> safe P (st_iter body xs).
Proof. intros Hb. induction xs; simpl; [apply safe_ret|by apply safe_bind]. Qed.

Lemma safe_if {A} P (b : bool) (c1 c2 : stm world A) :
  safe P c1 -> safe P c2 -> safe P (if b then c1 else c2).
Proof. by destruct b. Qed.

Lemma safe_ext P e eff :
  waiting_only P -> (forall w, w_waiting (eff w) = w_waiting w) -> safe P (ext e eff).
Proof.
  intros HP Heff w Hw. rewrite wp_ext.
  destruct (fails e); [split; [done|by apply (HP w)]|apply (HP w); [by rewrite Heff|done]].
Qed.

Lemma safe_modify P f :
  waiting_only P -> (forall w, w_waiting (f w) = w_waiting w) -> safe P (st_modify f).
Proof. intros HP Hf w Hw. rewrite wp_modify. by apply (HP w). Qed.

Lemma safe_on_fs {A} P (c : stm fs A) : waiting_only P -> st_no_assert c -> safe P (on_fs c).
Proof.
  intros HP Hc w Hw. specialize (Hc (w_fs w)). unfold wp, on_fs.
  destruct (c (w_fs w)) as [f [a|e]]; simpl in *; [by apply (HP w)|].
  split; [by apply Hc|by apply (HP w)].
Qed.

Lemma safe_try_except {A} P (body : stm world A) h :
  safe P body -> safe P h -> safe P (try_except body h).
Proof.
  intros Hb Hh w Hw. rewrite wp_try_except. eapply wp_mono; [| |by apply Hb]; [done|].
  intros e w' [_ Hw']. by apply Hh.
Qed.

(** Each primitive leaves the waiting map alone. *)
Ltac safe_prim := intros; first [apply safe_ext | apply safe_modify]; done.

Lemma safe_popen P p c : waiting_only P -> safe P (popen p c).
Proof. safe_prim. Qed.
Lemma safe_sleep P secs : waiting_only P -> safe P (sleep secs).
Proof. safe_prim. Qed.
Lemma safe_net_build P : waiting_only P -> safe P net_build.
Proof. safe_prim. Qed.
Lemma safe_net_start P : waiting_only P -> safe P net_start.
Proof. safe_prim. Qed.
Lemma safe_net_stop P : waiting_only P -> safe P net_stop.
Proof. safe_prim. Qed.
Lemma safe_enable_mptcp P n : waiting_only P -> safe P (enable_mptcp n).
Proof. safe_prim. Qed.
Lemma safe_reset P : waiting_only P -> safe P reset.
Proof. safe_prim. Qed.
Lemma safe_kill P p : waiting_only P -> safe P (kill p).
Proof. safe_prim. Qed.
Lemma safe_proc_wait P p : waiting_only P -> safe P (proc_wait p).
Proof. safe_prim. Qed.
Lemma safe_traceback P : waiting_only P -> safe P traceback.
Proof. safe_prim. Qed.
Lemma safe_os_system P cmd eff :
  waiting_only P -> (forall w, w_waiting (eff w) = w_waiting w) -> safe P (os_system cmd eff).
Proof. intros HP Heff. apply safe_modify; [done|]. intros w. by rewrite Heff. Qed.

Lemma safe_wait_output h : safe (fun _ => True) (wait_output h).
Proof. intros w _. rewrite wp_wait_output. by case_match. Qed.

(** [h.cmd(...)] on an idle host ends idle: [waitOutput] takes back what
    [sendCmd] put in the map. *)
Lemma safe_node_cmd h c : safe idle (node_cmd h c).
Proof.
  intros w Hw. unfold idle in Hw. unfold node_cmd. rewrite wp_bind, wp_send_cmd.
  destruct (w_waiting w !! h) eqn:E; [by rewrite Hw, lookup_empty in E|].
  rewrite wp_wait_output. unfold send_world, idle. simpl. rewrite lookup_insert_eq. simpl.
  by rewrite delete_insert_id.
Qed.

(** Reading [safe] as a rule for the first step of a script. *)
Lemma wp_safe_bind {A B} P (c : stm world A) (f : A -> stm world B) Q E w :
  safe P c -> P w -> (forall a w', P w' -> wp (f a) Q E w') ->
  (forall e w', e <> AssertionError -> P w' -> E e w') -> wp (x ← c; f x) Q E w.
Proof.
  intros Hc Hw Hf HE. rewrite wp_bind. eapply wp_mono; [| |by apply Hc]; [exact Hf|].
  intros e w' []. by apply HE.
Qed.

End Safe.

Create HintDb safe discriminated.
#[export] Hint Resolve waiting_only_True waiting_only_idle safe_bind safe_ret safe_lift safe_iter
  safe_if safe_popen safe_sleep safe_net_build safe_net_start safe_net_stop safe_enable_mptcp
  safe_reset safe_kill safe_proc_wait safe_traceback safe_os_system safe_wait_output
  safe_node_cmd safe_try_except safe_on_fs : safe.

(** ** The waiting map and the trace across a loop of [sendCmd] *)

(** The waiting map after [sendCmd] on each [(host, command)] in turn. *)
Definition ins_all (m : gmap host pystr) (hcs : list (host * pystr)) : gmap host pystr :=
  foldl (fun m '(h, c) => <[h := c]> m) m hcs.

(** ... and after [waitOutput] on each host in turn. *)
Definition del_all (m : gmap host pystr) (hs : list host) : gmap host pystr :=
  foldl (fun m h => delete h m) m hs.

Definition sends (hcs : list (host * pystr)) : list event := map (fun '(h, c) => ESendCmd h c) hcs.

Lemma ins_all_app m l1 l2 : ins_all m (l1 ++ l2) = ins_all (ins_all m l1) l2.
Proof. apply foldl_app. Qed.

Lemma ins_all_notin m l h : h ∉ map fst l -> ins_all m l !! h = m !! h.
Proof.
  revert m. induction l as [|[h' c'] l IH]; intros m Hh; simpl in *; [done|].
  apply not_elem_of_cons in Hh as [Hne Hh]. rewrite IH by done. by simplify_map_eq.
Qed.

Lemma ins_all_lookup m l h c : NoDup (map fst l) -> (h, c) ∈ l -> ins_all m l !! h = Some c.
Proof.
  revert m. induction l as [|[h' c'] l IH]; intros m Hnd Hin; simpl in *.
  - by apply not_elem_of_nil in Hin.
  - apply NoDup_cons in Hnd as [Hh' Hnd]. apply elem_of_cons in Hin as [[= -> ->]|Hin].
    + rewrite ins_all_notin by done. by simplify_map_eq.
    + by apply IH.
Qed.

Lemma ins_all_keys m l h c : ins_all m l !! h = Some c -> h ∈ map fst l \/ m !! h = Some c.
Proof.
  revert m. induction l as [|[h' c'] l IH]; intros m Hh; simpl in *; [by right|].
  destruct (IH _ Hh) as [Hin|Hm]; [left; set_solver|].
  destruct (decide (h = h')) as [->|Hne]; [left; set_solver|]. right. by simplify_map_eq.
Qed.

Lemma del_all_notin m hs h : h ∉ hs -> del_all m hs !! h = m !! h.
Proof.
  revert m. induction hs as [|h' hs IH]; intros m Hh; simpl in *; [done|].
  apply not_elem_of_cons in Hh as [Hne Hh]. rewrite IH by done. by simplify_map_eq.
Qed.

Lemma del_all_in m hs h : h ∈ hs -> del_all m hs !! h = None.
Proof.
  revert m. induction hs as [|h' hs IH]; intros m Hh; simpl in *.
  - by apply not_elem_of_nil in Hh.
  - destruct (decide (h ∈ hs)) as [Hin|Hnin]; [by apply IH|].
    apply elem_of_cons in Hh as [->|Hh]; [|done].
    rewrite del_all_notin by done. by simplify_map_eq.
Qed.

(** Waiting on every key of a map empties it. *)
Lemma del_all_empty m hs : (forall h c, m !! h = Some c -> h ∈ hs) -> del_all m hs = ∅.
Proof.
  intros Hk. apply map_eq. intros h. rewrite lookup_empty.
  destruct (decide (h ∈ hs)) as [Hin|Hnin]; [by apply del_all_in|].
  rewrite del_all_notin by done. destruct (m !! h) eqn:Hm; [|done].
  by apply Hk in Hm.
Qed.

Lemma del_all_two m hs1 hs2 :
  (forall h c, m !! h = Some c -> h ∈ hs1 ++ hs2) -> del_all (del_all m hs1) hs2 = ∅.
Proof. intros Hk. unfold del_all. rewrite <- foldl_app. by apply del_all_empty. Qed.

(** ** Every command started is waited for *)

(** Each [sendCmd] of the trace is followed, later in the trace, by a
    [waitOutput] on the same host. *)
Fixpoint answered (tr : list event) : Prop :=
  match tr with
  | [] => True
  | ESendCmd h _ :: t => EWaitOutput h ∈ t /\ answered t
  | _ :: t => answered t
  end.

#[export] Instance answered_dec tr : Decision (answered tr).
Proof. induction tr as [|[] t IH]; simpl; apply _. Defined.

Lemma answered_app l1 l2 : answered l1 -> answered l2 -> answered (l1 ++ l2).
Proof.
  induction l1 as [|[] t IH]; simpl; try tauto.
  intros [Hw Ht] H2. split; [set_solver|by apply IH].
Qed.

(** The commands of [hcs] are waited for in what follows them. *)
Lemma answered_sends hcs l :
  (forall h c, (h, c) ∈ hcs -> EWaitOutput h ∈ l) -> answered l -> answered (sends hcs ++ l).
Proof.
  induction hcs as [|[h c] hcs IH]; intros Hw Hl; simpl; [done|].
  split; [|apply IH; [intros; eapply Hw; by right|done]].
  apply elem_of_app. right. eapply Hw. by left.
Qed.

(** A stretch without [sendCmd]. *)
Lemma answered_waits hs l : answered l -> answered (map EWaitOutput hs ++ l).
Proof. induction hs; simpl; auto. Qed.

Section Runs.
Context `{Env}.

Lemma send_fold w hcs :
  foldl (fun w '(h, c) => send_world h c w) w hcs =
  mkWorld (w_fs w) (w_mptcp w) (w_procs w) (w_net w) (ins_all (w_waiting w) hcs)
          (w_trace w ++ sends hcs).
Proof.
  revert w. induction hcs as [|[h c] hcs IH]; intros w; simpl.
  - destruct w; simpl. by rewrite app_nil_r.
  - rewrite IH. simpl. by rewrite <- app_assoc.
Qed.

(** A loop of [sendCmd] over items [xs] whose commands format, on hosts
    that are distinct and run nothing. *)
Lemma launch_run {X} (hostof : X -> host) (cmdf : X -> result pystr) xs hcs w :
  for_each (fun x => c ← cmdf x; Ok (hostof x, c)) xs = Ok hcs ->
  NoDup (map hostof xs) -> Forall (fun x => w_waiting w !! hostof x = None) xs ->
  st_iter (fun x => c ← st_lift (cmdf x); send_cmd (hostof x) c) xs w =
  (mkWorld (w_fs w) (w_mptcp w) (w_procs w) (w_net w) (ins_all (w_waiting w) hcs)
           (w_trace w ++ sends hcs), Ok tt).
Proof.
  rewrite <- send_fold. revert hcs w.
  induction xs as [|x xs IH]; intros hcs w Hcmd Hnd Hfree; simpl in Hcmd, Hnd.
  - by injection Hcmd as <-.
  - destruct (cmdf x) as [c|e] eqn:Hc; simpl in Hcmd; [|discriminate].
    destruct (for_each _ xs) as [hcs'|e] eqn:Hrest; simpl in Hcmd; [|discriminate].
    injection Hcmd as <-. apply NoDup_cons in Hnd as [Hx Hnd].
    apply Forall_cons in Hfree as [Hw Hfree].
    cbn [st_iter]. rewrite st_bind_run, st_bind_run. unfold st_lift. rewrite Hc.
    unfold send_cmd. rewrite Hw. cbn [foldl]. apply IH; [done|done|].
    apply Forall_forall. intros y Hy. simpl.
    rewrite lookup_insert_ne; [by eapply Forall_forall in Hfree|].
    intros Heq. apply Hx. rewrite Heq. by apply list_elem_of_fmap_2.
Qed.

Lemma ext_run e eff w : fails e = false -> ext e eff w = (eff (add_ev e w), Ok tt).
Proof. intros He. unfold ext. by rewrite He. Qed.

Lemma node_cmd_run h c w :
  w_waiting w !! h = None ->
  node_cmd h c w =
  (mkWorld (w_fs w) (w_mptcp w) (w_procs w) (w_net w) (w_waiting w)
           (w_trace w ++ [ESendCmd h c; EWaitOutput h]), Ok (out_of h c)).
Proof.
  intros Hw. unfold node_cmd. rewrite st_bind_run. unfold send_cmd. rewrite Hw.
  unfold wait_output, send_world. simpl. rewrite lookup_insert_eq. simpl.
  rewrite delete_insert_id by done. unfold set_waiting, add_ev. simpl. by rewrite <- app_assoc.
Qed.

Lemma for_each_hosts {X} (hostof : X -> host) (cmdf : X -> result pystr) xs hcs :
  for_each (fun x => c ← cmdf x; Ok (hostof x, c)) xs = Ok hcs -> map fst hcs = map hostof xs.
Proof.
  revert hcs. induction xs as [|x xs IH]; intros hcs Hcmd; simpl in *.
  - by injection Hcmd as <-.
  - destruct (cmdf x); simpl in Hcmd; [|discriminate].
    destruct (for_each _ xs) eqn:Hrest; simpl in Hcmd; [|discriminate].
    injection Hcmd as <-. simpl. f_equal. by apply IH.
Qed.

End Runs.
