(* ===== verification/Orchestrator.v ===== *)
(** * [main] and the top-level handler of both scripts

    test0.py lines 72-151 and 189-198, test_ft.py lines 72-149 and
    185-193, over the world of World.v.  Each call of [main] is one
    operation of the model, in the order of the source: [parse_args], the
    POX controller ([Popen]), the network, [create_mappings],
    [enable_mptcp] (before the mappings in test_ft.py, after them in
    test0.py), the debug files, the receivers, the senders, the waits,
    the teardown (controller first in test0.py, network first in
    test_ft.py, which also resets MPTCP) and [write_results].  The bare
    [except:] runs the handler on any exception; [print] calls are not
    modelled (they write only to stdout).  Section [Safety] shows that no
    [sendCmd] of [main] fails Mininet's assertion. *)

From S2P Require Import Prelude Hoare PyStr PyFormat PyRegex Mappings Config Commands Results World.

Section Main.
Context `{Env}.

(** [[ h.cmd('echo >', outfiles[h]) for h in sndrs + rcvrs ]]; the file
    name ['/tmp/%s.out' % h.name] is the [outfiles] entry of [h]. *)
Definition echo_files (hs : list host) : stm world unit :=
  st_iter (fun h => f ← st_lift (out_file h);
                    _ ← node_cmd h (send_cmd_text [VStr (lit "echo >"); VStr f]);
                    mret tt) hs.

(** [if args.debug:] the [outfiles] and then the [errfiles] loop. *)
Definition debug_setup (a : args) (hs : list host) : stm world unit :=
  if a_debug a then _ ← echo_files hs; echo_files hs else mret tt.

(** [for r in rcvrs: r.sendCmd(...)] *)
Definition launch_receivers (rcmd : args -> host -> result pystr) (a : args)
    (rcvrs : list host) : stm world unit :=
  st_iter (fun r => c ← st_lift (rcmd a r); send_cmd r c) rcvrs.

(** [for s,i in zip(sndrs,range(len(sndrs))): s.sendCmd(...)] *)
Definition launch_senders (scmd : args -> pyval -> host -> nat -> result pystr) (a : args)
    (ips : pyval) (sndrs : list host) : stm world unit :=
  st_iter (fun '(s, i) => c ← st_lift (scmd a ips s i); send_cmd s c)
          (zip sndrs (seq 0 (length sndrs))).

(** [for h in hs: d[h] = h.waitOutput()], the outputs in order. *)
Fixpoint wait_all (hs : list host) : stm world (list (host * pystr)) :=
  match hs with
  | [] => mret []
  | h :: t => o ← wait_output h; rest ← wait_all t; mret ((h, o) :: rest)
  end.

(** ** test0.py *)

Definition pox_cmd_dht : pystr :=
  lit "exec ~/pox/pox.py --no-cli riplpox.riplpox --topo=dht --routing=hashed --mode=reactive 1> /tmp/pox.out 2> /tmp/pox.out".

Definition main_dht (n : namespace) : stm world unit :=
  a ← st_lift (parse_args_dht n);
  _ ← popen PPox pox_cmd_dht;
  _ ← sleep 1;
  _ ← net_build;
  _ ← net_start;
  m ← st_lift (create_mappings_dht (a_ns a) (a_nr a) (net_hosts (a_k a)));
  _ ← enable_mptcp (a_nflows a);
  _ ← sleep 3;
  _ ← debug_setup a (msnd m ++ mrcv m);
  _ ← launch_receivers receiver_cmd_dht a (mrcv m);
  _ ← sleep 1;
  _ ← launch_senders sender_cmd_dht a (ips_of (mrcv m)) (msnd m);
  tts ← wait_all (msnd m);
  ttr ← wait_all (mrcv m);
  _ ← kill PPox;
  _ ← proc_wait PPox;
  _ ← net_stop;
  on_fs (write_results_dht (dict_of tts) (dict_of ttr) a).

Definition killall_cmd : pystr := lit "killall python2.7; mn -c; killall controller".

(** [killall python2.7] ends POX and every Python process, [mn -c] cleans
    up the emulated network. *)
Definition kill_all (w : world) : world := set_net false (set_procs [] w).

Definition handler_dht : stm world unit :=
  _ ← traceback;
  _ ← reset;
  _ ← os_system (lit "cp /tmp/pox.out .") id;
  os_system killall_cmd kill_all.

Definition run_dht (n : namespace) : stm world unit := try_except (main_dht n) handler_dht.

(** ** test_ft.py *)

Definition pox_fmt_ft : pystr :=
  lit "exec ~/pox/pox.py --no-cli riplpox.riplpox --topo=ft,%s --routing=hashed --mode=reactive 1> /tmp/pox.out 2> /tmp/pox.out".

Definition timer_cmd : pystr := lit "./timer.py".

Definition main_ft (n : namespace) : stm world unit :=
  a ← st_lift (parse_args_ft n);
  pc ← st_lift (py_format pox_fmt_ft [VInt (a_k a)]);
  _ ← popen PPox pc;
  _ ← sleep 1;
  _ ← net_build;
  _ ← net_start;
  _ ← enable_mptcp (a_nflows a);
  _ ← sleep 3;
  m ← st_lift (create_mappings_ft shuffle (a_ns a) (a_nr a) (net_hosts (a_k a)));
  _ ← debug_setup a (msnd m ++ mrcv m);
  _ ← launch_receivers receiver_cmd_ft a (mrcv m);
  _ ← sleep 1;
  _ ← launch_senders sender_cmd_ft a (ips_of (mrcv m)) (msnd m);
  _ ← popen PTimer timer_cmd;
  tts ← wait_all (msnd m);
  ttr ← wait_all (mrcv m);
  _ ← kill PTimer;
  _ ← net_stop;
  _ ← kill PPox;
  _ ← proc_wait PPox;
  _ ← reset;
  on_fs (write_results_ft (dict_of tts) (dict_of ttr) a).

(** test_ft.py's handler: as test0.py's, without copying the POX log. *)
Definition handler_ft : stm world unit :=
  _ ← traceback;
  _ ← reset;
  os_system killall_cmd kill_all.

Definition run_ft (n : namespace) : stm world unit := try_except (main_ft n) handler_ft.

End Main.

(** ** Runs of the loops *)

(** The events of [h.cmd('echo >', '/tmp/<name>.out')]. *)
Definition echo_events (hs : list host) : list event :=
  concat (map (fun h => [ESendCmd h (send_cmd_text [VStr (lit "echo >");
                                                    VStr (lit "/tmp/" ++ hname h ++ lit ".out")]);
                         EWaitOutput h]) hs).

(** What [waitOutput] returns for each launched [(host, command)]. *)
Definition outputs `{Env} (hcs : list (host * pystr)) : list (host * pystr) :=
  map (fun '(h, c) => (h, out_of h c)) hcs.

Section Loops.
Context `{Env}.

Lemma echo_one h w :
  w_waiting w !! h = None ->
  (f ← st_lift (out_file h); _ ← node_cmd h (send_cmd_text [VStr (lit "echo >"); VStr f]);
   mret tt) w =
  (mkWorld (w_fs w) (w_mptcp w) (w_procs w) (w_net w) (w_waiting w)
           (w_trace w ++ echo_events [h]), Ok tt).
Proof.
  intros Hw. rewrite st_bind_run. unfold st_lift at 1. rewrite out_file_text.
  cbn iota beta. rewrite st_bind_run, node_cmd_run by done. reflexivity.
Qed.

Lemma echo_files_run hs w :
  Forall (fun h => w_waiting w !! h = None) hs ->
  echo_files hs w =
  (mkWorld (w_fs w) (w_mptcp w) (w_procs w) (w_net w) (w_waiting w) (w_trace w ++ echo_events hs),
   Ok tt).
Proof.
  revert w. induction hs as [|h hs IH]; intros w Hfree.
  - destruct w; simpl. by rewrite app_nil_r.
  - apply Forall_cons in Hfree as [Hw Hfree]. unfold echo_files. cbn [st_iter].
    rewrite st_bind_run, echo_one by done. cbn iota beta.
    fold (echo_files hs). rewrite IH by done. simpl. by rewrite <- app_assoc.
Qed.

Lemma wait_all_run hs hcs w :
  map fst hcs = hs -> NoDup hs -> Forall (fun '(h, c) => w_waiting w !! h = Some c) hcs ->
  wait_all hs w =
  (mkWorld (w_fs w) (w_mptcp w) (w_procs w) (w_net w) (del_all (w_waiting w) hs)
           (w_trace w ++ map EWaitOutput hs), Ok (outputs hcs)).
Proof.
  intros <-. revert w. induction hcs as [|[h c] hcs IH]; intros w Hnd Hw.
  - destruct w; simpl. by rewrite app_nil_r.
  - simpl in Hnd. apply NoDup_cons in Hnd as [Hh Hnd]. apply Forall_cons in Hw as [Hc Hw].
    cbn [map fst wait_all]. rewrite st_bind_run. unfold wait_output at 1. rewrite Hc.
    cbn iota beta. rewrite st_bind_run, IH; [|done|].
    { unfold set_waiting, add_ev. simpl. by rewrite <- app_assoc. }
    apply Forall_forall. intros [h' c'] Hin. simpl.
    rewrite lookup_delete_ne; [by eapply Forall_forall in Hw; [|exact Hin]|].
    intros ->. apply Hh. by apply (list_elem_of_fmap_2 fst _ (h', c')).
Qed.

End Loops.

(** ** The parts of [main] that leave the multipath switch alone *)

Section Keeps.
Context `{Env}.

Lemma keeps_echo_files hs : keeps w_mptcp (echo_files hs).
Proof. unfold echo_files. auto with keeps. Qed.

Lemma keeps_debug_setup a hs : keeps w_mptcp (debug_setup a hs).
Proof. unfold debug_setup. destruct (a_debug a); auto using keeps_echo_files with keeps. Qed.

Lemma keeps_launch_receivers rcmd a rcvrs : keeps w_mptcp (launch_receivers rcmd a rcvrs).
Proof. unfold launch_receivers. auto with keeps. Qed.

Lemma keeps_launch_senders scmd a ips sndrs : keeps w_mptcp (launch_senders scmd a ips sndrs).
Proof. unfold launch_senders. apply keeps_iter. intros [s i]. auto with keeps. Qed.

Lemma keeps_wait_all hs : keeps w_mptcp (wait_all hs).
Proof. induction hs; simpl; auto with keeps. Qed.

End Keeps.

#[export] Hint Resolve keeps_echo_files keeps_debug_setup keeps_launch_receivers
  keeps_launch_senders keeps_wait_all : keeps.

(** A whole block of [main] keeps the switch: one [keeps_bind] per step. *)
Ltac solve_keeps := repeat (apply keeps_bind; [|intros ?]); auto with keeps.

(** Symbolic execution up to the first call of [main] that matches [stop]:
    every step before it is skipped, its exceptions discharged by [HE]. *)
Ltac skip_until stop HE :=
  repeat lazymatch goal with
  | |- wp (mbind _ ?c) _ _ _ =>
      lazymatch c with
      | stop => fail
      | stop _ => fail
      | _ => apply wp_bind_skip; [intros ? ?|exact HE]
      end
  end.

(** ** Theorems on the multipath switch *)

Section Mptcp.
Context `{Env}.

(** C1 (safety): test_ft.py leaves the kernel's multipath switch off on
    every exit path: after a normal end of [main] (which calls [reset()]
    before [write_results]) and after any exception (whose handler calls
    [reset()]), whichever external call raised; the script itself never
    ends with an exception. *)
Theorem run_ft_resets (n : namespace) (w w' : world) (r : result unit) :
  run_ft n w = (w', r) -> r = Ok tt /\ w_mptcp w' = false.
Proof.
  intros Hrun.
  assert (HE : forall (e : exc) w1, wp handler_ft (fun _ w2 => w_mptcp w2 = false) (fun _ _ => False) w1)
    by (intros; reflexivity).
  assert (Hwp : wp (run_ft n) (fun _ w2 => w_mptcp w2 = false) (fun _ _ => False) w).
  { unfold run_ft. rewrite wp_try_except. unfold main_ft.
    skip_until reset HE.
    rewrite wp_bind. unfold reset. rewrite wp_modify.
    apply (wp_keeps w_mptcp); [auto with keeps|by intros ? ? ->|intros e1 w2 _; apply (HE e1)]. }
  pose proof (wp_result _ _ _ _ _ _ Hwp Hrun) as Hr. destruct r as [[]|e]; [by split|done].
Qed.

(** C2 (safety): test0.py never calls [reset()] after a normal end of
    [main]: once [main] returns, the multipath switch that
    [enable_mptcp] turned on is still on when the script exits, unlike
    test_ft.py. *)
Theorem run_dht_leaves_mptcp (n : namespace) (w w' : world) :
  main_dht n w = (w', Ok tt) -> run_dht n w = (w', Ok tt) /\ w_mptcp w' = true.
Proof.
  intros Hrun. split; [unfold run_dht, try_except; by rewrite Hrun|].
  assert (HE : forall (e : exc) (w1 : world), True) by done.
  assert (Hwp : wp (main_dht n) (fun _ w2 => w_mptcp w2 = true) (fun _ _ => True) w).
  { unfold main_dht. skip_until (enable_mptcp (H := H)) HE.
    rewrite wp_bind. unfold enable_mptcp. rewrite wp_ext. destruct (fails _); [done|].
    apply (wp_keeps w_mptcp); [solve_keeps|by intros ? ? ->|done]. }
  exact (wp_result _ _ _ _ _ _ Hwp Hrun).
Qed.

End Mptcp.

(** ** The success path of test_ft.py *)

Definition pox_cmd_ft (k : Z) : pystr :=
  lit "exec ~/pox/pox.py --no-cli riplpox.riplpox --topo=ft," ++ str_Z k ++
  lit " --routing=hashed --mode=reactive 1> /tmp/pox.out 2> /tmp/pox.out".

Lemma pox_fmt_ft_text k : py_format pox_fmt_ft [VInt k] = Ok (pox_cmd_ft k).
Proof. unfold py_format, pox_fmt_ft. compute_fmt. reflexivity. Qed.

Section Runs.
Context `{Env}.

Lemma debug_setup_run a hs w :
  Forall (fun h => w_waiting w !! h = None) hs ->
  debug_setup a hs w =
  (mkWorld (w_fs w) (w_mptcp w) (w_procs w) (w_net w) (w_waiting w)
     (w_trace w ++ if a_debug a then echo_events hs ++ echo_events hs else []), Ok tt).
Proof.
  intros Hfree. unfold debug_setup. destruct (a_debug a).
  - rewrite st_bind_run, echo_files_run by done. cbn iota beta.
    rewrite echo_files_run by done. simpl. by rewrite <- app_assoc.
  - destruct w. simpl. by rewrite app_nil_r.
Qed.

Lemma launch_receivers_run rcmd a rcvrs rc w :
  for_each (fun r => c ← rcmd a r; Ok (r, c)) rcvrs = Ok rc -> NoDup rcvrs ->
  Forall (fun r => w_waiting w !! r = None) rcvrs ->
  launch_receivers rcmd a rcvrs w =
  (mkWorld (w_fs w) (w_mptcp w) (w_procs w) (w_net w) (ins_all (w_waiting w) rc)
           (w_trace w ++ sends rc), Ok tt).
Proof.
  intros Hc Hnd Hfree. apply (launch_run (fun r => r) (rcmd a)); [done| |done].
  by rewrite list_fmap_id.
Qed.

Lemma launch_senders_run scmd a ips sndrs sc w :
  for_each (fun '(s, i) => c ← scmd a ips s i; Ok (s, c)) (zip sndrs (seq 0 (length sndrs))) = Ok sc ->
  NoDup sndrs -> Forall (fun s => w_waiting w !! s = None) sndrs ->
  launch_senders scmd a ips sndrs w =
  (mkWorld (w_fs w) (w_mptcp w) (w_procs w) (w_net w) (ins_all (w_waiting w) sc)
           (w_trace w ++ sends sc), Ok tt).
Proof.
  intros Hc Hnd Hfree. unfold launch_senders.
  rewrite (st_iter_ext _ (fun x => c ← st_lift ((fun '(s, i) => scmd a ips s i) x); send_cmd (fst x) c))
    by (intros [s i]; done).
  assert (Hfst : map fst (zip sndrs (seq 0 (length sndrs))) = sndrs)
    by (apply fst_zip; rewrite length_seq; lia).
  apply launch_run.
  - rewrite <- Hc. apply for_each_ext. by intros [s i].
  - by rewrite Hfst.
  - apply Forall_forall. intros [s i] Hin. simpl.
    apply list_elem_of_In, (in_map fst), list_elem_of_In in Hin. rewrite Hfst in Hin.
    by eapply Forall_forall in Hfree.
Qed.

(** The sender loop started at index [k]: on success it sent, in order,
    one command to each sender, the one at position [i] computed with the
    id [k + i]. *)
Lemma iter_senders_trace (scmd : args -> pyval -> host -> nat -> result pystr) a ips sndrs k w w' :
  st_iter (fun '(s, i) => c ← st_lift (scmd a ips s i); send_cmd s c)
          (zip sndrs (seq k (length sndrs))) w = (w', Ok tt) ->
  exists cmds, length cmds = length sndrs /\
    w_trace w' = w_trace w ++ sends (zip sndrs cmds) /\
    forall i s c, sndrs !! i = Some s -> cmds !! i = Some c -> scmd a ips s (k + i) = Ok c.
Proof.
  revert k w. induction sndrs as [|s sndrs IH]; intros k w Hrun.
  - injection Hrun as <-. exists []. split_and!; [done|by rewrite app_nil_r|done].
  - cbn [length seq zip st_iter] in Hrun. rewrite st_bind_run in Hrun. cbn iota beta in Hrun.
    rewrite st_bind_run in Hrun. unfold st_lift at 1 in Hrun.
    destruct (scmd a ips s k) as [c|e] eqn:Hc; [|discriminate].
    cbn iota beta in Hrun. unfold send_cmd at 1 in Hrun.
    destruct (w_waiting w !! s); [discriminate|].
    destruct (IH (S k) _ Hrun) as (cmds & Hlen & Ht & Hcmd).
    exists (c :: cmds). split_and!; [simpl; by rewrite Hlen| |].
    + rewrite Ht. simpl. by rewrite <- app_assoc.
    + intros [|i] s' c'; simpl; [intros [= <-] [= <-]; by rewrite Nat.add_0_r|].
      intros Hs Hc'. rewrite Nat.add_succ_r. by apply (Hcmd i).
Qed.

End Runs.

(** Read a field of a world built by the calls of World.v. *)
Ltac world_simpl :=
  cbn [w_fs w_mptcp w_procs w_net w_waiting w_trace add_ev set_fs set_mptcp set_procs
       set_net set_waiting id].

(** One step of [main] whose run is given by [L]. *)
Ltac run_step L :=
  lazymatch goal with
  | |- ?lhs ?s = _ =>
      lazymatch lhs with
      | @mbind _ _ _ _ ?f ?c =>
          let E := fresh "E" in
          eassert (E : c s = (_, Ok _)) by L;
          etransitivity; [exact (bind_run_Ok c f s _ _ E)|]; clear E; cbv beta; world_simpl
      end
  end.

Lemma receiver_cmds_hosts (rcmd : args -> host -> result pystr) a rcvrs rc :
  for_each (fun r => c ← rcmd a r; Ok (r, c)) rcvrs = Ok rc -> map fst rc = rcvrs.
Proof. intros Hrc. rewrite (for_each_hosts (fun r => r) (rcmd a) _ _ Hrc). apply list_fmap_id. Qed.

Lemma sender_cmds_hosts (scmd : args -> pyval -> host -> nat -> result pystr) a ips sndrs sc :
  for_each (fun '(s, i) => c ← scmd a ips s i; Ok (s, c)) (zip sndrs (seq 0 (length sndrs)))
    = Ok sc ->
  map fst sc = sndrs.
Proof.
  intros Hsc. rewrite <- (fst_zip sndrs (seq 0 (length sndrs))) by (rewrite length_seq; lia).
  apply (for_each_hosts fst (fun '(s, i) => scmd a ips s i)).
  rewrite <- Hsc. apply for_each_ext. by intros [s i].
Qed.

(** ** The ids of the senders *)

Section SenderIds.

(** C23 (functional): when the sender loop of test_ft.py
    ([for s,i in zip(sndrs,range(len(sndrs)))]) completes, with an int
    chunk size and debugging off, it has sent exactly one command to each
    sender, in the order of [sndrs], and the command of the sender at
    position [i] is the sender command with [--id i]: the ids are
    [0 .. len(sndrs) - 1] in launch order. *)
Theorem launch_senders_ids (a : args) (cs : Z) (rcvrs sndrs : list host) (w w' : world) :
  a_cs a = VInt cs -> a_debug a = false ->
  launch_senders sender_cmd_ft a (ips_of rcvrs) sndrs w = (w', Ok tt) ->
  exists cmds, length cmds = length sndrs /\
    w_trace w' = w_trace w ++ sends (zip sndrs cmds) /\
    forall i c, cmds !! i = Some c -> c = sender_ft_line a cs rcvrs i.
Proof.
  intros Hcs Hd Hrun. unfold launch_senders in Hrun.
  destruct (iter_senders_trace _ _ _ _ 0 _ _ Hrun) as (cmds & Hlen & Ht & Hc).
  exists cmds. split_and!; [done|done|]. intros i c Hi.
  destruct (lookup_lt_is_Some_2 sndrs i) as [s Hs]; [rewrite <- Hlen; by eapply lookup_lt_Some|].
  specialize (Hc i s c Hs Hi). rewrite (sender_ft_text a cs) in Hc by done. by injection Hc.
Qed.

End SenderIds.

(** ** The blocks [main] of both scripts share *)

Section Blocks.
Context `{Env}.

(** The debug files, the receivers, [sleep(1)] and the senders, from a
    state where no host runs a command. *)
Lemma launch_block_run {B} rcmd scmd a ips (m : mapping) rc sc (k : stm world B) w :
  w_waiting w = ∅ -> NoDup (msnd m ++ mrcv m) ->
  for_each (fun r => c ← rcmd a r; Ok (r, c)) (mrcv m) = Ok rc ->
  for_each (fun '(s, i) => c ← scmd a ips s i; Ok (s, c))
           (zip (msnd m) (seq 0 (length (msnd m)))) = Ok sc ->
  (_ ← debug_setup a (msnd m ++ mrcv m); _ ← launch_receivers rcmd a (mrcv m); _ ← sleep 1;
   _ ← launch_senders scmd a ips (msnd m); k) w =
  k (mkWorld (w_fs w) (w_mptcp w) (w_procs w) (w_net w) (ins_all (ins_all ∅ rc) sc)
       (w_trace w ++
        (if a_debug a then echo_events (msnd m ++ mrcv m) ++ echo_events (msnd m ++ mrcv m)
         else []) ++ sends rc ++ [ESleep 1] ++ sends sc)).
Proof.
  intros Hw0 Hnd Hrc Hsc.
  apply NoDup_app in Hnd as (Hnds & Hdisj & Hndr).
  pose proof (receiver_cmds_hosts _ _ _ _ Hrc) as Hr.
  run_step ltac:(apply debug_setup_run; rewrite Hw0;
                 apply Forall_forall; intros; apply lookup_empty).
  run_step ltac:(apply launch_receivers_run; [exact Hrc|exact Hndr|];
                 world_simpl; rewrite Hw0; apply Forall_forall; intros; apply lookup_empty).
  run_step ltac:(reflexivity).
  run_step ltac:(apply launch_senders_run; [exact Hsc|exact Hnds|];
                 world_simpl; rewrite Hw0; apply Forall_forall; intros s Hin;
                 rewrite ins_all_notin; [apply lookup_empty|rewrite Hr; by apply Hdisj]).
  by rewrite Hw0, <- !app_assoc.
Qed.

(** [waitOutput] on every sender and then every receiver, each running
    the command it was launched with. *)
Lemma wait_block_run {B} (m : mapping) rc sc
    (k : list (host * pystr) -> list (host * pystr) -> stm world B) w :
  w_waiting w = ins_all (ins_all ∅ rc) sc -> map fst rc = mrcv m -> map fst sc = msnd m ->
  NoDup (msnd m ++ mrcv m) ->
  (tts ← wait_all (msnd m); ttr ← wait_all (mrcv m); k tts ttr) w =
  k (outputs sc) (outputs rc)
    (mkWorld (w_fs w) (w_mptcp w) (w_procs w) (w_net w) ∅
       (w_trace w ++ map EWaitOutput (msnd m) ++ map EWaitOutput (mrcv m))).
Proof.
  intros Hw Hr Hs Hnd. apply NoDup_app in Hnd as (Hnds & Hdisj & Hndr).
  run_step ltac:(apply wait_all_run; [exact Hs|exact Hnds|];
                 apply Forall_forall; intros [h c] Hin; rewrite Hw;
                 apply ins_all_lookup; [by rewrite Hs|done]).
  run_step ltac:(apply wait_all_run; [exact Hr|exact Hndr|];
                 apply Forall_forall; intros [h c] Hin; world_simpl; rewrite Hw;
                 assert (h ∈ mrcv m) by (rewrite <- Hr; by apply (list_elem_of_fmap_2 fst _ (h, c)));
                 rewrite del_all_notin by (intros ?; by eapply Hdisj);
                 rewrite ins_all_notin by (rewrite Hs; intros ?; by eapply Hdisj);
                 apply ins_all_lookup; [by rewrite Hr|done]).
  rewrite Hw, del_all_two, <- app_assoc; [done|].
  intros h c Hh.
  apply ins_all_keys in Hh as [Hh|Hh]; [rewrite Hs in Hh; set_solver|].
  apply ins_all_keys in Hh as [Hh|Hh]; [rewrite Hr in Hh; set_solver|].
  by rewrite lookup_empty in Hh.
Qed.

End Blocks.

Lemma answered_echo hs : answered (echo_events hs).
Proof. unfold echo_events. induction hs as [|h hs IH]; simpl; [done|]. split; [by left|done]. Qed.

(** The host of a launched [(host, command)] gets its [waitOutput]. *)
Lemma waited_in (hs : list host) (hcs : list (host * pystr)) h c :
  map fst hcs = hs -> (h, c) ∈ hcs -> EWaitOutput h ∈ map EWaitOutput hs.
Proof. intros <- Hin. apply list_elem_of_fmap_2. by apply (list_elem_of_fmap_2 fst hcs (h, c)). Qed.

Section FtRun.
Context `{Env}.

(** The run of test_ft.py on its success path. *)
Lemma main_ft_success_run (n : namespace) (w : world) (a : args) (m : mapping)
    (rc sc : list (host * pystr)) :
  (forall e, fails e = false) -> w_waiting w = ∅ -> w_procs w = [] ->
  parse_args_ft n = Ok a ->
  create_mappings_ft shuffle (a_ns a) (a_nr a) (net_hosts (a_k a)) = Ok m ->
  NoDup (msnd m ++ mrcv m) ->
  for_each (fun r => c ← receiver_cmd_ft a r; Ok (r, c)) (mrcv m) = Ok rc ->
  for_each (fun '(s, i) => c ← sender_cmd_ft a (ips_of (mrcv m)) s i; Ok (s, c))
           (zip (msnd m) (seq 0 (length (msnd m)))) = Ok sc ->
  main_ft n w =
  (set_fs (fst (write_results_ft (dict_of (outputs sc)) (dict_of (outputs rc)) a (w_fs w)))
     (mkWorld (w_fs w) false [] false ∅
        (w_trace w ++
         [EPopen PPox (pox_cmd_ft (a_k a)); ESleep 1; ENetBuild; ENetStart;
          EEnableMptcp (a_nflows a); ESleep 3] ++
         (if a_debug a then echo_events (msnd m ++ mrcv m) ++ echo_events (msnd m ++ mrcv m)
          else []) ++
         sends rc ++ [ESleep 1] ++ sends sc ++ [EPopen PTimer timer_cmd] ++
         map EWaitOutput (msnd m) ++ map EWaitOutput (mrcv m) ++
         [EKill PTimer; ENetStop; EKill PPox; EProcWait PPox; EReset])),
   snd (write_results_ft (dict_of (outputs sc)) (dict_of (outputs rc)) a (w_fs w))).
Proof.
  intros Hnf Hw0 Hp0 Ha Hm Hnd Hrc Hsc.
  pose proof (receiver_cmds_hosts _ _ _ _ Hrc) as Hr.
  pose proof (sender_cmds_hosts _ _ _ _ _ Hsc) as Hs.
  unfold main_ft.
  run_step ltac:(unfold st_lift; rewrite Ha; reflexivity).
  run_step ltac:(unfold st_lift; rewrite pox_fmt_ft_text; reflexivity).
  run_step ltac:(apply ext_run, Hnf).
  run_step ltac:(reflexivity).
  do 3 run_step ltac:(apply ext_run, Hnf).
  run_step ltac:(reflexivity).
  run_step ltac:(unfold st_lift; rewrite Hm; reflexivity).
  etransitivity; [by apply launch_block_run|]. world_simpl.
  run_step ltac:(apply ext_run, Hnf).
  etransitivity; [by apply wait_block_run|]. world_simpl.
  run_step ltac:(reflexivity).
  run_step ltac:(apply ext_run, Hnf).
  do 3 run_step ltac:(reflexivity).
  unfold on_fs. world_simpl. rewrite Hp0.
  destruct (write_results_ft _ _ a (w_fs w)) as [f r]. cbn [fst snd].
  unfold set_fs. world_simpl. by rewrite <- !app_assoc.
Qed.

(** C3 (functional): a run of test_ft.py's [main] in which no library
    call fails, the arguments parse, the mappings exist with distinct
    hosts and every command formats, makes exactly these calls in this
    order: POX, the network, [enable_mptcp], the debug files, the
    receivers (each with its command), the senders (index [i] with its
    command), the timer, a [waitOutput] on every sender and then every
    receiver, the teardown (timer, network, then POX), [reset()]; every
    host is waited for and no process is left; then [write_results]
    runs on the dicts of the collected outputs. *)
Theorem main_ft_run (n : namespace) (w : world) (a : args) (m : mapping)
    (rc sc : list (host * pystr)) :
  (forall e, fails e = false) -> w_waiting w = ∅ -> w_procs w = [] ->
  parse_args_ft n = Ok a ->
  create_mappings_ft shuffle (a_ns a) (a_nr a) (net_hosts (a_k a)) = Ok m ->
  NoDup (msnd m ++ mrcv m) ->
  for_each (fun r => c ← receiver_cmd_ft a r; Ok (r, c)) (mrcv m) = Ok rc ->
  for_each (fun '(s, i) => c ← sender_cmd_ft a (ips_of (mrcv m)) s i; Ok (s, c))
           (zip (msnd m) (seq 0 (length (msnd m)))) = Ok sc ->
  main_ft n w =
  (set_fs (fst (write_results_ft (dict_of (outputs sc)) (dict_of (outputs rc)) a (w_fs w)))
     (mkWorld (w_fs w) false [] false ∅
        (w_trace w ++
         [EPopen PPox (pox_cmd_ft (a_k a)); ESleep 1; ENetBuild; ENetStart;
          EEnableMptcp (a_nflows a); ESleep 3] ++
         (if a_debug a then echo_events (msnd m ++ mrcv m) ++ echo_events (msnd m ++ mrcv m)
          else []) ++
         sends rc ++ [ESleep 1] ++ sends sc ++ [EPopen PTimer timer_cmd] ++
         map EWaitOutput (msnd m) ++ map EWaitOutput (mrcv m) ++
         [EKill PTimer; ENetStop; EKill PPox; EProcWait PPox; EReset])),
   snd (write_results_ft (dict_of (outputs sc)) (dict_of (outputs rc)) a (w_fs w))).
Proof. apply main_ft_success_run. Qed.

(** C8 (liveness): on the success path of test_ft.py every command
    started with [sendCmd] (the debug [echo]s, each receiver, each
    sender) is followed, later in the run, by a [waitOutput] on its host:
    no launched transfer is left unjoined. *)
Theorem main_ft_answered (n : namespace) (w : world) (a : args) (m : mapping)
    (rc sc : list (host * pystr)) :
  (forall e, fails e = false) -> w_waiting w = ∅ -> w_procs w = [] ->
  parse_args_ft n = Ok a ->
  create_mappings_ft shuffle (a_ns a) (a_nr a) (net_hosts (a_k a)) = Ok m ->
  NoDup (msnd m ++ mrcv m) ->
  for_each (fun r => c ← receiver_cmd_ft a r; Ok (r, c)) (mrcv m) = Ok rc ->
  for_each (fun '(s, i) => c ← sender_cmd_ft a (ips_of (mrcv m)) s i; Ok (s, c))
           (zip (msnd m) (seq 0 (length (msnd m)))) = Ok sc ->
  exists tr, w_trace (fst (main_ft n w)) = w_trace w ++ tr /\ answered tr.
Proof.
  intros Hnf Hw0 Hp0 Ha Hm Hnd Hrc Hsc.
  pose proof (receiver_cmds_hosts _ _ _ _ Hrc) as Hr.
  pose proof (sender_cmds_hosts _ _ _ _ _ Hsc) as Hs.
  rewrite (main_ft_success_run n w a m rc sc) by done. cbn [fst]. world_simpl.
  eexists; split; [reflexivity|].
  apply answered_app; [done|]. apply answered_app.
  { destruct (a_debug a); [apply answered_app; apply answered_echo|done]. }
  apply answered_sends; [intros h c Hin; pose proof (waited_in _ _ _ _ Hr Hin); set_solver|].
  cbn [app answered].
  apply answered_sends; [intros h c Hin; pose proof (waited_in _ _ _ _ Hs Hin); set_solver|].
  cbn [app answered]. by apply answered_waits, answered_waits.
Qed.


(** C15 (functional): with [-ns 0 -nr 0] (and debugging off) a run of
    test_ft.py in which no library call fails starts POX, the network,
    MPTCP and the timer, sends no command to any host, tears everything
    down and writes a results file of two empty lines, each of which a
    reader takes for one empty value rather than none. *)
Theorem main_ft_no_hosts (n : namespace) (w : world) (a : args) (p : pystr) :
  (forall e, fails e = false) -> w_waiting w = ∅ -> w_procs w = [] ->
  parse_args_ft n = Ok a -> a_ns a = 0%Z -> a_nr a = 0%Z -> a_debug a = false ->
  results_path_ft a = Ok p -> dirname p ∈ fs_dirs (w_fs w) ->
  exists w', main_ft n w = (w', Ok tt) /\
    w_trace w' = w_trace w ++
      [EPopen PPox (pox_cmd_ft (a_k a)); ESleep 1; ENetBuild; ENetStart; EEnableMptcp (a_nflows a);
       ESleep 3; ESleep 1; EPopen PTimer timer_cmd; EKill PTimer; ENetStop; EKill PPox;
       EProcWait PPox; EReset] /\
    fs_files (w_fs w') !! p = Some [nl; nl].
Proof.
  intros Hnf Hw0 Hp0 Ha Hns Hnr Hd Hp Hdir.
  assert (Hm : create_mappings_ft shuffle (a_ns a) (a_nr a) (net_hosts (a_k a)) = Ok (mkMapping [] [])).
  { apply ft_mappings_iff; [apply shuffle_perm|]. rewrite Hns, Hnr. split_and!; simpl; [lia|lia|done]. }
  rewrite (main_ft_success_run n w a (mkMapping [] []) [] []) by (done || constructor).
  unfold write_results_ft. rewrite write_results_run, Hp. cbv zeta.
  rewrite bool_decide_eq_true_2.
  2:{ destruct (path_exists _ _); [done|]. unfold makedirs. simpl. set_solver. }
  eexists; split; [reflexivity|]. cbn [fst]. world_simpl. split.
  - rewrite Hd. reflexivity.
  - unfold set_fs. simpl. by rewrite lookup_insert_eq.
Qed.

End FtRun.

(** ** The success path of test0.py *)

Section DhtRun.
Context `{Env}.

Lemma main_dht_success_run (n : namespace) (w : world) (a : args) (m : mapping)
    (rc sc : list (host * pystr)) :
  (forall e, fails e = false) -> w_waiting w = ∅ -> w_procs w = [] ->
  parse_args_dht n = Ok a ->
  create_mappings_dht (a_ns a) (a_nr a) (net_hosts (a_k a)) = Ok m ->
  NoDup (msnd m ++ mrcv m) ->
  for_each (fun r => c ← receiver_cmd_dht a r; Ok (r, c)) (mrcv m) = Ok rc ->
  for_each (fun '(s, i) => c ← sender_cmd_dht a (ips_of (mrcv m)) s i; Ok (s, c))
           (zip (msnd m) (seq 0 (length (msnd m)))) = Ok sc ->
  main_dht n w =
  (set_fs (fst (write_results_dht (dict_of (outputs sc)) (dict_of (outputs rc)) a (w_fs w)))
     (mkWorld (w_fs w) true [] false ∅
        (w_trace w ++
         [EPopen PPox pox_cmd_dht; ESleep 1; ENetBuild; ENetStart;
          EEnableMptcp (a_nflows a); ESleep 3] ++
         (if a_debug a then echo_events (msnd m ++ mrcv m) ++ echo_events (msnd m ++ mrcv m)
          else []) ++
         sends rc ++ [ESleep 1] ++ sends sc ++
         map EWaitOutput (msnd m) ++ map EWaitOutput (mrcv m) ++
         [EKill PPox; EProcWait PPox; ENetStop])),
   snd (write_results_dht (dict_of (outputs sc)) (dict_of (outputs rc)) a (w_fs w))).
Proof.
  intros Hnf Hw0 Hp0 Ha Hm Hnd Hrc Hsc.
  pose proof (receiver_cmds_hosts _ _ _ _ Hrc) as Hr.
  pose proof (sender_cmds_hosts _ _ _ _ _ Hsc) as Hs.
  unfold main_dht.
  run_step ltac:(unfold st_lift; rewrite Ha; reflexivity).
  run_step ltac:(apply ext_run, Hnf).
  run_step ltac:(reflexivity).
  do 2 run_step ltac:(apply ext_run, Hnf).
  run_step ltac:(unfold st_lift; rewrite Hm; reflexivity).
  run_step ltac:(apply ext_run, Hnf).
  run_step ltac:(reflexivity).
  etransitivity; [by apply launch_block_run|]. world_simpl.
  etransitivity; [by apply wait_block_run|]. world_simpl.
  do 2 run_step ltac:(reflexivity).
  run_step ltac:(apply ext_run, Hnf).
  unfold on_fs. world_simpl. rewrite Hp0.
  destruct (write_results_dht _ _ a (w_fs w)) as [f r]. cbn [fst snd].
  unfold set_fs. world_simpl. by rewrite <- !app_assoc.
Qed.

(** C5 (functional): a run of test0.py's [main] in which no library
    call fails, the arguments parse, the two selected hosts differ and
    every command formats, makes exactly these calls in this order: POX,
    the network, [enable_mptcp] (after the mappings), the debug files,
    the receiver, the sender, a [waitOutput] on each, then POX is killed
    and waited for before the network stops; every host is waited for,
    no process is left, MPTCP is still on, and [write_results] runs on
    the dicts of the collected outputs. *)
Theorem main_dht_run (n : namespace) (w : world) (a : args) (m : mapping)
    (rc sc : list (host * pystr)) :
  (forall e, fails e = false) -> w_waiting w = ∅ -> w_procs w = [] ->
  parse_args_dht n = Ok a ->
  create_mappings_dht (a_ns a) (a_nr a) (net_hosts (a_k a)) = Ok m ->
  NoDup (msnd m ++ mrcv m) ->
  for_each (fun r => c ← receiver_cmd_dht a r; Ok (r, c)) (mrcv m) = Ok rc ->
  for_each (fun '(s, i) => c ← sender_cmd_dht a (ips_of (mrcv m)) s i; Ok (s, c))
           (zip (msnd m) (seq 0 (length (msnd m)))) = Ok sc ->
  main_dht n w =
  (set_fs (fst (write_results_dht (dict_of (outputs sc)) (dict_of (outputs rc)) a (w_fs w)))
     (mkWorld (w_fs w) true [] false ∅
        (w_trace w ++
         [EPopen PPox pox_cmd_dht; ESleep 1; ENetBuild; ENetStart;
          EEnableMptcp (a_nflows a); ESleep 3] ++
         (if a_debug a then echo_events (msnd m ++ mrcv m) ++ echo_events (msnd m ++ mrcv m)
          else []) ++
         sends rc ++ [ESleep 1] ++ sends sc ++
         map EWaitOutput (msnd m) ++ map EWaitOutput (mrcv m) ++
         [EKill PPox; EProcWait PPox; ENetStop])),
   snd (write_results_dht (dict_of (outputs sc)) (dict_of (outputs rc)) a (w_fs w))).
Proof. apply main_dht_success_run. Qed.

End DhtRun.

(** ** Teardown and the exception handlers *)

(** The calls after the skipped part of [main]: no failure of the last
    external call, then [write_results], which adds no event. *)
Ltac run_suffix :=
  unfold kill, proc_wait, net_stop, reset; autorewrite with wp;
  destruct (fails ENetStop); [done|];
  apply wp_trivial; [|done]; intros ? ?; world_simpl;
  rewrite <- !app_assoc; eexists; reflexivity.

Section Teardown.
Context `{Env}.

(** C9 (safety): on a normal end of test0.py's [main], the POX
    controller is killed and waited for before [net.stop()]; the spec's
    teardown stops the network first and the controller after it. *)
Theorem main_dht_teardown (n : namespace) (w w' : world) :
  main_dht n w = (w', Ok tt) ->
  exists pre, w_trace w' = pre ++ [EKill PPox; EProcWait PPox; ENetStop].
Proof.
  intros Hrun. assert (HE : forall (e : exc) (w1 : world), True) by done.
  assert (Hwp : wp (main_dht n)
    (fun _ w2 => exists pre, w_trace w2 = pre ++ [EKill PPox; EProcWait PPox; ENetStop])
    (fun _ _ => True) w).
  { unfold main_dht. skip_until kill HE. run_suffix. }
  exact (wp_result _ _ _ _ _ _ Hwp Hrun).
Qed.

(** C19 (safety): test_ft.py tears down in the spec's order: on a normal
    end of [main] the last calls are [net.stop()], then the POX kill and
    wait, then [reset()]. *)
Theorem main_ft_teardown (n : namespace) (w w' : world) :
  main_ft n w = (w', Ok tt) ->
  exists pre, w_trace w' = pre ++ [ENetStop; EKill PPox; EProcWait PPox; EReset].
Proof.
  intros Hrun. assert (HE : forall (e : exc) (w1 : world), True) by done.
  assert (Hwp : wp (main_ft n)
    (fun _ w2 => exists pre, w_trace w2 = pre ++ [ENetStop; EKill PPox; EProcWait PPox; EReset])
    (fun _ _ => True) w).
  { unfold main_ft. skip_until (net_stop (H := H)) HE. run_suffix. }
  exact (wp_result _ _ _ _ _ _ Hwp Hrun).
Qed.

(** C12 (functional): when [main] of test0.py raises, whatever raised,
    the handler prints the traceback, calls [reset()], copies the POX
    log and kills every Python process and the network: the script ends
    normally with the multipath switch off, no process left and the
    network down. *)
Theorem run_dht_handler (n : namespace) (w w' : world) (e : exc) :
  main_dht n w = (w', Raise e) ->
  exists w'', run_dht n w = (w'', Ok tt) /\
    w_mptcp w'' = false /\ w_procs w'' = [] /\ w_net w'' = false /\
    w_trace w'' = w_trace w' ++ [ETraceback; EReset; ESystem (lit "cp /tmp/pox.out .");
                                 ESystem killall_cmd].
Proof.
  intros Hrun. unfold run_dht, try_except. rewrite Hrun.
  eexists; split; [reflexivity|]. world_simpl. split_and!; try done.
  unfold kill_all. world_simpl. by rewrite <- !app_assoc.
Qed.

(** C13 (functional): when [main] of test_ft.py raises, whatever
    raised, the handler prints the traceback, calls [reset()] and runs
    [killall python2.7; mn -c; killall controller]: the script ends
    without an exception, MPTCP off, no process left and the network
    down; unlike test0.py and the spec's failure handling it does not
    copy the controller's log [/tmp/pox.out]. *)
Theorem run_ft_handler (n : namespace) (w w' : world) (e : exc) :
  main_ft n w = (w', Raise e) ->
  exists w'', run_ft n w = (w'', Ok tt) /\
    w_mptcp w'' = false /\ w_procs w'' = [] /\ w_net w'' = false /\
    w_trace w'' = w_trace w' ++ [ETraceback; EReset; ESystem killall_cmd].
Proof.
  intros Hrun. unfold run_ft, try_except. rewrite Hrun.
  eexists; split; [reflexivity|]. world_simpl. split_and!; try done.
  unfold kill_all. world_simpl. by rewrite <- !app_assoc.
Qed.

End Teardown.

(** ** A selection that raises *)

Section ErrorPaths.
Context `{Env}.

(** When [create_mappings] raises in test_ft.py, POX, the network and
    MPTCP have already been started. *)
Lemma main_ft_mappings_raise (n : namespace) (w : world) (a : args) (e : exc) :
  (forall ev, fails ev = false) -> parse_args_ft n = Ok a ->
  create_mappings_ft shuffle (a_ns a) (a_nr a) (net_hosts (a_k a)) = Raise e ->
  main_ft n w =
  (mkWorld (w_fs w) true (PPox :: w_procs w) true (w_waiting w)
     (w_trace w ++ [EPopen PPox (pox_cmd_ft (a_k a)); ESleep 1; ENetBuild; ENetStart;
                    EEnableMptcp (a_nflows a); ESleep 3]), Raise e).
Proof.
  intros Hnf Ha Hm. unfold main_ft.
  run_step ltac:(unfold st_lift; rewrite Ha; reflexivity).
  run_step ltac:(unfold st_lift; rewrite pox_fmt_ft_text; reflexivity).
  run_step ltac:(apply ext_run, Hnf).
  run_step ltac:(reflexivity).
  do 3 run_step ltac:(apply ext_run, Hnf).
  run_step ltac:(reflexivity).
  apply bind_run_Raise. unfold st_lift. rewrite Hm. f_equal.
  apply world_ext; world_simpl; try reflexivity. by rewrite <- !app_assoc.
Qed.

(** C14 (error): when a pool of test_ft.py is shorter than [-ns] or
    [-nr], [main] raises IndexError after POX, the network and MPTCP are
    up and before any host is sent a command; the [except:] handler then
    resets MPTCP and kills POX and the network, and the run ends without
    an exception. *)
Theorem run_ft_short_pool (n : namespace) (w : world) (a : args) :
  (forall ev, fails ev = false) -> parse_args_ft n = Ok a ->
  length (sender_pool (net_hosts (a_k a))) < Z.to_nat (a_ns a) \/
  length (receiver_pool (net_hosts (a_k a))) < Z.to_nat (a_nr a) ->
  exists w', run_ft n w = (w', Ok tt) /\
    w_mptcp w' = false /\ w_procs w' = [] /\ w_net w' = false /\
    w_waiting w' = w_waiting w /\
    w_trace w' = w_trace w ++ [EPopen PPox (pox_cmd_ft (a_k a)); ESleep 1; ENetBuild; ENetStart;
                               EEnableMptcp (a_nflows a); ESleep 3; ETraceback; EReset;
                               ESystem killall_cmd].
Proof.
  intros Hnf Ha Hshort. unfold run_ft, try_except.
  rewrite (main_ft_mappings_raise n w a IndexError) by
    (done || by apply (ft_mappings_short shuffle shuffle_perm)).
  eexists; split; [reflexivity|]. world_simpl. split_and!; try done.
  unfold kill_all. world_simpl. by rewrite <- !app_assoc.
Qed.

End ErrorPaths.

(** ** No [sendCmd] of [main] fails its assertion *)

(** Every host that runs a command is in [l]. *)
Definition waits_within (l : list host) (w : world) : Prop :=
  forall h c, w_waiting w !! h = Some c -> h ∈ l.

Section Safety.
Context `{Env}.

Lemma wp_lift_bind {A B} (r : result A) (f : A -> stm world B) Q w :
  no_assert r -> (forall a, r = Ok a -> wp (f a) Q not_assert w) ->
  wp (x ← st_lift r; f x) Q not_assert w.
Proof. intros Hr Hf. rewrite wp_bind, wp_lift. destruct r as [a|e]; [by apply Hf|by apply Hr]. Qed.

Lemma wp_of_safe {A} (c : stm world A) w :
  safe (fun _ => True) c -> wp c (fun _ _ => True) not_assert w.
Proof. intros Hc. eapply wp_mono; [| |by apply Hc]; [done|]. by intros e w' []. Qed.

Lemma safe_wait_all hs : safe (fun _ => True) (wait_all hs).
Proof. induction hs; simpl; auto with safe. Qed.

Lemma safe_debug_setup a hs : safe idle (debug_setup a hs).
Proof. unfold debug_setup, echo_files. destruct (a_debug a); auto 6 with safe noassert. Qed.

#[local] Hint Resolve safe_wait_all safe_debug_setup : safe.

(** One [sendCmd] of a launch loop, to a host not yet waiting. *)
Lemma wp_send_fresh (r : result pystr) h l w :
  no_assert r -> waits_within l w -> h ∉ l ->
  wp (c ← st_lift r; send_cmd h c) (fun _ => waits_within (l ++ [h])) not_assert w.
Proof.
  intros Hr Hw Hh. apply wp_lift_bind; [done|]. intros c _. rewrite wp_send_cmd.
  destruct (w_waiting w !! h) eqn:E; [destruct Hh; by eapply Hw|].
  intros h' c' Hl. unfold send_world in Hl; simpl in Hl.
  apply lookup_insert_Some in Hl as [[-> _]|[_ Hl]]; apply elem_of_app; [right|left].
  - by apply list_elem_of_singleton.
  - by eapply Hw.
Qed.

Lemma wp_launch_receivers rcmd a rcvrs w :
  NoDup rcvrs -> (forall r, no_assert (rcmd a r)) -> waits_within [] w ->
  wp (launch_receivers rcmd a rcvrs) (fun _ => waits_within rcvrs) not_assert w.
Proof.
  intros Hnd Hr Hw. apply (wp_iter _ _ waits_within); [|done].
  intros pre x post w1 -> Hw1. apply wp_send_fresh; [done|done|].
  apply NoDup_app in Hnd as (_ & Hd & _). intros Hx. apply (Hd x Hx). by left.
Qed.

Lemma wp_launch_senders scmd a ips sndrs l w :
  NoDup sndrs -> (forall s, s ∈ sndrs -> s ∉ l) -> (forall s i, no_assert (scmd a ips s i)) ->
  waits_within l w ->
  wp (launch_senders scmd a ips sndrs) (fun _ => waits_within (l ++ sndrs)) not_assert w.
Proof.
  intros Hnd Hl Hs Hw. unfold launch_senders.
  eapply wp_mono; [| |apply (wp_iter _ _ (fun pre => waits_within (l ++ map fst pre)) not_assert)];
    [|done| |by rewrite app_nil_r].
  { intros u w'. by rewrite fst_zip by (rewrite length_seq; lia). }
  intros pre [s i] post w1 Hz Hw1. rewrite map_app, app_assoc. apply wp_send_fresh; [done|done|].
  apply (f_equal (map fst)) in Hz. rewrite fst_zip in Hz by (rewrite length_seq; lia).
  rewrite map_app in Hz. simpl in Hz. rewrite Hz in Hnd, Hl.
  apply not_elem_of_app. split; [apply Hl; set_solver|].
  apply NoDup_app in Hnd as (_ & Hd & _). intros Hx. apply (Hd s Hx). by left.
Qed.

(** The two launch loops of [main] and the [sleep(1)] between them. *)
Lemma wp_launch {B} rcmd scmd a ips (m : mapping) (k : stm world B) Q w :
  idle w -> separated m -> (forall r, no_assert (rcmd a r)) ->
  (forall s i, no_assert (scmd a ips s i)) -> (forall w', wp k Q not_assert w') ->
  wp (_ ← launch_receivers rcmd a (mrcv m); _ ← sleep 1; _ ← launch_senders scmd a ips (msnd m); k)
     Q not_assert w.
Proof.
  intros Hw (Hs & Hr & Hd) Hrc Hsc Hk. rewrite wp_bind.
  eapply wp_mono; [| |apply wp_launch_receivers]; [|done|done|done|].
  - intros u w1 Hw1. rewrite wp_bind. unfold sleep at 1. rewrite wp_modify, wp_bind.
    eapply wp_mono; [| |apply (wp_launch_senders _ _ _ _ (mrcv m))]; [done|done|done| |done|done].
    intros s Hin Hin'. by apply (Hd s).
  - intros h c Hc. unfold idle in Hw. by rewrite Hw, lookup_empty in Hc.
Qed.

Ltac safe_step P :=
  apply (wp_safe_bind P); [auto with safe noassert|assumption|intros ? ?w ?Hw|by intros ?? ? _].

Lemma main_ft_wp n w :
  (forall k, NoDup (net_hosts k)) -> (forall k, Forall (fun h => count_dots (hip h) <= 3) (net_hosts k)) ->
  idle w -> wp (main_ft n) (fun _ _ => True) not_assert w.
Proof.
  intros Hnd Hips Hw. unfold main_ft.
  apply wp_lift_bind; [auto with noassert|intros a _].
  do 7 safe_step idle.
  apply wp_lift_bind; [auto with noassert|intros m Hm].
  safe_step idle. apply wp_launch; auto with noassert.
  - eapply ft_mappings_separated; [apply shuffle_perm|apply Hnd|apply Hips|exact Hm].
  - intros w'. apply wp_of_safe. auto 20 with safe noassert.
Qed.

Lemma main_dht_wp n w :
  (forall k, NoDup (net_hosts k)) -> idle w -> wp (main_dht n) (fun _ _ => True) not_assert w.
Proof.
  intros Hnd Hw. unfold main_dht.
  apply wp_lift_bind; [auto with noassert|intros a _].
  do 4 safe_step idle.
  apply wp_lift_bind; [auto with noassert|intros m Hm].
  do 3 safe_step idle. apply wp_launch; auto with noassert.
  - eapply dht_mappings_separated; [apply Hnd|exact Hm].
  - intros w'. apply wp_of_safe. auto 20 with safe noassert.
Qed.

(** Reading a [wp] with [not_assert] as a fact of the run. *)
Lemma wp_not_assert {A} (c : stm world A) Q w :
  wp c Q not_assert w -> snd (c w) <> Raise AssertionError.
Proof.
  intros Hwp Hr. destruct (c w) as [w' r] eqn:E. simpl in Hr. subst r.
  by apply (wp_result _ _ _ _ _ _ Hwp E).
Qed.

(** C4 (safety): in a run of test_ft.py's [main] that starts with no
    host running a command, on a network whose hosts are distinct and
    have dotted-quad addresses, no [sendCmd] fails Mininet's
    [assert not self.waiting]: whatever [main] raises (a parse error,
    IndexError, a library error), it is not AssertionError. *)
Theorem main_ft_no_assertion (n : namespace) (w : world) :
  (forall k, NoDup (net_hosts k)) ->
  (forall k, Forall (fun h => count_dots (hip h) <= 3) (net_hosts k)) ->
  idle w -> snd (main_ft n w) <> Raise AssertionError.
Proof. intros Hnd Hips Hw. by eapply wp_not_assert, main_ft_wp. Qed.

(** C10 (safety): the same of test0.py's [main], on a network whose
    hosts are distinct: its one sender [net.hosts[0]] and its one receiver
    [net.hosts[4]] are then different hosts. *)
Theorem main_dht_no_assertion (n : namespace) (w : world) :
  (forall k, NoDup (net_hosts k)) -> idle w -> snd (main_dht n w) <> Raise AssertionError.
Proof. intros Hnd Hw. by eapply wp_not_assert, main_dht_wp. Qed.

End Safety.

(** ** A concrete run *)

(** The environment of the witnesses: no library call fails, every
    command prints the time ['1.5\n'], the network is the [k = 4] fat tree
    and [random.shuffle] reverses its list. *)
Definition demo_env : Env := {|
  fails := fun _ => false;
  out_of := fun _ _ => lit "1.5" ++ [nl];
  net_hosts := fun _ => ft4_hosts;
  shuffle := rev_shuffle;
  shuffle_perm := rev_shuffle_perm |}.

(** A fresh machine: no results directory, nothing running. *)
Definition w0 : world := mkWorld (mkFs ∅ ∅) false [] false ∅ [].

(** [-ns 9]: more senders than the network has. *)
Definition ns_nine : namespace := {|
  n_bw := VInt 10; n_k := VInt 4; n_sw := VInt 1; n_ns := VInt 9; n_nr := VInt 1;
  n_nflows := VInt 1; n_ds := VStr (lit "covtype"); n_cs := VInt 500;
  n_mptcp := false; n_debug := false |}.

Definition h_s : host := mkHost (lit "2_1_3") (lit "10.2.1.3").
Definition h_r : host := mkHost (lit "3_1_3") (lit "10.3.1.3").

Definition demo_args : args :=
  mkArgs 10 4 None 1 1 1 (VStr (lit "covtype")) (VInt 500) false false.

Definition dht_args : args :=
  mkArgs 10 4 (Some 1%Z) 1 1 1 (VStr (lit "covtype")) (VInt 500) false false.

(** [-ns 0 -nr 0], with [../results] present. *)
Definition ns_zero : namespace := {|
  n_bw := VInt 10; n_k := VInt 4; n_sw := VInt 1; n_ns := VInt 0; n_nr := VInt 0;
  n_nflows := VInt 1; n_ds := VStr (lit "covtype"); n_cs := VInt 500;
  n_mptcp := false; n_debug := false |}.

Definition w_res : world := mkWorld (mkFs {[lit "../results"]} ∅) false [] false ∅ [].

(** ** Witnesses *)

Lemma run_ft_resets_witness :
  snd (@run_ft demo_env ns_nine w0) = Ok tt /\ w_mptcp (fst (@run_ft demo_env ns_nine w0)) = false.
Proof. apply (@run_ft_resets demo_env ns_nine w0). apply surjective_pairing. Defined.

Lemma run_dht_leaves_mptcp_witness :
  @run_dht demo_env defaults w0 = (fst (@main_dht demo_env defaults w0), Ok tt) /\
  w_mptcp (fst (@main_dht demo_env defaults w0)) = true.
Proof. apply (@run_dht_leaves_mptcp demo_env defaults w0). vm_compute. reflexivity. Defined.

(** The spec's scenario A on test_ft.py: one sender, one receiver, a
    results file of two lines holding one value each. *)
Lemma main_ft_run_witness :
  snd (@main_ft demo_env defaults w0) = Ok tt /\
  w_waiting (fst (@main_ft demo_env defaults w0)) = ∅ /\
  w_procs (fst (@main_ft demo_env defaults w0)) = [] /\
  fs_files (w_fs (fst (@main_ft demo_env defaults w0)))
    !! lit "../results/bw10_ns1_nr_1_nf1_covtype_tcp.csv" =
  Some (lit "1.5" ++ nl :: lit "1.5" ++ [nl]).
Proof.
  rewrite (@main_ft_run demo_env defaults w0 demo_args (mkMapping [h_s] [h_r])
             [(h_r, lit "python receiver.py --id 3_1_3 --nr 1 --ns 1 --ds covtype")]
             [(h_s, lit "python sender.py --id 0 --cs 500 --ips ['10.3.1.3'] --ds covtype")]);
    [|intros; reflexivity|reflexivity..|decide_lit|reflexivity|reflexivity].
  vm_compute. split_and!; reflexivity.
Defined.

Lemma main_ft_answered_witness :
  exists tr, w_trace (fst (@main_ft demo_env defaults w0)) = w_trace w0 ++ tr /\ answered tr.
Proof.
  apply (@main_ft_answered demo_env defaults w0 demo_args (mkMapping [h_s] [h_r])
           [(h_r, lit "python receiver.py --id 3_1_3 --nr 1 --ns 1 --ds covtype")]
           [(h_s, lit "python sender.py --id 0 --cs 500 --ips ['10.3.1.3'] --ds covtype")]);
    [intros; reflexivity|reflexivity..|decide_lit|reflexivity|reflexivity].
Defined.

(** [-ns 9] on the 16-host fat tree, whose sender pool has 8 hosts. *)
Lemma run_ft_short_pool_witness :
  w_procs (fst (@run_ft demo_env ns_nine w0)) = [] /\
  w_net (fst (@run_ft demo_env ns_nine w0)) = false.
Proof.
  destruct (@run_ft_short_pool demo_env ns_nine w0
              (mkArgs 10 4 None 9 1 1 (VStr (lit "covtype")) (VInt 500) false false))
    as (w' & E & _ & Hp & Hn & _); [intros; reflexivity|reflexivity|left; vm_compute; lia|].
  rewrite E. split; assumption.
Defined.

(** Two senders: ids 0 and 1, in order. *)
Lemma launch_senders_ids_witness :
  w_trace (fst (launch_senders sender_cmd_ft args_cs_int (ips_of [h_r]) [h_s; h_snd] w0)) =
  [ESendCmd h_s (sender_ft_line args_cs_int 500 [h_r] 0);
   ESendCmd h_snd (sender_ft_line args_cs_int 500 [h_r] 1)].
Proof.
  destruct (launch_senders_ids args_cs_int 500 [h_r] [h_s; h_snd] w0
              (fst (launch_senders sender_cmd_ft args_cs_int (ips_of [h_r]) [h_s; h_snd] w0)))
    as (cmds & Hlen & Ht & Hc); [reflexivity|reflexivity|vm_compute; reflexivity|].
  rewrite Ht. destruct cmds as [|c0 [|c1 [|]]]; try discriminate.
  rewrite (Hc 0 c0), (Hc 1 c1) by reflexivity. reflexivity.
Defined.

Lemma main_ft_no_hosts_witness :
  fs_files (w_fs (fst (@main_ft demo_env ns_zero w_res)))
    !! lit "../results/bw10_ns0_nr_0_nf1_covtype_tcp.csv" = Some [nl; nl].
Proof.
  destruct (@main_ft_no_hosts demo_env ns_zero w_res
              (mkArgs 10 4 None 0 0 1 (VStr (lit "covtype")) (VInt 500) false false)
              (lit "../results/bw10_ns0_nr_0_nf1_covtype_tcp.csv"))
    as (w' & E & _ & Hf); [intros; reflexivity|reflexivity..|decide_lit|].
  rewrite E. exact Hf.
Defined.

(** The default run of test0.py: [net.hosts[0]] sends to [net.hosts[4]]. *)
Lemma main_dht_run_witness :
  snd (@main_dht demo_env defaults w0) = Ok tt /\
  w_mptcp (fst (@main_dht demo_env defaults w0)) = true /\
  w_waiting (fst (@main_dht demo_env defaults w0)) = ∅ /\
  w_procs (fst (@main_dht demo_env defaults w0)) = [] /\
  fs_files (w_fs (fst (@main_dht demo_env defaults w0)))
    !! lit "../results/bw10_sw1_ns1_nr_1_nf1_covtype.csv" =
  Some (lit "1.5" ++ nl :: lit "1.5" ++ [nl]).
Proof.
  rewrite (@main_dht_run demo_env defaults w0 dht_args (mkMapping [h_snd] [h_rcv])
             [(h_rcv, lit "python receiver.py --id 1_0_2 --nr 1 --ns 1 --ds covtype")]
             [(h_snd, lit "python sender.py --id 0 --cs 500 --ns 1 --ips ['10.1.0.2'] --ds covtype")]);
    [|intros; reflexivity|reflexivity..|decide_lit|reflexivity|reflexivity].
  vm_compute. split_and!; reflexivity.
Defined.

Lemma main_dht_teardown_witness :
  exists pre, w_trace (fst (@main_dht demo_env defaults w0)) =
              pre ++ [EKill PPox; EProcWait PPox; ENetStop].
Proof. apply (@main_dht_teardown demo_env defaults w0). vm_compute. reflexivity. Defined.

Lemma main_ft_teardown_witness :
  exists pre, w_trace (fst (@main_ft demo_env defaults w0)) =
              pre ++ [ENetStop; EKill PPox; EProcWait PPox; EReset].
Proof. apply (@main_ft_teardown demo_env defaults w0). vm_compute. reflexivity. Defined.

Lemma run_dht_handler_witness :
  w_procs (fst (@run_dht demo_env ns_nine w0)) = [] /\
  w_net (fst (@run_dht demo_env ns_nine w0)) = false.
Proof.
  destruct (@run_dht_handler demo_env ns_nine w0 (fst (@main_dht demo_env ns_nine w0)) IndexError)
    as (w'' & E & _ & Hp & Hn & _); [vm_compute; reflexivity|].
  rewrite E. split; assumption.
Defined.

(** [-ns 9] makes test_ft.py's [create_mappings] raise IndexError after
    POX and the network were started: both are left running. *)
Lemma run_ft_handler_witness :
  w_mptcp (fst (@run_ft demo_env ns_nine w0)) = false /\
  w_procs (fst (@run_ft demo_env ns_nine w0)) = [].
Proof.
  destruct (@run_ft_handler demo_env ns_nine w0 (fst (@main_ft demo_env ns_nine w0)) IndexError)
    as (w'' & E & Hm & Hp & _); [vm_compute; reflexivity|].
  rewrite E. split; assumption.
Defined.

(** The default run of each script launches its hosts without a failed
    assertion. *)
Lemma main_ft_no_assertion_witness :
  snd (@main_ft demo_env defaults w0) <> Raise AssertionError.
Proof.
  apply (@main_ft_no_assertion demo_env defaults w0);
    [intros k; decide_lit|intros k; decide_lit|reflexivity].
Defined.

Lemma main_dht_no_assertion_witness :
  snd (@main_dht demo_env defaults w0) <> Raise AssertionError.
Proof. apply (@main_dht_no_assertion demo_env defaults w0); [intros k; decide_lit|reflexivity]. Defined.

(** ** The spec's orchestration sequence *)

(** The steps of the orchestration sequence of the spec (its section 2)
    that the trace shows: the controller, the network, the multipath
    switch, each receiver launch, each sender launch, each wait, and the
    teardown of the network and of the controller. *)
Inductive phase :=
  | PController | PNetwork | PMultipath | PLaunchReceiver | PLaunchSender
  | PAwait | PStopNetwork | PStopController.

(** The abstraction of an event, given the receiver hosts: sleeps, the
    timer, the network build and [reset()] are not steps of the spec. *)
Definition phase_of (rcvrs : list host) (e : event) : option phase :=
  match e with
  | EPopen PPox _ => Some PController
  | ENetStart => Some PNetwork
  | EEnableMptcp _ => Some PMultipath
  | ESendCmd h _ => Some (if bool_decide (h ∈ rcvrs) then PLaunchReceiver else PLaunchSender)
  | EWaitOutput _ => Some PAwait
  | ENetStop => Some PStopNetwork
  | EKill PPox => Some PStopController
  | _ => None
  end.

(** The spec's sequence for [nr] receivers and [ns] senders. *)
Definition spec_run (nr ns : nat) : list phase :=
  [PController; PNetwork; PMultipath] ++ replicate nr PLaunchReceiver ++
  replicate ns PLaunchSender ++ replicate (ns + nr) PAwait ++ [PStopNetwork; PStopController].

Lemma omap_sends rcvrs hcs (p : phase) :
  Forall (fun hc => (if bool_decide (hc.1 ∈ rcvrs) then PLaunchReceiver else PLaunchSender) = p) hcs ->
  omap (phase_of rcvrs) (sends hcs) = replicate (length hcs) p.
Proof.
  induction 1 as [|[h c] hcs Hp _ IH]; [done|].
  change (sends ((h, c) :: hcs)) with (ESendCmd h c :: sends hcs).
  cbn [omap list_omap phase_of length replicate]. cbn in Hp. rewrite Hp. f_equal. exact IH.
Qed.

Lemma omap_waits rcvrs hs : omap (phase_of rcvrs) (map EWaitOutput hs) = replicate (length hs) PAwait.
Proof.
  induction hs as [|h hs IH]; [done|].
  change (map EWaitOutput (h :: hs)) with (EWaitOutput h :: map EWaitOutput hs).
  cbn [omap list_omap phase_of length replicate]. f_equal. exact IH.
Qed.

Section Refinement.
Context `{Env}.

(** C7 (refinement): a run of test_ft.py as in [main_ft_run], without
    debugging, implements the spec's orchestration sequence: abstracted
    to the spec's steps, the calls it makes are the controller, the
    network, the multipath switch, one launch per receiver, then one per
    sender, one wait per sender and receiver, the network teardown and
    then the controller teardown. *)
Theorem main_ft_refines_spec (n : namespace) (w : world) (a : args) (m : mapping)
    (rc sc : list (host * pystr)) :
  (forall e, fails e = false) -> w_waiting w = ∅ -> w_procs w = [] ->
  parse_args_ft n = Ok a -> a_debug a = false ->
  create_mappings_ft shuffle (a_ns a) (a_nr a) (net_hosts (a_k a)) = Ok m ->
  NoDup (msnd m ++ mrcv m) ->
  for_each (fun r => c ← receiver_cmd_ft a r; Ok (r, c)) (mrcv m) = Ok rc ->
  for_each (fun '(s, i) => c ← sender_cmd_ft a (ips_of (mrcv m)) s i; Ok (s, c))
           (zip (msnd m) (seq 0 (length (msnd m)))) = Ok sc ->
  omap (phase_of (mrcv m)) (drop (length (w_trace w)) (w_trace (fst (main_ft n w)))) =
  spec_run (length (mrcv m)) (length (msnd m)).
Proof.
  intros Hnf Hw0 Hp0 Ha Hd Hm Hnd Hrc Hsc.
  rewrite (main_ft_success_run n w a m rc sc) by done.
  cbn [fst set_fs w_trace]. rewrite drop_app_length, Hd.
  pose proof (receiver_cmds_hosts _ _ _ _ Hrc) as Hr.
  pose proof (sender_cmds_hosts _ _ _ _ _ Hsc) as Hs.
  apply NoDup_app in Hnd as (_ & Hdisj & _).
  rewrite !omap_app, (omap_sends _ rc PLaunchReceiver), (omap_sends _ sc PLaunchSender), !omap_waits.
  - rewrite <- Hr, <- Hs, !length_map. unfold spec_run.
    rewrite replicate_add. simpl. by rewrite <- !app_assoc.
  - apply Forall_forall. intros [h c] Hin. simpl. rewrite bool_decide_false; [done|].
    apply Hdisj. rewrite <- Hs. by apply (list_elem_of_fmap_2 fst _ (h, c)).
  - apply Forall_forall. intros [h c] Hin. simpl. rewrite bool_decide_true; [done|].
    rewrite <- Hr. by apply (list_elem_of_fmap_2 fst _ (h, c)).
Qed.

End Refinement.

Lemma main_ft_refines_spec_witness :
  omap (phase_of [h_r]) (drop 0 (w_trace (fst (@main_ft demo_env defaults w0)))) =
  spec_run 1 1.
Proof.
  apply (@main_ft_refines_spec demo_env defaults w0 demo_args (mkMapping [h_s] [h_r])
           [(h_r, lit "python receiver.py --id 3_1_3 --nr 1 --ns 1 --ds covtype")]
           [(h_s, lit "python sender.py --id 0 --cs 500 --ips ['10.3.1.3'] --ds covtype")]);
    [intros; reflexivity|reflexivity..|decide_lit|reflexivity|reflexivity].
Defined.
